(** * BookBot chat widget: panel interaction and transcript engine

    A shallow embedding of [static/bookbot-widget.js].  The widget is one
    closure over a handful of mutable variables ([state], [panel], [fab],
    [log], [input], [sendBtn], [stickBottom] and the drag / resize session
    variables); the embedding threads them through a [world] record.

    Conventions
    - JavaScript strings are [string]s of UTF-8 bytes.  Every character the
      widget inspects (the five escaped characters, the newline, white
      space) is either one ASCII byte or a fixed multi-byte sequence, so
      byte-wise processing agrees with the code-unit-wise processing of the
      engine.
    - JavaScript numbers are integers [Z] (CSS pixels, quantities), taken
      in the range where a number is an exact integer and prints as its
      decimal digits.
    - A thrown exception is the [Throw] completion. *)

From Stdlib Require Import ZArith List String Ascii Bool Lia.
From Stdlib Require Import DecimalString DecimalZ DecimalPos DecimalFacts.
Import ListNotations.

Set Warnings "-register-all".
Open Scope string_scope.
Open Scope Z_scope.

(* ------------------------------------------------------------------ *)
(** * JavaScript values *)

Module JS.

(** Values that reach the widget: parsed JSON plus [undefined], the result
    of reading a property that is not there. *)
Inductive value : Type :=
| VUndefined
| VNull
| VBool (b : bool)
| VNum (n : Z)
| VStr (s : string)
| VArr (items : list value)
| VObj (fields : list (string * value)).

(** Abrupt and normal completions.  The only exception the rendering code
    can raise on JSON data is a [TypeError]. *)
Inductive completion (A : Type) : Type :=
| Normal (a : A)
| Throw.
Arguments Normal {A} a.
Arguments Throw {A}.

Definition bind {A B} (c : completion A) (k : A -> completion B) : completion B :=
  match c with
  | Normal a => k a
  | Throw => Throw
  end.

Notation "x <- c ;; k" := (bind c (fun x => k))
  (at level 61, c at next level, right associativity).

Fixpoint mapM {A B} (f : A -> completion B) (l : list A) : completion (list B) :=
  match l with
  | [] => Normal []
  | a :: l' => b <- f a ;; bs <- mapM f l' ;; Normal (b :: bs)
  end.

(** The double quote, which a string literal cannot hold directly, and the
    line feed. *)
Definition dq : string := String "034"%char EmptyString.
Definition nl : string := String "010"%char EmptyString.

(** [Array.prototype.join]. *)
Fixpoint join (sep : string) (l : list string) : string :=
  match l with
  | [] => ""
  | [s] => s
  | s :: l' => s ++ sep ++ join sep l'
  end.

(** Own-property lookup in an object literal. *)
Fixpoint lookup (k : string) (fields : list (string * value)) : option value :=
  match fields with
  | [] => None
  | (k', v) :: rest => if String.eqb k k' then Some v else lookup k rest
  end.

Definition has_key (k : string) (fields : list (string * value)) : bool :=
  match lookup k fields with Some _ => true | None => false end.

(** [o[k] = v]: overwrite in place when the key exists, else add it last. *)
Fixpoint assign_key (k : string) (v : value) (fields : list (string * value))
  : list (string * value) :=
  match fields with
  | [] => [(k, v)]
  | (k', v') :: rest =>
      if String.eqb k k' then (k, v) :: rest else (k', v') :: assign_key k v rest
  end.

(** [o.k] on an object given by its fields. *)
Definition field (k : string) (fields : list (string * value)) : value :=
  match lookup k fields with Some v => v | None => VUndefined end.

(** [v.k] for the property names the widget reads (none of them is
    inherited from a prototype): a [TypeError] on [undefined] and [null],
    the own property of an object, [undefined] everywhere else. *)
Definition prop (v : value) (k : string) : completion value :=
  match v with
  | VUndefined | VNull => Throw
  | VObj fields => Normal (field k fields)
  | _ => Normal VUndefined
  end.

(** ToBoolean. *)
Definition truthy (v : value) : bool :=
  match v with
  | VUndefined | VNull => false
  | VBool b => b
  | VNum n => negb (n =? 0)
  | VStr s => negb (String.eqb s "")
  | VArr _ | VObj _ => true
  end.

(** [a || b]. *)
Definition or_else (a b : value) : value := if truthy a then a else b.

Definition isArray (v : value) : bool :=
  match v with VArr _ => true | _ => false end.

(** Number to string, for integers. *)
Definition Z_to_string (n : Z) : string := NilZero.string_of_int (Z.to_int n).

(** ToString.  An array joins its elements with a comma, [null] and
    [undefined] elements giving the empty string.  A plain object gives
    ["[object Object]"], unless it has an own ["toString"] property: parsed
    JSON never holds a function, so the conversion finds nothing callable
    that returns a primitive and throws. *)
Fixpoint ToString (v : value) : completion string :=
  match v with
  | VUndefined => Normal "undefined"
  | VNull => Normal "null"
  | VBool true => Normal "true"
  | VBool false => Normal "false"
  | VNum n => Normal (Z_to_string n)
  | VStr s => Normal s
  | VArr items =>
      ss <- (fix elements (l : list value) : completion (list string) :=
               match l with
               | [] => Normal []
               | x :: l' =>
                   s <- match x with
                        | VUndefined | VNull => Normal ""
                        | _ => ToString x
                        end ;;
                   ss <- elements l' ;;
                   Normal (s :: ss)
               end) items ;;
      Normal (join "," ss)
  | VObj fields =>
      if has_key "toString" fields then Throw else Normal "[object Object]"
  end.

(** An array index: a canonical decimal numeral below [2^32 - 1].  Such
    keys are enumerated first, in ascending order. *)
Definition arrayIndex (k : string) : option Z :=
  match NilZero.int_of_string k with
  | Some d =>
      let n := Z.of_int d in
      if String.eqb (Z_to_string n) k && (0 <=? n) && (n <? 4294967295)
      then Some n else None
  | None => None
  end.

(** Where a new key goes in the enumeration order of an object. *)
Fixpoint insert_key (k : string) (v : value) (fields : list (string * value))
  : list (string * value) :=
  match fields with
  | [] => [(k, v)]
  | (k', v') :: rest =>
      match arrayIndex k, arrayIndex k' with
      | Some n, Some n' =>
          if n <? n' then (k, v) :: fields else (k', v') :: insert_key k v rest
      | Some _, None => (k, v) :: fields
      | None, _ => (k', v') :: insert_key k v rest
      end
  end.

(** [o[k] = v] on a plain object: the value is replaced where the key
    stands, a new key is added in enumeration order. *)
Definition set_key (k : string) (v : value) (fields : list (string * value))
  : list (string * value) :=
  if has_key k fields then assign_key k v fields else insert_key k v fields.

End JS.

Import JS.

(* ------------------------------------------------------------------ *)
(** * Escaping and render dispatch (bot payload to markup) *)

Module Render.

(** The replacement table of [escapeHtml]; any other character is kept. *)
Definition escapeChar (c : ascii) : string :=
  if Ascii.eqb c "&" then "&amp;"
  else if Ascii.eqb c "<" then "&lt;"
  else if Ascii.eqb c ">" then "&gt;"
  else if Ascii.eqb c "034" then "&quot;"
  else if Ascii.eqb c "'" then "&#39;"
  else String c EmptyString.

(** The global replace of [escapeHtml]: every occurrence of one of the
    five characters is replaced through the table. *)
Fixpoint replaceMarkup (s : string) : string :=
  match s with
  | EmptyString => EmptyString
  | String c rest => escapeChar c ++ replaceMarkup rest
  end.

(** [escapeHtml = s => String(s).replace(...)]. *)
Definition escapeHtml (s : value) : completion string :=
  str <- ToString s ;; Normal (replaceMarkup str).

(** [t.replace(/\n/g, "<br/>")]. *)
Fixpoint replaceNewlines (s : string) : string :=
  match s with
  | EmptyString => EmptyString
  | String c rest =>
      (if Ascii.eqb c "010" then "<br/>" else String c EmptyString)
      ++ replaceNewlines rest
  end.

(** [v.map(f)] where [f] builds a string: only arrays have [map]; on any
    other (non-nullish) value the call is a [TypeError]. *)
Definition array_map (v : value) (f : value -> completion string)
  : completion (list string) :=
  match v with
  | VArr items => mapM f items
  | _ => Throw
  end.

(** [a && b], with [b] evaluated only when [a] is truthy. *)
Definition and_then (a : value) (b : completion value) : completion value :=
  if truthy a then b else Normal a.

Definition is_false (v : value) : bool :=
  match v with VBool false => true | _ => false end.

Definition is_number (v : value) : bool :=
  match v with VNum _ => true | _ => false end.

Definition fallbackMessage : string :=
  "Mình chưa rõ nhu cầu, bạn mô tả chi tiết hơn nhé!".

(** The arrow function mapped over [data.recommendations]. *)
Definition recommendationItem (x : value) : completion string :=
  title <- prop x "title" ;;
  t <- escapeHtml title ;;
  author <- prop x "author" ;;
  a <- escapeHtml (or_else author (VStr "N/A")) ;;
  reason <- prop x "reason" ;;
  r <- escapeHtml (or_else reason (VStr "")) ;;
  in_stock <- prop x "in_stock" ;;
  Normal ("<li><b>" ++ t ++ "</b> — " ++ a ++ "<br><i>" ++ r ++ "</i>"
          ++ (if is_false in_stock
              then " <span style=" ++ dq ++ "color:#b00" ++ dq ++ ">(ngoài kho)</span>"
              else "")
          ++ "</li>").

(** First branch of [renderBot]: the recommendation list and the follow-up
    question. *)
Definition renderRecommendations (data : value) : completion string :=
  recommendations <- prop data "recommendations" ;;
  items <- array_map recommendations recommendationItem ;;
  let li := join "" items in
  follow_up <- prop data "follow_up" ;;
  follow <- (if truthy follow_up
             then f <- escapeHtml follow_up ;;
                  Normal ("<div style=" ++ dq ++ "margin-top:6px" ++ dq
                          ++ "><b>Hỏi thêm:</b> " ++ f ++ "</div>")
             else Normal "") ;;
  Normal ("<ul>" ++ li ++ "</ul>" ++ follow).

(** Second branch: the summary card. *)
Definition renderSummary (data : value) : completion string :=
  summary <- prop data "summary" ;;
  let s := or_else summary (VObj []) in
  s_bullets <- prop s "bullets" ;;
  items <- array_map (or_else s_bullets (VArr []))
             (fun x => e <- escapeHtml x ;; Normal ("<li>" ++ e ++ "</li>")) ;;
  let bullets := join "" items in
  qty <- prop s "qty" ;;
  stock <- (if is_number qty
            then q <- ToString qty ;;
                 Normal (" <span style=" ++ dq ++ "color:#555" ++ dq
                         ++ ">(còn " ++ q ++ ")</span>")
            else Normal "") ;;
  s_title <- prop s "title" ;;
  t <- escapeHtml (or_else s_title (VStr "N/A")) ;;
  s_author <- prop s "author" ;;
  a <- escapeHtml (or_else s_author (VStr "N/A")) ;;
  Normal (nl ++ "      <div>" ++ nl
          ++ "        <div><b>" ++ t ++ "</b> — " ++ a ++ stock ++ "</div>" ++ nl
          ++ "        <ul style=" ++ dq ++ "margin:6px 0 0 18px" ++ dq ++ ">"
          ++ bullets ++ "</ul>" ++ nl
          ++ "      </div>" ++ nl
          ++ "    ").

(** The arrow function mapped over [data.books]. *)
Definition bookLine (b : value) : completion string :=
  title <- prop b "title" ;;
  t <- escapeHtml title ;;
  author <- prop b "author" ;;
  a <- escapeHtml author ;;
  qty <- prop b "qty" ;;
  q <- ToString qty ;;
  Normal ("• <b>" ++ t ++ "</b> — " ++ a ++ " (còn " ++ q ++ ")").

(** Third branch: the answer text and the book lines. *)
Definition renderAnswer (data : value) : completion string :=
  data_books <- prop data "books" ;;
  lines <- array_map (or_else data_books (VArr [])) bookLine ;;
  let books := join "<br/>" lines in
  answer <- prop data "answer" ;;
  a <- escapeHtml answer ;;
  Normal (a ++ (if truthy (VStr books)
                then "<div style='margin-top:6px'>" ++ books ++ "</div>"
                else "")).

(** Last branch: the raw text, or the fixed message. *)
Definition renderFallback (data : value) : completion string :=
  raw <- and_then data (prop data "raw") ;;
  if truthy raw
  then data_raw <- prop data "raw" ;; escapeHtml data_raw
  else Normal fallbackMessage.

(** The markup [renderBot(data)] hands to [appendBot]; [Throw] when
    evaluating the template raises before [appendBot] is reached. *)
Definition renderBotMarkup (data : value) : completion string :=
  c1 <- and_then data
          (r <- prop data "recommendations" ;; Normal (VBool (isArray r))) ;;
  if truthy c1 then renderRecommendations data
  else
    c2 <- and_then data (prop data "summary") ;;
    if truthy c2 then renderSummary data
    else
      c3 <- and_then data (prop data "answer") ;;
      if truthy c3 then renderAnswer data
      else renderFallback data.

End Render.

(* ------------------------------------------------------------------ *)
(** * The transcript: rows of the log region and the scroll policy *)

Module Transcript.

(** A child element of the log region.  [row_id] stands for the identity
    of the DOM node, which is what [showTyping] returns and [remove]
    acts on. *)
Record row : Type := mkRow {
  row_id : nat;
  row_className : string;
  row_innerHTML : string
}.

(** The log region.  [measure] is the browser's layout of the children:
    the height their boxes take; [boxHeight] is the height of the region
    itself.  While the panel is not displayed the region has no box
    ([rendered] is false): its three scroll numbers read zero and an
    assigned offset does not hold. *)
Record logElem : Type := mkLog {
  rows : list row;
  offset : Z;
  boxHeight : Z;
  measure : list row -> Z;
  rendered : bool
}.

Definition scrollTop (l : logElem) : Z := if rendered l then offset l else 0.

(** A box height is never negative. *)
Definition clientHeight (l : logElem) : Z :=
  if rendered l then Z.max 0 (boxHeight l) else 0.

(** [scrollHeight] is never below [clientHeight]. *)
Definition scrollHeight (l : logElem) : Z :=
  if rendered l then Z.max (Z.max 0 (boxHeight l)) (measure l (rows l)) else 0.

(** The largest scroll offset the browser admits. *)
Definition scrollBottom (l : logElem) : Z := scrollHeight l - clientHeight l.

(** [log.scrollTop = v]: the browser clamps the offset into range. *)
Definition set_scrollTop (v : Z) (l : logElem) : logElem :=
  mkLog (rows l) (Z.max 0 (Z.min v (scrollBottom l))) (boxHeight l) (measure l)
        (rendered l).

(** [log.appendChild(row)]. *)
Definition appendChild (r : row) (l : logElem) : logElem :=
  mkLog (rows l ++ [r]) (offset l) (boxHeight l) (measure l) (rendered l).

(** [el.remove()]: detaches the node when it is a child; the browser then
    keeps the scroll offset in range. *)
Definition removeChild (id : nat) (l : logElem) : logElem :=
  let l' := mkLog (filter (fun r => negb (Nat.eqb (row_id r) id)) (rows l))
                  (offset l) (boxHeight l) (measure l) (rendered l) in
  set_scrollTop (scrollTop l') l'.

(** A new layout gives the region another height; the offset is kept in
    range. *)
Definition setBoxHeight (h : Z) (l : logElem) : logElem :=
  set_scrollTop (scrollTop l) (mkLog (rows l) (offset l) h (measure l) (rendered l)).

(** The region loses its box, and with it the scroll offset, when the
    panel is hidden, and gets a box again when the panel is shown. *)
Definition setRendered (b : bool) (l : logElem) : logElem :=
  mkLog (rows l) (if b then scrollTop l else 0) (boxHeight l) (measure l) b.

(** The part of the closure the transcript functions touch. *)
Record transcript : Type := mkTranscript {
  log : logElem;
  stickBottom : bool;
  next_id : nat
}.

(** The scroll listener installed by [makePanel]. *)
Definition onScroll (t : transcript) : transcript :=
  let nearBottom :=
    scrollTop (log t) >=? scrollHeight (log t) - clientHeight (log t) - 4 in
  mkTranscript (log t) nearBottom (next_id t).

(** A user scroll to offset [v]: the browser moves the offset, then
    dispatches the scroll event. *)
Definition userScroll (v : Z) (t : transcript) : transcript :=
  onScroll (mkTranscript (set_scrollTop v (log t)) (stickBottom t) (next_id t)).

(** [if (stickBottom) log.scrollTop = log.scrollHeight]. *)
Definition stick (t : transcript) : transcript :=
  if stickBottom t
  then mkTranscript (set_scrollTop (scrollHeight (log t)) (log t))
                    (stickBottom t) (next_id t)
  else t.

Definition rowMarkup (type html : string) : string :=
  "<div class=" ++ dq ++ "bb-av " ++ type ++ dq ++ ">"
  ++ (if String.eqb type "you" then "Y" else "B")
  ++ "</div><div class=" ++ dq ++ "bb-bubble" ++ dq ++ ">" ++ html ++ "</div>".

(** [append(type, html)]. *)
Definition append (type html : string) (t : transcript) : transcript :=
  let row := mkRow (next_id t) ("bb-row " ++ type) (rowMarkup type html) in
  stick (mkTranscript (appendChild row (log t)) (stickBottom t) (S (next_id t))).

Definition appendYou (text : string) (t : transcript) : transcript :=
  append "you" (Render.replaceNewlines (Render.replaceMarkup text)) t.

Definition appendBot (html : string) (t : transcript) : transcript :=
  append "bot" html t.

Definition typingMarkup : string :=
  "<div class=" ++ dq ++ "bb-av bot" ++ dq ++ ">B</div><div class=" ++ dq
  ++ "bb-bubble" ++ dq ++ "><i>Đang soạn gợi ý…</i></div>".

(** [showTyping()]: returns the new row's identity along with the
    transcript. *)
Definition showTyping (t : transcript) : nat * transcript :=
  let el := mkRow (next_id t) "bb-row bot" typingMarkup in
  (row_id el,
   stick (mkTranscript (appendChild el (log t)) (stickBottom t) (S (next_id t)))).

(** A scroll offset the browser moved on its own dispatches the scroll
    event as a user scroll does. *)
Definition afterScroll (before : Z) (t : transcript) : transcript :=
  if scrollTop (log t) =? before then t else onScroll t.

(** [typing.remove()]. *)
Definition remove (id : nat) (t : transcript) : transcript :=
  afterScroll (scrollTop (log t))
    (mkTranscript (removeChild id (log t)) (stickBottom t) (next_id t)).

(** The animation-frame callback [log.scrollTop = log.scrollHeight]. *)
Definition scrollToBottom (t : transcript) : transcript :=
  afterScroll (scrollTop (log t))
    (mkTranscript (set_scrollTop (scrollHeight (log t)) (log t))
                  (stickBottom t) (next_id t)).

(** [renderBot(data)]: nothing is appended when the template throws. *)
Definition renderBot (data : value) (t : transcript) : completion transcript :=
  html <- Render.renderBotMarkup data ;; Normal (appendBot html t).

End Transcript.

(* ------------------------------------------------------------------ *)
(** * The platform's JSON codec, for texts whose numbers are integers *)

Module JSON.

Definition two53 : Z := 9007199254740992.

(** ** Serialisation *)

Definition hexDigit (n : Z) : ascii :=
  ascii_of_nat (Z.to_nat (if n <? 10 then 48 + n else 87 + n)).

(** QuoteJSONString, one character at a time. *)
Definition quoteChar (c : ascii) : string :=
  let n := Z.of_nat (nat_of_ascii c) in
  if Ascii.eqb c "034" then "\" ++ dq
  else if Ascii.eqb c "\" then "\\"
  else if n =? 8 then "\b"
  else if n =? 9 then "\t"
  else if n =? 10 then "\n"
  else if n =? 12 then "\f"
  else if n =? 13 then "\r"
  else if n <? 32 then
    "\u00" ++ String (hexDigit (n / 16)) (String (hexDigit (n mod 16)) EmptyString)
  else String c EmptyString.

Fixpoint quoteChars (s : string) : string :=
  match s with
  | EmptyString => EmptyString
  | String c rest => quoteChar c ++ quoteChars rest
  end.

Definition quote (s : string) : string := dq ++ quoteChars s ++ dq.

Definition is_undefined (v : value) : bool :=
  match v with VUndefined => true | _ => false end.

(** [JSON.stringify] below the top level.  A property whose value is
    [undefined] is left out of an object; an [undefined] array element is
    written as [null]. *)
Fixpoint serialize (v : value) : string :=
  match v with
  | VUndefined | VNull => "null"
  | VBool true => "true"
  | VBool false => "false"
  | VNum n => Z_to_string n
  | VStr s => quote s
  | VArr items => "[" ++ join "," (map serialize items) ++ "]"
  | VObj fields =>
      "{" ++ join ","
               ((fix members (l : list (string * value)) : list string :=
                   match l with
                   | [] => []
                   | (k, x) :: l' =>
                       if is_undefined x then members l'
                       else (quote k ++ ":" ++ serialize x) :: members l'
                   end) fields)
          ++ "}"
  end.

(** [String(JSON.stringify(v))], the text [setItem] receives. *)
Definition stringify (v : value) : string :=
  if is_undefined v then "undefined" else serialize v.

(** ** Parsing *)

(** The outcome of reading a text: a value and the unread rest, a
    [SyntaxError], or a text outside this model (a number with a fraction
    or an exponent or beyond the exactly representable integers, an
    unpaired surrogate escape). *)
Inductive parsed (A : Type) : Type :=
| Parsed (a : A) (rest : string)
| SyntaxError
| Unsupported.
Arguments Parsed {A} a rest.
Arguments SyntaxError {A}.
Arguments Unsupported {A}.

Definition isDigit (c : ascii) : bool :=
  let n := nat_of_ascii c in (48 <=? n)%nat && (n <=? 57)%nat.

Definition digitValue (c : ascii) : Z := Z.of_nat (nat_of_ascii c) - 48.

Definition isSpace (c : ascii) : bool :=
  let n := nat_of_ascii c in
  (n =? 32)%nat || (n =? 9)%nat || (n =? 10)%nat || (n =? 13)%nat.

Fixpoint skipSpace (s : string) : string :=
  match s with
  | String c rest => if isSpace c then skipSpace rest else s
  | EmptyString => s
  end.

(** A run of digits, read into the accumulator. *)
Fixpoint digits (acc : Z) (s : string) : Z * string :=
  match s with
  | String c rest =>
      if isDigit c then digits (10 * acc + digitValue c) rest else (acc, s)
  | EmptyString => (acc, s)
  end.

Definition startsWithDigit (s : string) : bool :=
  match s with String c _ => isDigit c | EmptyString => false end.

(** What follows the integer part: nothing of the number, or a fraction
    and / or an exponent, which must be well formed. *)
Definition numberTail (n : Z) (s : string) : parsed Z :=
  let afterFraction (s1 : string) (seen : bool) : parsed Z :=
    match s1 with
    | String c s2 =>
        if Ascii.eqb c "e" || Ascii.eqb c "E" then
          let s3 := match s2 with
                    | String c' s' =>
                        if Ascii.eqb c' "+" || Ascii.eqb c' "-" then s' else s2
                    | EmptyString => s2
                    end in
          if startsWithDigit s3 then Unsupported else SyntaxError
        else if seen then Unsupported else Parsed n s1
    | EmptyString => if seen then Unsupported else Parsed n s1
    end in
  match s with
  | String c s1 =>
      if Ascii.eqb c "." then
        if startsWithDigit s1 then afterFraction (snd (digits 0 s1)) true
        else SyntaxError
      else afterFraction s false
  | EmptyString => Parsed n s
  end.

Definition parseNumber (s : string) : parsed value :=
  let (negative, s1) :=
    match s with
    | String c rest => if Ascii.eqb c "-" then (true, rest) else (false, s)
    | EmptyString => (false, s)
    end in
  match s1 with
  | String c rest =>
      if isDigit c then
        let (n, s2) := if Ascii.eqb c "0" then (0, rest) else digits 0 s1 in
        match numberTail n s2 with
        | Parsed m s3 =>
            if m <=? two53
            then Parsed (VNum (if negative then - m else m)) s3
            else Unsupported
        | SyntaxError => SyntaxError
        | Unsupported => Unsupported
        end
      else SyntaxError
  | EmptyString => SyntaxError
  end.

Definition hexValue (c : ascii) : option Z :=
  let n := Z.of_nat (nat_of_ascii c) in
  if (48 <=? n) && (n <=? 57) then Some (n - 48)
  else if (65 <=? n) && (n <=? 70) then Some (n - 55)
  else if (97 <=? n) && (n <=? 102) then Some (n - 87)
  else None.

(** Four hexadecimal digits. *)
Definition hex4 (s : string) : option (Z * string) :=
  match s with
  | String a (String b (String c (String d rest))) =>
      match hexValue a, hexValue b, hexValue c, hexValue d with
      | Some x, Some y, Some z, Some w => Some (((x * 16 + y) * 16 + z) * 16 + w, rest)
      | _, _, _, _ => None
      end
  | _ => None
  end.

Definition byte (n : Z) : string := String (ascii_of_nat (Z.to_nat n)) EmptyString.

(** The UTF-8 bytes of a code point. *)
Definition utf8 (cp : Z) : string :=
  if cp <? 128 then byte cp
  else if cp <? 2048 then byte (192 + cp / 64) ++ byte (128 + cp mod 64)
  else if cp <? 65536 then
    byte (224 + cp / 4096) ++ byte (128 + (cp / 64) mod 64) ++ byte (128 + cp mod 64)
  else
    byte (240 + cp / 262144) ++ byte (128 + (cp / 4096) mod 64)
    ++ byte (128 + (cp / 64) mod 64) ++ byte (128 + cp mod 64).

Definition simpleEscape (c : ascii) : option string :=
  if Ascii.eqb c "034" then Some dq
  else if Ascii.eqb c "\" then Some "\"
  else if Ascii.eqb c "/" then Some "/"
  else if Ascii.eqb c "b" then Some (byte 8)
  else if Ascii.eqb c "f" then Some (byte 12)
  else if Ascii.eqb c "n" then Some (byte 10)
  else if Ascii.eqb c "r" then Some (byte 13)
  else if Ascii.eqb c "t" then Some (byte 9)
  else None.

(** A [\u] escape, the text standing after the [u]. *)
Definition unicodeEscape (s : string) : parsed string :=
  match hex4 s with
  | None => SyntaxError
  | Some (u, rest) =>
      if (55296 <=? u) && (u <? 56320) then
        match rest with
        | String b (String c rest1) =>
            if Ascii.eqb b "\" && Ascii.eqb c "u" then
              match hex4 rest1 with
              | Some (lo, rest2) =>
                  if (56320 <=? lo) && (lo <? 57344)
                  then Parsed (utf8 (65536 + (u - 55296) * 1024 + (lo - 56320))) rest2
                  else Unsupported
              | None => Unsupported
              end
            else Unsupported
        | _ => Unsupported
        end
      else if (56320 <=? u) && (u <? 57344) then Unsupported
      else Parsed (utf8 u) rest
  end.

(** The characters of a string literal, the text standing after the
    opening quote. *)
Fixpoint parseChars (fuel : nat) (s : string) : parsed string :=
  match fuel with
  | O => Unsupported
  | S fuel' =>
      match s with
      | EmptyString => SyntaxError
      | String c rest =>
          if Ascii.eqb c "034" then Parsed "" rest
          else if Ascii.eqb c "\" then
            match rest with
            | EmptyString => SyntaxError
            | String e rest1 =>
                let escaped :=
                  if Ascii.eqb e "u" then unicodeEscape rest1
                  else match simpleEscape e with
                       | Some x => Parsed x rest1
                       | None => SyntaxError
                       end in
                match escaped with
                | Parsed x rest2 =>
                    match parseChars fuel' rest2 with
                    | Parsed y rest3 => Parsed (x ++ y) rest3
                    | SyntaxError => SyntaxError
                    | Unsupported => Unsupported
                    end
                | SyntaxError => SyntaxError
                | Unsupported => Unsupported
                end
            end
          else if (nat_of_ascii c <? 32)%nat then SyntaxError
          else
            match parseChars fuel' rest with
            | Parsed y rest1 => Parsed (String c y) rest1
            | SyntaxError => SyntaxError
            | Unsupported => Unsupported
            end
      end
  end.

(** A fixed word such as [null]. *)
Definition parseWord (word : string) (v : value) (s : string) : parsed value :=
  if String.prefix word s
  then Parsed v (String.substring (String.length word)
                                  (String.length s - String.length word) s)
  else SyntaxError.

(** A value, after optional white space; the elements of an array after
    its first; the members of an object.  Two units of fuel are spent
    for each character consumed at most; a text that still runs out is
    reported as outside the model. *)
Fixpoint parseValue (fuel : nat) (s : string) : parsed value :=
  match fuel with
  | O => Unsupported
  | S fuel' =>
      match skipSpace s with
      | EmptyString => SyntaxError
      | String c rest =>
          if Ascii.eqb c "n" then parseWord "null" VNull (String c rest)
          else if Ascii.eqb c "t" then parseWord "true" (VBool true) (String c rest)
          else if Ascii.eqb c "f" then parseWord "false" (VBool false) (String c rest)
          else if Ascii.eqb c "034" then
            match parseChars fuel' rest with
            | Parsed str rest1 => Parsed (VStr str) rest1
            | SyntaxError => SyntaxError
            | Unsupported => Unsupported
            end
          else if Ascii.eqb c "[" then
            match skipSpace rest with
            | String c1 rest1 =>
                if Ascii.eqb c1 "]" then Parsed (VArr []) rest1
                else
                  match parseElements fuel' rest with
                  | Parsed items rest2 => Parsed (VArr items) rest2
                  | SyntaxError => SyntaxError
                  | Unsupported => Unsupported
                  end
            | EmptyString => SyntaxError
            end
          else if Ascii.eqb c "{" then
            match skipSpace rest with
            | String c1 rest1 =>
                if Ascii.eqb c1 "}" then Parsed (VObj []) rest1
                else
                  match parseMembers fuel' [] rest with
                  | Parsed fields rest2 => Parsed (VObj fields) rest2
                  | SyntaxError => SyntaxError
                  | Unsupported => Unsupported
                  end
            | EmptyString => SyntaxError
            end
          else parseNumber (String c rest)
      end
  end

with parseElements (fuel : nat) (s : string) : parsed (list value) :=
  match fuel with
  | O => Unsupported
  | S fuel' =>
      match parseValue fuel' s with
      | Parsed v rest =>
          match skipSpace rest with
          | String c rest1 =>
              if Ascii.eqb c "]" then Parsed [v] rest1
              else if Ascii.eqb c "," then
                match parseElements fuel' rest1 with
                | Parsed vs rest2 => Parsed (v :: vs) rest2
                | SyntaxError => SyntaxError
                | Unsupported => Unsupported
                end
              else SyntaxError
          | EmptyString => SyntaxError
          end
      | SyntaxError => SyntaxError
      | Unsupported => Unsupported
      end
  end

with parseMembers (fuel : nat) (acc : list (string * value)) (s : string)
  : parsed (list (string * value)) :=
  match fuel with
  | O => Unsupported
  | S fuel' =>
      match skipSpace s with
      | String q rest =>
          if Ascii.eqb q "034" then
            match parseChars fuel' rest with
            | Parsed k rest1 =>
                match skipSpace rest1 with
                | String colon rest2 =>
                    if Ascii.eqb colon ":" then
                      match parseValue fuel' rest2 with
                      | Parsed v rest3 =>
                          let acc' := set_key k v acc in
                          match skipSpace rest3 with
                          | String c rest4 =>
                              if Ascii.eqb c "}" then Parsed acc' rest4
                              else if Ascii.eqb c "," then parseMembers fuel' acc' rest4
                              else SyntaxError
                          | EmptyString => SyntaxError
                          end
                      | SyntaxError => SyntaxError
                      | Unsupported => Unsupported
                      end
                    else SyntaxError
                | EmptyString => SyntaxError
                end
            | SyntaxError => SyntaxError
            | Unsupported => Unsupported
            end
          else SyntaxError
      | EmptyString => SyntaxError
      end
  end.

(** [JSON.parse(text)]: one value, then nothing but white space. *)
Definition parse (text : string) : parsed value :=
  match parseValue (2 * String.length text + 2) text with
  | Parsed v rest =>
      match skipSpace rest with
      | EmptyString => Parsed v ""
      | String _ _ => SyntaxError
      end
  | SyntaxError => SyntaxError
  | Unsupported => Unsupported
  end.

End JSON.

(* ------------------------------------------------------------------ *)
(** * The widget: persisted state, panel, gestures, dispatcher *)

Module Widget.

Import Transcript.

(** ** Persisted state *)

(** The slot [LS_KEY] of [localStorage].  Reading or writing may throw
    (storage disabled, quota exceeded). *)
Record storage : Type := mkStorage {
  slot : option string;
  readable : bool;
  writable : bool
}.

Definition LS_KEY : string := "bookbot@ui-state.nomax.v3".

Definition getItem (ls : storage) : completion (option string) :=
  if readable ls then Normal (slot ls) else Throw.

Definition setItem (text : string) (ls : storage) : completion storage :=
  if writable ls then Normal (mkStorage (Some text) (readable ls) (writable ls))
  else Throw.

(** [const state = {open: false, x: null, y: null, w: 360, h: 520}]. *)
Definition defaults : list (string * value) :=
  [("open", VBool false); ("x", VNull); ("y", VNull);
   ("w", VNum 360); ("h", VNum 520)].

Fixpoint indexed {A} (i : Z) (l : list A) : list (string * A) :=
  match l with
  | [] => []
  | a :: l' => (Z_to_string i, a) :: indexed (i + 1) l'
  end.

Fixpoint characters (s : string) : list value :=
  match s with
  | EmptyString => []
  | String c rest => VStr (String c EmptyString) :: characters rest
  end.

(** The own enumerable properties [Object.assign] copies from a source:
    the fields of an object, the elements of an array, the characters of a
    string (taken per byte here, which is exact for ASCII text), nothing
    for the other primitives. *)
Definition ownEntries (source : value) : list (string * value) :=
  match source with
  | VObj fields => fields
  | VArr items => indexed 0 items
  | VStr s => indexed 0 (characters s)
  | _ => []
  end.

(** [Object.assign(target, source)].  Assigning to [__proto__] goes to the
    inherited setter and adds no own property. *)
Definition Object_assign (target : list (string * value)) (source : value)
  : list (string * value) :=
  fold_left
    (fun t kv => if String.eqb (fst kv) "__proto__" then t
                 else set_key (fst kv) (snd kv) t)
    (ownEntries source) target.

(** The start-up block that fills [state] (lines 79-83).  [None]: the
    stored text is outside the modelled JSON fragment. *)
Definition load (ls : storage) : option (list (string * value)) :=
  match getItem ls with
  | Throw => Some defaults
  | Normal item =>
      let text := match item with
                  | Some s => if String.eqb s "" then "{}" else s
                  | None => "{}"
                  end in
      match JSON.parse text with
      | JSON.Parsed v _ => Some (Object_assign defaults (or_else v (VObj [])))
      | JSON.SyntaxError => Some defaults
      | JSON.Unsupported => None
      end
  end.

(** The body of [saveState], on the storage alone. *)
Definition save (state : list (string * value)) (ls : storage) : storage :=
  match setItem (JSON.stringify (VObj state)) ls with
  | Normal ls' => ls'
  | Throw => ls
  end.

(** ** Geometry *)

Record rect : Type := mkRect {
  rect_left : Z;
  rect_top : Z;
  rect_width : Z;
  rect_height : Z
}.

(** The two lines of [clampIntoViewport] that compute the new corner. *)
Definition clampX (r : rect) (vw : Z) : Z :=
  Z.min (Z.max 8 (rect_left r)) (vw - rect_width r - 8).

Definition clampY (r : rect) (vh : Z) : Z :=
  Z.min (Z.max 8 (rect_top r)) (vh - rect_height r - 8).

(** The rectangle [clampIntoViewport] leaves the panel with. *)
Definition clampRect (r : rect) (vw vh : Z) : rect :=
  mkRect (clampX r vw) (clampY r vh) (rect_width r) (rect_height r).

(** The textbook clamp the specification words the rule with. *)
Definition clamp (v lo hi : Z) : Z := Z.min (Z.max v lo) hi.

Record point : Type := mkPoint { pt_x : Z; pt_y : Z }.

(** A mouse or touch event, as far as [getPoint] reads it. *)
Record pointerEvent : Type := mkPointerEvent {
  touches : list point;
  client : point
}.

Definition getPoint (e : pointerEvent) : point :=
  match touches e with
  | t :: _ => mkPoint (pt_x t) (pt_y t)
  | [] => mkPoint (pt_x (client e)) (pt_y (client e))
  end.

(** ** The panel element *)

Inductive displayValue : Type := DisplayDefault | DisplayFlex | DisplayNone.

(** The inline style of the panel.  [None] for a length: no inline
    declaration, the style sheet applies. *)
Record panelStyle : Type := mkStyle {
  display : displayValue;
  left : option Z;
  top : option Z;
  rightAuto : bool;
  bottomAuto : bool;
  width : option Z;
  height : option Z
}.

(** The closure variables of [attachDrag] and of [attachResize];
    [listening]: the document-level move / end listeners are attached. *)
Record dragVars : Type := mkDrag {
  dragging : bool; drag_sx : Z; drag_sy : Z; drag_ox : Z; drag_oy : Z;
  drag_listening : bool
}.

Record resizeVars : Type := mkResize {
  resizing : bool; resize_sw : Z; resize_sh : Z; resize_sx : Z; resize_sy : Z;
  resize_listening : bool
}.

(** The panel with what [makePanel] creates along with it: the log region
    (inside [chat], together with [stickBottom], which nothing touches
    before the panel exists), the input, the send button, the two gesture
    closures. *)
Record panelElem : Type := mkPanel {
  style : panelStyle;
  chat : transcript;
  inputValue : string;
  sendDisabled : bool;
  drag : dragVars;
  resize : resizeVars
}.

(** ** The world: the closure and the part of the page it acts on *)

Record world : Type := mkWorld {
  innerWidth : Z;
  innerHeight : Z;
  localStorage : storage;
  state : list (string * value);
  panel : option panelElem;
  fab : option displayValue;
  inputFocused : bool;
  rafQueue : nat;
  userSelectNone : bool;
  logClientHeight : Z;
  logMeasure : list row -> Z;
  inflight : list (nat * string)
}.

Definition set_localStorage (ls : storage) (w : world) : world :=
  mkWorld (innerWidth w) (innerHeight w) ls (state w) (panel w) (fab w)
          (inputFocused w) (rafQueue w) (userSelectNone w)
          (logClientHeight w) (logMeasure w) (inflight w).

Definition set_state (st : list (string * value)) (w : world) : world :=
  mkWorld (innerWidth w) (innerHeight w) (localStorage w) st (panel w) (fab w)
          (inputFocused w) (rafQueue w) (userSelectNone w)
          (logClientHeight w) (logMeasure w) (inflight w).

Definition set_panel (p : option panelElem) (w : world) : world :=
  mkWorld (innerWidth w) (innerHeight w) (localStorage w) (state w) p (fab w)
          (inputFocused w) (rafQueue w) (userSelectNone w)
          (logClientHeight w) (logMeasure w) (inflight w).

Definition set_fab (f : option displayValue) (w : world) : world :=
  mkWorld (innerWidth w) (innerHeight w) (localStorage w) (state w) (panel w) f
          (inputFocused w) (rafQueue w) (userSelectNone w)
          (logClientHeight w) (logMeasure w) (inflight w).

Definition set_inputFocused (b : bool) (w : world) : world :=
  mkWorld (innerWidth w) (innerHeight w) (localStorage w) (state w) (panel w)
          (fab w) b (rafQueue w) (userSelectNone w)
          (logClientHeight w) (logMeasure w) (inflight w).

Definition set_rafQueue (n : nat) (w : world) : world :=
  mkWorld (innerWidth w) (innerHeight w) (localStorage w) (state w) (panel w)
          (fab w) (inputFocused w) n (userSelectNone w)
          (logClientHeight w) (logMeasure w) (inflight w).

Definition set_userSelectNone (b : bool) (w : world) : world :=
  mkWorld (innerWidth w) (innerHeight w) (localStorage w) (state w) (panel w)
          (fab w) (inputFocused w) (rafQueue w) b
          (logClientHeight w) (logMeasure w) (inflight w).

Definition set_viewport (vw vh : Z) (w : world) : world :=
  mkWorld vw vh (localStorage w) (state w) (panel w)
          (fab w) (inputFocused w) (rafQueue w) (userSelectNone w)
          (logClientHeight w) (logMeasure w) (inflight w).

Definition set_style (s : panelStyle) (p : panelElem) : panelElem :=
  mkPanel s (chat p) (inputValue p) (sendDisabled p) (drag p) (resize p).

Definition set_chat (t : transcript) (p : panelElem) : panelElem :=
  mkPanel (style p) t (inputValue p) (sendDisabled p) (drag p) (resize p).

Definition set_inputValue (v : string) (p : panelElem) : panelElem :=
  mkPanel (style p) (chat p) v (sendDisabled p) (drag p) (resize p).

Definition set_sendDisabled (b : bool) (p : panelElem) : panelElem :=
  mkPanel (style p) (chat p) (inputValue p) b (drag p) (resize p).

Definition set_drag (d : dragVars) (p : panelElem) : panelElem :=
  mkPanel (style p) (chat p) (inputValue p) (sendDisabled p) d (resize p).

Definition set_resize (r : resizeVars) (p : panelElem) : panelElem :=
  mkPanel (style p) (chat p) (inputValue p) (sendDisabled p) (drag p) r.

Definition set_display (d : displayValue) (s : panelStyle) : panelStyle :=
  mkStyle d (left s) (top s) (rightAuto s) (bottomAuto s) (width s) (height s).

(** [panel.style.display = d], with its effect on the box of the log. *)
Definition set_panelDisplay (d : displayValue) (p : panelElem) : panelElem :=
  let shown := match d with DisplayNone => false | _ => true end in
  mkPanel (set_display d (style p))
          (mkTranscript (setRendered shown (log (chat p)))
                        (stickBottom (chat p)) (next_id (chat p)))
          (inputValue p) (sendDisabled p) (drag p) (resize p).

(** [left = x + "px"; top = y + "px"; right = "auto"; bottom = "auto"]. *)
Definition set_position (x y : Z) (s : panelStyle) : panelStyle :=
  mkStyle (display s) (Some x) (Some y) true true (width s) (height s).

(** [width = w + "px"; height = h + "px"].  A negative length is not a
    valid declaration and leaves the property as it was. *)
Definition set_size (w h : Z) (s : panelStyle) : panelStyle :=
  mkStyle (display s) (left s) (top s) (rightAuto s) (bottomAuto s)
          (if 0 <=? w then Some w else width s)
          (if 0 <=? h then Some h else height s).

(** [saveState()]. *)
Definition saveState (w : world) : world :=
  set_localStorage (save (state w) (localStorage w)) w.

Definition displayed (p : panelElem) : bool :=
  match display (style p) with DisplayNone => false | _ => true end.

(** [panel.getBoundingClientRect()].  An element that is not displayed
    has no box: all four numbers are zero.  Otherwise the box has the
    inline size (else the style sheet's: 360 by 520, or the whole viewport
    up to 640 pixels of width) and stands at the inline corner (else 22
    pixels off the right and bottom edges, or at the origin under the
    narrow-viewport rule). *)
Definition getBoundingClientRect (w : world) (p : panelElem) : rect :=
  if displayed p then
    let narrow := innerWidth w <=? 640 in
    let wd := match width (style p) with
              | Some n => n
              | None => if narrow then innerWidth w else 360
              end in
    let ht := match height (style p) with
              | Some n => n
              | None => if narrow then innerHeight w else 520
              end in
    let x := match left (style p) with
             | Some n => n
             | None => if narrow then 0 else innerWidth w - 22 - wd
             end in
    let y := match top (style p) with
             | Some n => n
             | None => if narrow then 0 else innerHeight w - 22 - ht
             end in
    mkRect x y wd ht
  else mkRect 0 0 0 0.

(** [input.focus()]: takes effect when the input is rendered. *)
Definition focusInput (w : world) : world :=
  match panel w with
  | Some p => if displayed p then set_inputFocused true w else w
  | None => w
  end.

(** [requestAnimationFrame(() => { log.scrollTop = log.scrollHeight; })]. *)
Definition requestScrollToBottom (w : world) : world :=
  set_rafQueue (S (rafQueue w)) w.

Definition greeting : string :=
  "Chào bạn! Hãy cho mình biết thể loại yêu thích, độ dài mong muốn và tác giả/đề tài ưa thích để mình gợi ý ạ.".

(** [v + "px"] as a length, for a number. *)
Definition px (v : value) : option Z :=
  match v with VNum n => Some n | _ => None end.

(** [v != null]. *)
Definition notNullish (v : value) : bool :=
  match v with VUndefined | VNull => false | _ => true end.

(** [makeFab()]. *)
Definition makeFab (w : world) : world :=
  match fab w with
  | Some _ => w
  | None => set_fab (Some DisplayDefault) w
  end.

(** [makePanel()].  [None]: a geometry field of [state] is not a number,
    which is outside the model of lengths. *)
Definition makePanel (w : world) : option world :=
  match panel w with
  | Some _ => Some w
  | None =>
      match px (or_else (field "w" (state w)) (VNum 360)),
            px (or_else (field "h" (state w)) (VNum 520)) with
      | Some wd, Some ht =>
          let s0 := set_size wd ht
                      (mkStyle DisplayDefault None None false false None None) in
          let positioned :=
            if notNullish (field "x" (state w)) && notNullish (field "y" (state w))
            then match px (field "x" (state w)), px (field "y" (state w)) with
                 | Some x, Some y => Some (set_position x y s0)
                 | _, _ => None
                 end
            else Some s0 in
          match positioned with
          | Some s =>
              let log0 := mkLog [] 0 (logClientHeight w) (logMeasure w) true in
              let p := mkPanel s
                         (appendBot greeting (mkTranscript log0 true O))
                         "" false
                         (mkDrag false 0 0 0 0 false)
                         (mkResize false 0 0 0 0 false) in
              Some (requestScrollToBottom (set_panel (Some p) w))
          | None => None
          end
      | _, _ => None
      end
  end.

(** [openPanel()]. *)
Definition openPanel (w : world) : option world :=
  match makePanel w with
  | Some w1 =>
      match panel w1 with
      | Some p =>
          let w2 := set_panel (Some (set_panelDisplay DisplayFlex p)) w1 in
          let w3 := saveState (set_state (set_key "open" (VBool true) (state w2)) w2) in
          let w4 := match fab w3 with
                    | Some _ => set_fab (Some DisplayNone) w3
                    | None => w3
                    end in
          Some (requestScrollToBottom (focusInput w4))
      | None => None
      end
  | None => None
  end.

(** [closePanel()].  Hiding the panel takes the focus off its input. *)
Definition closePanel (w : world) : world :=
  let w1 := saveState (set_state (set_key "open" (VBool false) (state w)) w) in
  let w2 := match panel w1 with
            | Some p =>
                set_inputFocused false
                  (set_panel (Some (set_panelDisplay DisplayNone p)) w1)
            | None => w1
            end in
  match fab w2 with
  | Some _ => set_fab (Some DisplayFlex) w2
  | None => w2
  end.

(** [clampIntoViewport()]. *)
Definition clampIntoViewport (w : world) : world :=
  match panel w with
  | None => w
  | Some p =>
      let r := getBoundingClientRect w p in
      let nx := clampX r (innerWidth w) in
      let ny := clampY r (innerHeight w) in
      let w1 := set_panel (Some (set_style (set_position nx ny (style p)) p)) w in
      let st := set_key "h" (VNum (rect_height r))
                  (set_key "w" (VNum (rect_width r))
                     (set_key "y" (VNum ny)
                        (set_key "x" (VNum nx) (state w1)))) in
      saveState (set_state st w1)
  end.

(** [window.BookBotWidget.setPosition(x, y)]. *)
Definition setPosition (x y : Z) (w : world) : world :=
  match panel w with
  | None => w
  | Some p =>
      let w1 := set_panel (Some (set_style (set_position x y (style p)) p)) w in
      saveState (set_state (set_key "y" (VNum y)
                              (set_key "x" (VNum x) (state w1))) w1)
  end.


Definition set_inflight (l : list (nat * string)) (w : world) : world :=
  mkWorld (innerWidth w) (innerHeight w) (localStorage w) (state w) (panel w)
          (fab w) (inputFocused w) (rafQueue w) (userSelectNone w)
          (logClientHeight w) (logMeasure w) l.

Definition update_panel (f : panelElem -> panelElem) (w : world) : world :=
  match panel w with
  | Some p => set_panel (Some (f p)) w
  | None => w
  end.

(** ** Drag ([attachDrag]) *)

Definition dragStart (e : pointerEvent) (w : world) : world :=
  match panel w with
  | None => w
  | Some p =>
      let r := getBoundingClientRect w p in
      let pt := getPoint e in
      set_userSelectNone true
        (set_panel
           (Some (set_drag (mkDrag true (pt_x pt) (pt_y pt)
                                   (rect_left r) (rect_top r) true) p)) w)
  end.

Definition dragMove (e : pointerEvent) (w : world) : world :=
  match panel w with
  | None => w
  | Some p =>
      if dragging (drag p) then
        let pt := getPoint e in
        let nx := drag_ox (drag p) + (pt_x pt - drag_sx (drag p)) in
        let ny := drag_oy (drag p) + (pt_y pt - drag_sy (drag p)) in
        set_panel (Some (set_style (set_position nx ny (style p)) p)) w
      else w
  end.

Definition dragEnd (w : world) : world :=
  match panel w with
  | None => w
  | Some p =>
      let d := drag p in
      if dragging d then
        let stopped := mkDrag false (drag_sx d) (drag_sy d) (drag_ox d) (drag_oy d) in
        let w1 := clampIntoViewport (set_panel (Some (set_drag (stopped true) p)) w) in
        set_userSelectNone false (update_panel (set_drag (stopped false)) w1)
      else w
  end.

(** ** Resize ([attachResize]) *)

Definition resizeStart (e : pointerEvent) (w : world) : world :=
  match panel w with
  | None => w
  | Some p =>
      let r := getBoundingClientRect w p in
      let pt := getPoint e in
      set_panel
        (Some (set_resize (mkResize true (rect_width r) (rect_height r)
                                    (pt_x pt) (pt_y pt) true) p)) w
  end.

Definition resizeMove (e : pointerEvent) (w : world) : world :=
  match panel w with
  | None => w
  | Some p =>
      if resizing (resize p) then
        let pt := getPoint e in
        let wd := Z.max 300 (resize_sw (resize p) + (pt_x pt - resize_sx (resize p))) in
        let ht := Z.max 380 (resize_sh (resize p) + (pt_y pt - resize_sy (resize p))) in
        let w1 := set_panel (Some (set_style (set_size wd ht (style p)) p)) w in
        if stickBottom (chat p) then requestScrollToBottom w1 else w1
      else w
  end.

Definition resizeEnd (w : world) : world :=
  match panel w with
  | None => w
  | Some p =>
      let r := resize p in
      if resizing r then
        let stopped := mkResize false (resize_sw r) (resize_sh r)
                                (resize_sx r) (resize_sy r) in
        let w1 := clampIntoViewport (set_panel (Some (set_resize (stopped true) p)) w) in
        update_panel (set_resize (stopped false)) w1
      else w
  end.

(** ** The dispatcher ([onSend]) *)

(** The white space [trim] removes, as UTF-8: tab, line feed, vertical
    tab, form feed, carriage return, space, U+00A0, U+1680, U+2000 to
    U+200A, U+2028, U+2029, U+202F, U+205F, U+3000, U+FEFF. *)
Definition bytes (l : list Z) : string :=
  fold_right (fun n s => String (ascii_of_nat (Z.to_nat n)) s) EmptyString l.

Definition whiteSpace : list string :=
  map bytes
    [[9]; [10]; [11]; [12]; [13]; [32]; [194; 160]; [225; 154; 128];
     [226; 128; 128]; [226; 128; 129]; [226; 128; 130]; [226; 128; 131];
     [226; 128; 132]; [226; 128; 133]; [226; 128; 134]; [226; 128; 135];
     [226; 128; 136]; [226; 128; 137]; [226; 128; 138];
     [226; 128; 168]; [226; 128; 169]; [226; 128; 175];
     [226; 129; 159]; [227; 128; 128]; [239; 187; 191]].

Fixpoint reverse (acc s : string) : string :=
  match s with
  | EmptyString => acc
  | String c rest => reverse (String c acc) rest
  end.

Definition dropPrefix (n : nat) (s : string) : string :=
  String.substring n (String.length s - n) s.

(** Drop leading occurrences of the given sequences. *)
Fixpoint dropLeading (fuel : nat) (seqs : list string) (s : string) : string :=
  match fuel with
  | O => s
  | S fuel' =>
      match find (fun ws => String.prefix ws s) seqs with
      | Some ws => dropLeading fuel' seqs (dropPrefix (String.length ws) s)
      | None => s
      end
  end.

Definition trimStart (s : string) : string :=
  dropLeading (String.length s) whiteSpace s.

Definition trimEnd (s : string) : string :=
  reverse "" (dropLeading (String.length s) (map (reverse "") whiteSpace)
                          (reverse "" s)).

Definition trim (s : string) : string := trimEnd (trimStart s).

Definition serverErrorMessage : string := "Máy chủ báo lỗi. Bạn thử lại sau nhé.".
Definition networkErrorMessage : string := "Có lỗi mạng/API. Thử lại sau nhé.".

(** How the awaited part of [onSend] turns out: [fetch] rejects, or a
    response arrives; [ok] is [res.ok] and [json] what [res.json()]
    resolves to, [None] when it rejects. *)
Inductive fetchOutcome : Type :=
| Rejected
| Responded (ok : bool) (json : option value).

(** [onSend] up to the [await]: the typing row's identity when a request
    went out. *)
Definition onSendStart (w : world) : world * option nat :=
  match panel w with
  | None => (w, None)
  | Some p =>
      let text := trim (inputValue p) in
      if String.eqb text "" then (w, None)
      else
        let t1 := appendYou text (chat p) in
        let (typing, t2) := showTyping t1 in
        let p' := set_chat t2 (set_sendDisabled true (set_inputValue "" p)) in
        let body := JSON.stringify (VObj [("message", VStr text)]) in
        (set_inflight (inflight w ++ [(typing, body)]) (set_panel (Some p') w),
         Some typing)
  end.

(** The [try] block after the [await], with its [catch]: the transcript
    once the outcome is handled. *)
Definition handleOutcome (o : fetchOutcome) (t : transcript) : transcript :=
  match o with
  | Rejected => appendBot networkErrorMessage t
  | Responded ok json =>
      let data := match json with Some v => v | None => VNull end in
      if negb ok then appendBot serverErrorMessage t
      else match renderBot (or_else data (VObj [])) t with
           | Normal t' => t'
           | Throw => appendBot networkErrorMessage t
           end
  end.

(** [onSend] from the [await] on, the [finally] block included. *)
Definition onSendSettle (typing : nat) (o : fetchOutcome) (w : world) : world :=
  let w0 := set_inflight
              (filter (fun r => negb (Nat.eqb (fst r) typing)) (inflight w)) w in
  match panel w0 with
  | None => w0
  | Some p =>
      let t1 := handleOutcome o (chat p) in
      let t2 := remove typing t1 in
      focusInput (set_panel (Some (set_sendDisabled false (set_chat t2 p))) w0)
  end.

(** A whole cycle with nothing in between. *)
Definition onSend (o : fetchOutcome) (w : world) : world :=
  match onSendStart w with
  | (w1, Some typing) => onSendSettle typing o w1
  | (w1, None) => w1
  end.

(** ** Start-up and the events the page delivers *)

(** [init()]. *)
Definition init (w : world) : option world :=
  match makePanel (makeFab w) with
  | Some w1 =>
      if truthy (field "open" (state w1)) then openPanel w1
      else Some (closePanel w1)
  | None => None
  end.

(** The script run on a fresh page: the state is loaded, then [init()]. *)
Definition boot (vw vh : Z) (ls : storage) (clientH : Z)
                (measure : list row -> Z) : option world :=
  match load ls with
  | Some st =>
      init (mkWorld vw vh ls st None None false O false clientH measure [])
  | None => None
  end.

(** The value sanitization of a text input: line breaks (line feed and
    carriage return) are stripped from whatever the value is set to. *)
Fixpoint stripNewlines (s : string) : string :=
  match s with
  | EmptyString => EmptyString
  | String c rest =>
      if Ascii.eqb c "010" || Ascii.eqb c "013" then stripNewlines rest
      else String c (stripNewlines rest)
  end.

Inductive event : Type :=
| ApiOpen
| ApiClose
| ApiSetPosition (x y : Z)
| ClickFab
| ClickClose
| KeyEscape
| KeyEnter
| ClickSend
| TypeText (v : string)
| HeaderDown (e : pointerEvent)
| HandleDown (e : pointerEvent)
| DocumentMove (e : pointerEvent)
| DocumentUp
| UserScroll (v : Z)
| AnimationFrame
| FetchSettled (typing : nat) (o : fetchOutcome)
| ViewportResized (vw vh : Z)
| LogLaidOut (h : Z)
| ClickInput.

Definition panelDisplayed (w : world) : bool :=
  match panel w with Some p => displayed p | None => false end.

Definition orSame (w : world) (o : option world) : world :=
  match o with Some w' => w' | None => w end.

(** One event.  The public surface runs whenever the host calls it; a
    user event reaches a listener only while its target is on screen (and,
    for a key, while the input has the focus; for the send button, while
    it is enabled).  A mouse press on the header takes the focus off the
    input, which is the default action of the press; the resize handle's
    listener prevents that default, and a touch has none.  A click on the
    send button takes the focus off the input as well, whether the button
    is enabled (it becomes the focused element) or disabled (the focus
    goes to the body); its click handler runs only when it is enabled.
    The input is a single-line text field: what is typed or pasted loses
    its line breaks.  A click into the input gives it the focus.
    [ViewportResized] and [LogLaidOut] are the browser's doing: the window
    changes size, the log region is laid out with another height. *)
Definition step (w : world) (ev : event) : world :=
  match ev with
  | ApiOpen => orSame w (openPanel w)
  | ApiClose => closePanel w
  | ApiSetPosition x y => setPosition x y w
  | ClickFab =>
      match fab w with
      | Some DisplayNone | None => w
      | Some _ => orSame w (openPanel w)
      end
  | ClickClose => if panelDisplayed w then closePanel w else w
  | KeyEscape => if panelDisplayed w && inputFocused w then closePanel w else w
  | KeyEnter =>
      if panelDisplayed w && inputFocused w then fst (onSendStart w) else w
  | ClickSend =>
      match panel w with
      | Some p =>
          if displayed p then
            let w1 := set_inputFocused false w in
            if sendDisabled p then w1 else fst (onSendStart w1)
          else w
      | None => w
      end
  | TypeText v =>
      if panelDisplayed w && inputFocused w
      then update_panel (set_inputValue (stripNewlines v)) w else w
  | HeaderDown e =>
      if panelDisplayed w then
        let w1 := dragStart e w in
        match touches e with
        | [] => set_inputFocused false w1
        | _ :: _ => w1
        end
      else w
  | HandleDown e => if panelDisplayed w then resizeStart e w else w
  | DocumentMove e =>
      let w1 := match panel w with
                | Some p => if drag_listening (drag p) then dragMove e w else w
                | None => w
                end in
      match panel w1 with
      | Some p => if resize_listening (resize p) then resizeMove e w1 else w1
      | None => w1
      end
  | DocumentUp =>
      let w1 := match panel w with
                | Some p => if drag_listening (drag p) then dragEnd w else w
                | None => w
                end in
      match panel w1 with
      | Some p => if resize_listening (resize p) then resizeEnd w1 else w1
      | None => w1
      end
  | UserScroll v =>
      if panelDisplayed w
      then update_panel (fun p => set_chat (userScroll v (chat p)) p) w else w
  | AnimationFrame =>
      set_rafQueue O
        (if (0 <? rafQueue w)%nat
         then update_panel (fun p => set_chat (scrollToBottom (chat p)) p) w
         else w)
  | FetchSettled typing o =>
      if existsb (fun r => Nat.eqb (fst r) typing) (inflight w)
      then onSendSettle typing o w else w
  | ViewportResized vw vh => set_viewport vw vh w
  | LogLaidOut h =>
      update_panel
        (fun p => set_chat (afterScroll (scrollTop (log (chat p)))
                              (mkTranscript (setBoxHeight h (log (chat p)))
                                            (stickBottom (chat p))
                                            (next_id (chat p)))) p) w
  | ClickInput => focusInput w
  end.

Definition run (w : world) (evs : list event) : world := fold_left step evs w.

End Widget.

(* ------------------------------------------------------------------ *)
(** * Vocabulary of the statements *)

Module Props.

Import Transcript Widget.

(** The three ways a row gets appended to the transcript. *)
Inductive appendOp : Type :=
| OpYou (text : string)
| OpBot (html : string)
| OpTyping.

Definition applyOp (t : transcript) (op : appendOp) : transcript :=
  match op with
  | OpYou text => appendYou text t
  | OpBot html => appendBot html t
  | OpTyping => snd (showTyping t)
  end.

Definition applyOps (t : transcript) (ops : list appendOp) : transcript :=
  fold_left applyOp ops t.

(** The row with the given identity is a child of the log. *)
Definition hasRow (id : nat) (t : transcript) : bool :=
  existsb (fun r => Nat.eqb (row_id r) id) (rows (log t)).

(** A character that is significant in markup. *)
Definition markupChar (c : ascii) : bool :=
  Ascii.eqb c "&" || Ascii.eqb c "<" || Ascii.eqb c ">"
  || Ascii.eqb c "034" || Ascii.eqb c "'".

Fixpoint occurs (c : ascii) (s : string) : bool :=
  match s with
  | EmptyString => false
  | String c' rest => Ascii.eqb c c' || occurs c rest
  end.

(** The markup of the bot row a cycle of [onSend] ends with. *)
Definition outcomeMarkup (o : fetchOutcome) : string :=
  match o with
  | Rejected => networkErrorMessage
  | Responded false _ => serverErrorMessage
  | Responded true json =>
      let data := match json with Some v => v | None => VNull end in
      match Render.renderBotMarkup (or_else data (VObj [])) with
      | Normal html => html
      | Throw => networkErrorMessage
      end
  end.

(** The two states of the dispatcher, for the cycle whose typing row has
    the given identity: the request is in flight behind a disabled send
    button and a typing row; or nothing of the cycle is left, the send
    button works and the input has the focus. *)
Definition Sending (typing : nat) (w : world) : Prop :=
  exists p, panel w = Some p
            /\ sendDisabled p = true
            /\ hasRow typing (chat p) = true
            /\ In typing (map fst (inflight w)).

Definition Idle (typing : nat) (w : world) : Prop :=
  exists p, panel w = Some p
            /\ sendDisabled p = false
            /\ hasRow typing (chat p) = false
            /\ ~ In typing (map fst (inflight w))
            /\ inputFocused w = true.

(** Row identities handed out so far are below [next_id]. *)
Definition freshIds (t : transcript) : Prop :=
  forall r, In r (rows (log t)) -> (row_id r < next_id t)%nat.

(** A well-typed [PanelState] as an object, keys in declaration order. *)
Definition optNum (n : option Z) : value :=
  match n with Some z => VNum z | None => VNull end.

Definition panelState (open : bool) (x y : option Z) (w h : Z)
  : list (string * value) :=
  [("open", VBool open); ("x", optNum x); ("y", optNum y);
   ("w", VNum w); ("h", VNum h)].

(** Integers a number holds exactly. *)
Definition safeInteger (n : Z) : Prop := - JSON.two53 <= n <= JSON.two53.

Definition safeOpt (n : option Z) : Prop :=
  match n with Some z => safeInteger z | None => True end.

(** The geometry last written to the storage slot, when the slot holds
    an object. *)
Definition persistedField (k : string) (w : world) : option value :=
  match slot (localStorage w) with
  | Some text =>
      match JSON.parse text with
      | JSON.Parsed (VObj fields) _ => lookup k fields
      | _ => None
      end
  | None => None
  end.

(** The panel has been constructed. *)
Definition hasPanel (w : world) : bool :=
  match panel w with Some _ => true | None => false end.

(** ** The size floors *)

(** The sizes a state records are at or above the floors. *)
Definition sizeOK (st : list (string * value)) : Prop :=
  exists sw sh, field "w" st = VNum sw /\ field "h" st = VNum sh
                /\ 300 <= sw /\ 380 <= sh.

(** Nothing is stored, or what is stored is the serialisation of a state
    whose sizes are at or above the floors. *)
Definition persistedOK (w : world) : Prop :=
  slot (localStorage w) = None
  \/ exists st, slot (localStorage w) = Some (JSON.stringify (VObj st)) /\ sizeOK st.

(** A drag or a resize is in progress. *)
Definition gesture (p : panelElem) : bool :=
  dragging (drag p) || resizing (resize p).

(** The panel, the state and the storage all respect the floors, and a
    gesture is in progress only on a displayed panel. *)
Definition sizesKept (w : world) : Prop :=
  exists p, panel w = Some p
            /\ (exists wd ht, width (style p) = Some wd /\ height (style p) = Some ht
                              /\ 300 <= wd /\ 380 <= ht)
            /\ sizeOK (state w)
            /\ persistedOK w
            /\ (gesture p = true -> displayed p = true).

Definition closes (ev : event) : bool :=
  match ev with
  | ApiClose | ClickClose | KeyEscape => true
  | _ => false
  end.

(** The event does not hide the panel in the middle of a gesture. *)
Definition orderly (w : world) (ev : event) : Prop :=
  closes ev = true ->
  match panel w with Some p => gesture p = false | None => True end.

Fixpoint orderlyRun (w : world) (evs : list event) : Prop :=
  match evs with
  | [] => True
  | ev :: evs' => orderly w ev /\ orderlyRun (step w ev) evs'
  end.

(** ** The codec on plain records *)

Import JSON.

(** A text that continues with a comma or a closing brace. *)
Definition delimited (s : string) : Prop :=
  exists c r, s = String c r /\ (c = ","%char \/ c = "}"%char).

(** The value of a run of decimal digits read after [acc]. *)
Fixpoint uintValue (acc : Z) (d : Decimal.uint) : Z :=
  match d with
  | Decimal.Nil => acc
  | Decimal.D0 d' => uintValue (10 * acc + 0) d'
  | Decimal.D1 d' => uintValue (10 * acc + 1) d'
  | Decimal.D2 d' => uintValue (10 * acc + 2) d'
  | Decimal.D3 d' => uintValue (10 * acc + 3) d'
  | Decimal.D4 d' => uintValue (10 * acc + 4) d'
  | Decimal.D5 d' => uintValue (10 * acc + 5) d'
  | Decimal.D6 d' => uintValue (10 * acc + 6) d'
  | Decimal.D7 d' => uintValue (10 * acc + 7) d'
  | Decimal.D8 d' => uintValue (10 * acc + 8) d'
  | Decimal.D9 d' => uintValue (10 * acc + 9) d'
  end.

(** The values the persisted record holds. *)
Definition simple (v : value) : Prop :=
  match v with
  | VNull | VBool _ => True
  | VNum n => safeInteger n
  | _ => False
  end.

(** A character that is written and read back as it is inside a string
    literal. *)
Definition plainChar (c : ascii) : bool :=
  negb (Ascii.eqb c "034") && negb (Ascii.eqb c "\") && (32 <=? nat_of_ascii c)%nat.

Fixpoint plain (s : string) : bool :=
  match s with
  | EmptyString => true
  | String c rest => plainChar c && plain rest
  end.

(** One member of a serialised object; an object whose keys are plain
    and at most [maxKey] long and whose values are simple. *)
Definition member (kv : string * value) : string :=
  quote (fst kv) ++ ":" ++ serialize (snd kv).

Definition storable (maxKey : nat) (fields : list (string * value)) : Prop :=
  Forall (fun kv => plain (fst kv) = true
                    /\ (String.length (fst kv) <= maxKey)%nat
                    /\ simple (snd kv)) fields.

(** ** Sample worlds *)

(** A page on which the script has loaded the defaults (nothing stored)
    and [init()] has not run yet: no panel, no trigger. *)
Definition blankWorld : world :=
  mkWorld 1280 800 (mkStorage None true true) defaults None None false O false
          400 (fun l => 60 * Z.of_nat (List.length l)) [].

(** The same page once [init()] has run. *)
Definition startedWorld : world := orSame blankWorld (init blankWorld).

(** The visitor has opened the panel and typed a question. *)
Definition typedWorld : world :=
  run startedWorld [ClickFab; TypeText "  gợi ý sách trinh thám ngắn "].

End Props.

(* ------------------------------------------------------------------ *)
(** * The rest of the script: endpoint discovery, reachable worlds *)

Module Page.

Import Transcript Widget Props.

Definition API_URL_DEFAULT : string := "/api/bookbot".

(** [scripts[scripts.length - 1]]: [None] for an empty collection. *)
Fixpoint lastScript {A} (scripts : list A) : option A :=
  match scripts with
  | [] => None
  | [me] => Some me
  | _ :: rest => lastScript rest
  end.

(** [getApiUrl()].  A script element is given by its [data-api-url]
    attribute, [None] when it has none. *)
Definition getApiUrl (scripts : list (option string)) : string :=
  match lastScript scripts with
  | Some (Some apiUrl) => if String.eqb apiUrl "" then API_URL_DEFAULT else apiUrl
  | _ => API_URL_DEFAULT
  end.

(** How often a character occurs in a text. *)
Fixpoint count (c : ascii) (s : string) : nat :=
  match s with
  | EmptyString => O
  | String c' rest => (if Ascii.eqb c c' then 1 else 0) + count c rest
  end.

(** How many characters of a text are significant in markup. *)
Fixpoint countMarkup (s : string) : nat :=
  match s with
  | EmptyString => O
  | String c rest => (if markupChar c then 1 else 0) + countMarkup rest
  end.

(** The worlds the script can be in: the one its start-up leaves, and
    those events lead to from there. *)
Inductive reachable : world -> Prop :=
| reach_boot (vw vh : Z) (ls : storage) (clientH : Z) (measure : list row -> Z)
             (w : world) :
    boot vw vh ls clientH measure = Some w -> reachable w
| reach_step (w : world) (ev : event) :
    reachable w -> reachable (step w ev).

(** What the panel, the trigger, the state, the storage and the
    document-level listeners have to do with one another: the trigger is
    shown exactly when the panel is not; [state.open] says whether the
    panel is shown; a storage that takes writes holds the serialisation of
    the current state; the move / end listeners of a gesture are attached
    exactly while it is in progress, and text selection is suppressed
    exactly during a drag. *)
Definition coherent (w : world) : Prop :=
  exists p, panel w = Some p
            /\ fab w = Some (if displayed p then DisplayNone else DisplayFlex)
            /\ field "open" (state w) = VBool (displayed p)
            /\ (writable (localStorage w) = true ->
                slot (localStorage w) = Some (JSON.stringify (VObj (state w))))
            /\ drag_listening (drag p) = dragging (drag p)
            /\ resize_listening (resize p) = resizing (resize p)
            /\ userSelectNone w = dragging (drag p).

(** The rows of the log, the next row identity and the requests in
    flight, for a world with or without a panel. *)
Definition logRows (w : world) : list row :=
  match panel w with Some p => rows (log (chat p)) | None => [] end.

Definition nextId (w : world) : nat :=
  match panel w with Some p => next_id (chat p) | None => O end.

Definition pending (w : world) : list nat := map fst (inflight w).

(** Row identities are below the next one and pairwise different; each
    request in flight has its typing row in the log. *)
Definition rowsOK (w : world) : Prop :=
  (forall r, In r (logRows w) -> (row_id r < nextId w)%nat)
  /\ NoDup (map row_id (logRows w))
  /\ NoDup (pending w)
  /\ (forall id, In id (pending w) ->
                 In (mkRow id "bb-row bot" typingMarkup) (logRows w)).

(** The events that start or settle a send cycle. *)
Definition sendEvent (ev : event) : bool :=
  match ev with
  | KeyEnter | ClickSend | FetchSettled _ _ => true
  | _ => false
  end.

(** The pointer of the last move of a gesture, the press itself when
    there was none. *)
Definition lastPointer (press : pointerEvent) (moves : list pointerEvent)
  : pointerEvent :=
  List.last moves press.

(** The box of the panel as the page shows it. *)
Definition panelBox (w : world) : option rect :=
  match panel w with
  | Some p => Some (getBoundingClientRect w p)
  | None => None
  end.

(** A drag in progress: the variables of the gesture, the box, and what
    the gesture has to leave alone. *)
Definition dragAt (sx sy ox oy : Z) (box : rect) (st : list (string * value))
           (ls : storage) (vw vh : Z) (w : world) : Prop :=
  exists p, panel w = Some p
            /\ displayed p = true
            /\ drag p = mkDrag true sx sy ox oy true
            /\ resize_listening (resize p) = false
            /\ getBoundingClientRect w p = box
            /\ state w = st /\ localStorage w = ls
            /\ innerWidth w = vw /\ innerHeight w = vh.

(** A resize in progress: the variables of the gesture, the inline size
    and position, and what the gesture has to leave alone. *)
Definition resizeAt (sw sh sx sy : Z) (wd ht x y : option Z)
           (st : list (string * value)) (ls : storage) (vw vh : Z) (w : world)
  : Prop :=
  exists p, panel w = Some p
            /\ displayed p = true
            /\ resize p = mkResize true sw sh sx sy true
            /\ drag_listening (drag p) = false
            /\ width (style p) = wd /\ height (style p) = ht
            /\ left (style p) = x /\ top (style p) = y
            /\ state w = st /\ localStorage w = ls
            /\ innerWidth w = vw /\ innerHeight w = vh.

(** The input has the focus only while the panel is on screen. *)
Definition focusOK (w : world) : Prop :=
  inputFocused w = true -> panelDisplayed w = true.

(** The send button is disabled, or enabled, as [b] says. *)
Definition buttonIs (b : bool) (w : world) : Prop :=
  exists p, panel w = Some p /\ sendDisabled p = b.

(** A disabled button has a request to wait for. *)
Definition buttonOK (w : world) : Prop :=
  exists p, panel w = Some p /\ (sendDisabled p = true -> inflight w <> []).

End Page.

Import Render Transcript Widget Props.
Import Page.

(* ------------------------------------------------------------------ *)
(** * Viewport clamping *)

Section Clamping.

Variables (r : rect) (vw vh : Z).

Lemma clampX_is_clamp :
  clampX r vw = clamp (rect_left r) 8 (vw - rect_width r - 8).
Proof. unfold clampX, clamp. f_equal. apply Z.max_comm. Qed.

Lemma clampY_is_clamp :
  clampY r vh = clamp (rect_top r) 8 (vh - rect_height r - 8).
Proof. unfold clampY, clamp. f_equal. apply Z.max_comm. Qed.

Lemma clampX_roomy :
  8 <= vw - rect_width r - 8 -> 8 <= clampX r vw <= vw - rect_width r - 8.
Proof. unfold clampX. lia. Qed.

Lemma clampY_roomy :
  8 <= vh - rect_height r - 8 -> 8 <= clampY r vh <= vh - rect_height r - 8.
Proof. unfold clampY. lia. Qed.

Lemma clampX_cramped :
  vw - rect_width r - 8 < 8 -> clampX r vw = vw - rect_width r - 8.
Proof. unfold clampX. lia. Qed.

Lemma clampY_cramped :
  vh - rect_height r - 8 < 8 -> clampY r vh = vh - rect_height r - 8.
Proof. unfold clampY. lia. Qed.

End Clamping.

(** C4, as the code has it: the new corner is
    [clamp(left, 8, vw - width - 8)], [clamp(top, 8, vh - height - 8)] and
    the size is kept; when the viewport leaves room ([8 <= vw - width - 8],
    resp. height) the corner lies between the two margins; when it does
    not, the upper bound wins: the corner is [vw - width - 8] (resp.
    [vh - height - 8]), so the far edge stays 8 pixels inside the viewport
    and the near edge is below 8. *)
Theorem clampIntoViewport_rect (r : rect) (vw vh : Z) :
  clampRect r vw vh =
    mkRect (clamp (rect_left r) 8 (vw - rect_width r - 8))
           (clamp (rect_top r) 8 (vh - rect_height r - 8))
           (rect_width r) (rect_height r)
  /\ (8 <= vw - rect_width r - 8 ->
      8 <= rect_left (clampRect r vw vh) <= vw - rect_width r - 8)
  /\ (8 <= vh - rect_height r - 8 ->
      8 <= rect_top (clampRect r vw vh) <= vh - rect_height r - 8)
  /\ (vw - rect_width r - 8 < 8 ->
      rect_left (clampRect r vw vh) = vw - rect_width r - 8)
  /\ (vh - rect_height r - 8 < 8 ->
      rect_top (clampRect r vw vh) = vh - rect_height r - 8).
Proof.
  unfold clampRect; cbn [rect_left rect_top].
  rewrite <- clampX_is_clamp, <- clampY_is_clamp.
  repeat split;
    auto using clampX_cramped, clampY_cramped;
    try (apply clampX_roomy; assumption);
    try (apply clampY_roomy; assumption).
Qed.

Lemma clampIntoViewport_rect_witness :
  let r := mkRect 2000 (-40) 360 520 in
  8 <= rect_left (clampRect r 1280 800) <= 1280 - 360 - 8
  /\ 8 <= rect_top (clampRect r 1280 800) <= 800 - 520 - 8
  /\ rect_left (clampRect r 300 400) = 300 - 360 - 8
  /\ rect_top (clampRect r 300 400) = 400 - 520 - 8.
Proof.
  intro r.
  destruct (clampIntoViewport_rect r 1280 800) as (_ & Hx & Hy & _ & _).
  destruct (clampIntoViewport_rect r 300 400) as (_ & _ & _ & Hx' & Hy').
  split; [apply Hx; simpl; lia|].
  split; [apply Hy; simpl; lia|].
  split; [apply Hx'; simpl; lia|apply Hy'; simpl; lia].
Defined.

(** C4 as stated fails: with a 300 by 400 viewport and a 360 by 520 panel
    the corner is not pinned to the 8 pixel margin but put at (-68, -128),
    beyond the viewport. *)
Lemma clamp_small_viewport_not_pinned :
  let r := mkRect 100 100 360 520 in
  clampRect r 300 400 = mkRect (-68) (-128) 360 520
  /\ rect_left (clampRect r 300 400) <> 8
  /\ rect_left (clampRect r 300 400) < 0
  /\ rect_top (clampRect r 300 400) <> 8
  /\ rect_top (clampRect r 300 400) < 0.
Proof. cbv. repeat split; congruence. Qed.

(** [clampIntoViewport] applies [clampRect] to the panel's box: the inline
    corner and the four geometry fields of [state] are those of the
    clamped rectangle. *)
Lemma clampIntoViewport_applies (w : world) (p : panelElem) :
  panel w = Some p ->
  let r := clampRect (getBoundingClientRect w p) (innerWidth w) (innerHeight w) in
  exists p',
    panel (clampIntoViewport w) = Some p'
    /\ left (style p') = Some (rect_left r)
    /\ top (style p') = Some (rect_top r)
    /\ width (style p') = width (style p)
    /\ height (style p') = height (style p)
    /\ state (clampIntoViewport w) =
         set_key "h" (VNum (rect_height r))
           (set_key "w" (VNum (rect_width r))
              (set_key "y" (VNum (rect_top r))
                 (set_key "x" (VNum (rect_left r)) (state w)))).
Proof.
  intros Hp r. unfold clampIntoViewport. rewrite Hp.
  eexists. split; [reflexivity|]. cbn. repeat split.
Qed.

(* ------------------------------------------------------------------ *)
(** * Stick-to-bottom scrolling *)

Lemma scrollBottom_nonneg (l : logElem) : 0 <= scrollBottom l.
Proof.
  unfold scrollBottom, scrollHeight, clientHeight.
  destruct (rendered l); lia.
Qed.

Lemma clientHeight_nonneg (l : logElem) : 0 <= clientHeight l.
Proof. unfold clientHeight. destruct (rendered l); lia. Qed.

(** Assigning [scrollHeight] to [scrollTop] lands on the bottom. *)
Lemma scrollTop_to_bottom (l : logElem) :
  scrollTop (set_scrollTop (scrollHeight l) l) = scrollBottom l.
Proof.
  pose proof (scrollBottom_nonneg l) as Hb.
  pose proof (clientHeight_nonneg l) as Hc.
  unfold scrollTop, set_scrollTop; cbn [rendered offset].
  destruct (rendered l) eqn:Hr.
  - unfold scrollBottom in *. lia.
  - unfold scrollBottom, scrollHeight, clientHeight. rewrite Hr. reflexivity.
Qed.

Lemma scrollBottom_set_scrollTop (v : Z) (l : logElem) :
  scrollBottom (set_scrollTop v l) = scrollBottom l.
Proof. reflexivity. Qed.

Lemma stick_stickBottom (t : transcript) : stickBottom (stick t) = stickBottom t.
Proof. unfold stick. destruct (stickBottom t) eqn:E; [reflexivity | exact E]. Qed.

Lemma stick_true (t : transcript) :
  stickBottom t = true ->
  scrollTop (log (stick t)) = scrollBottom (log (stick t)).
Proof.
  intros E. unfold stick. rewrite E. cbn [log].
  rewrite scrollBottom_set_scrollTop. apply scrollTop_to_bottom.
Qed.

Lemma stick_false (t : transcript) : stickBottom t = false -> stick t = t.
Proof. intros E. unfold stick. rewrite E. reflexivity. Qed.

(** What one append does to the scroll state. *)
Lemma applyOp_scroll (op : appendOp) (t : transcript) :
  stickBottom (applyOp t op) = stickBottom t
  /\ (stickBottom t = true ->
      scrollTop (log (applyOp t op)) = scrollBottom (log (applyOp t op)))
  /\ (stickBottom t = false ->
      scrollTop (log (applyOp t op)) = scrollTop (log t)).
Proof.
  assert (Hrow : forall r : row,
             let t' := stick (mkTranscript (appendChild r (log t)) (stickBottom t)
                                           (S (next_id t))) in
             stickBottom t' = stickBottom t
             /\ (stickBottom t = true -> scrollTop (log t') = scrollBottom (log t'))
             /\ (stickBottom t = false -> scrollTop (log t') = scrollTop (log t))).
  { intros r t'. subst t'. split; [|split].
    - rewrite stick_stickBottom. reflexivity.
    - intro E. apply stick_true. exact E.
    - intro E. rewrite stick_false by exact E. reflexivity. }
  destruct op; cbn [applyOp appendYou appendBot append showTyping snd]; apply Hrow.
Qed.

Lemma applyOps_keeps_position (ops : list appendOp) (t : transcript) :
  stickBottom t = false ->
  stickBottom (applyOps t ops) = false
  /\ scrollTop (log (applyOps t ops)) = scrollTop (log t).
Proof.
  revert t. induction ops as [|op ops IH]; intros t E.
  - split; [exact E | reflexivity].
  - cbn [applyOps fold_left].
    destruct (applyOp_scroll op t) as (Hs & _ & Hkeep).
    destruct (IH (applyOp t op)) as (IH1 & IH2).
    + rewrite Hs. exact E.
    + split; [exact IH1|]. unfold applyOps in IH2. rewrite IH2. apply Hkeep, E.
Qed.

Lemma onScroll_stickBottom (t : transcript) :
  stickBottom (onScroll t) = true <->
  scrollTop (log (onScroll t))
    >= scrollHeight (log (onScroll t)) - clientHeight (log (onScroll t)) - 4.
Proof.
  unfold onScroll; cbn [stickBottom log].
  rewrite Z.geb_le. lia.
Qed.

(** C7.  After a user scroll, [stickBottom] holds exactly when the offset
    is within 4 pixels of the bottom; an append ([appendYou], [appendBot],
    [showTyping]) leaves the flag alone, puts the log at its bottom when
    the flag is set and leaves the offset where it was when it is not; so
    a user who scrolled more than 4 pixels away keeps the position over
    any number of appends. *)
Theorem stickBottom_policy :
  (forall (v : Z) (t : transcript),
      let t' := userScroll v t in
      stickBottom t' = true <->
      scrollTop (log t') >= scrollHeight (log t') - clientHeight (log t') - 4)
  /\ (forall (op : appendOp) (t : transcript),
         let t' := applyOp t op in
         stickBottom t' = stickBottom t
         /\ (stickBottom t = true -> scrollTop (log t') = scrollBottom (log t'))
         /\ (stickBottom t = false -> scrollTop (log t') = scrollTop (log t)))
  /\ (forall (v : Z) (t : transcript) (ops : list appendOp),
         let t' := userScroll v t in
         scrollTop (log t') < scrollHeight (log t') - clientHeight (log t') - 4 ->
         scrollTop (log (applyOps t' ops)) = scrollTop (log t')).
Proof.
  split; [|split].
  - intros v t. apply onScroll_stickBottom.
  - intros op t. apply applyOp_scroll.
  - intros v t ops t' Hfar.
    apply applyOps_keeps_position.
    assert (Hiff : stickBottom t' = true <->
                   scrollTop (log t')
                     >= scrollHeight (log t') - clientHeight (log t') - 4)
      by apply onScroll_stickBottom.
    destruct (stickBottom t'); [|reflexivity].
    assert (true = true) as E by reflexivity. apply Hiff in E. lia.
Qed.

Lemma stickBottom_policy_witness :
  let t := mkTranscript
             (mkLog [mkRow 0 "bb-row bot" "a"; mkRow 1 "bb-row you" "b"] 0 100
                    (fun l => 200 * Z.of_nat (List.length l)) true)
             true 2 in
  stickBottom (userScroll 120 t) = false
  /\ scrollTop (log (applyOps (userScroll 120 t) [OpBot "c"; OpTyping; OpYou "d"])) = 120
  /\ scrollTop (log (applyOp (userScroll 297 t) (OpBot "c"))) = 500.
Proof.
  intro t.
  destruct stickBottom_policy as (Hscroll & Happend & Hkeep).
  split; [|split].
  - destruct (stickBottom (userScroll 120 t)) eqn:E; [|reflexivity].
    apply Hscroll in E. vm_compute in E. exfalso. apply E. reflexivity.
  - rewrite (Hkeep 120 t); [reflexivity | vm_compute; reflexivity].
  - destruct (Happend (OpBot "c") (userScroll 297 t)) as (_ & Hbottom & _).
    rewrite Hbottom; [reflexivity|].
    apply Hscroll. vm_compute. discriminate.
Defined.

(* ------------------------------------------------------------------ *)
(** * Render dispatch *)

Section Dispatch.

Variable fields : list (string * value).

Let data : value := VObj fields.

(** The four tests of [renderBot], on an object. *)
Lemma renderBot_recommendations :
  isArray (field "recommendations" fields) = true ->
  renderBotMarkup data = renderRecommendations data.
Proof.
  intros H. unfold renderBotMarkup, and_then, data. cbn [truthy prop bind].
  rewrite H. reflexivity.
Qed.

Lemma renderBot_summary :
  isArray (field "recommendations" fields) = false ->
  truthy (field "summary" fields) = true ->
  renderBotMarkup data = renderSummary data.
Proof.
  intros H1 H2. unfold renderBotMarkup, and_then, data. cbn [truthy prop bind].
  rewrite H1. cbn [truthy]. rewrite H2. reflexivity.
Qed.

Lemma renderBot_answer :
  isArray (field "recommendations" fields) = false ->
  truthy (field "summary" fields) = false ->
  truthy (field "answer" fields) = true ->
  renderBotMarkup data = renderAnswer data.
Proof.
  intros H1 H2 H3. unfold renderBotMarkup, and_then, data. cbn [truthy prop bind].
  rewrite H1. cbn [truthy]. rewrite H2, H3. reflexivity.
Qed.

Lemma renderBot_fallback :
  isArray (field "recommendations" fields) = false ->
  truthy (field "summary" fields) = false ->
  truthy (field "answer" fields) = false ->
  renderBotMarkup data = renderFallback data.
Proof.
  intros H1 H2 H3. unfold renderBotMarkup, and_then, data. cbn [truthy prop bind].
  rewrite H1. cbn [truthy]. rewrite H2, H3. reflexivity.
Qed.

Lemma renderFallback_fixed :
  truthy (field "raw" fields) = false ->
  renderFallback data = Normal fallbackMessage.
Proof.
  intros H. unfold renderFallback, and_then, data. cbn [truthy prop bind].
  rewrite H. reflexivity.
Qed.

Lemma renderFallback_raw :
  truthy (field "raw" fields) = true ->
  renderFallback data = escapeHtml (field "raw" fields).
Proof.
  intros H. unfold renderFallback, and_then, data. cbn [truthy prop bind].
  rewrite H. reflexivity.
Qed.

End Dispatch.

(** Each branch reads only its own fields. *)
Lemma renderRecommendations_reads (f1 f2 : list (string * value)) :
  field "recommendations" f1 = field "recommendations" f2 ->
  field "follow_up" f1 = field "follow_up" f2 ->
  renderRecommendations (VObj f1) = renderRecommendations (VObj f2).
Proof.
  intros H1 H2. unfold renderRecommendations. cbn [prop bind].
  rewrite H1, H2. reflexivity.
Qed.

Lemma renderSummary_reads (f1 f2 : list (string * value)) :
  field "summary" f1 = field "summary" f2 ->
  renderSummary (VObj f1) = renderSummary (VObj f2).
Proof.
  intros H. unfold renderSummary. cbn [prop bind]. rewrite H. reflexivity.
Qed.

Lemma renderAnswer_reads (f1 f2 : list (string * value)) :
  field "answer" f1 = field "answer" f2 ->
  field "books" f1 = field "books" f2 ->
  renderAnswer (VObj f1) = renderAnswer (VObj f2).
Proof.
  intros H1 H2. unfold renderAnswer. cbn [prop bind]. rewrite H1, H2. reflexivity.
Qed.

(** C3.  The shapes are tried in the order recommendations, summary,
    answer, fallback and the first that matches is the only one rendered.
    A payload whose [recommendations] is an array is rendered by the
    recommendations branch alone, so two such payloads that agree on
    [recommendations] and [follow_up] give the same result whatever
    [summary], [answer] or other fields either carries.  Likewise a
    payload that reaches the summary branch is rendered from [summary]
    alone, and one that reaches the answer branch from [answer] and
    [books] alone. *)
Theorem renderBot_first_shape_only (f1 f2 : list (string * value)) :
  (isArray (field "recommendations" f1) = true ->
   field "recommendations" f2 = field "recommendations" f1 ->
   field "follow_up" f2 = field "follow_up" f1 ->
   renderBotMarkup (VObj f1) = renderRecommendations (VObj f1)
   /\ renderBotMarkup (VObj f2) = renderBotMarkup (VObj f1))
  /\ (isArray (field "recommendations" f1) = false ->
      isArray (field "recommendations" f2) = false ->
      truthy (field "summary" f1) = true ->
      field "summary" f2 = field "summary" f1 ->
      renderBotMarkup (VObj f1) = renderSummary (VObj f1)
      /\ renderBotMarkup (VObj f2) = renderBotMarkup (VObj f1))
  /\ (isArray (field "recommendations" f1) = false ->
      isArray (field "recommendations" f2) = false ->
      truthy (field "summary" f1) = false ->
      truthy (field "summary" f2) = false ->
      truthy (field "answer" f1) = true ->
      field "answer" f2 = field "answer" f1 ->
      field "books" f2 = field "books" f1 ->
      renderBotMarkup (VObj f1) = renderAnswer (VObj f1)
      /\ renderBotMarkup (VObj f2) = renderBotMarkup (VObj f1)).
Proof.
  split; [|split].
  - intros Ha Hr Hf. split; [apply renderBot_recommendations, Ha|].
    rewrite !renderBot_recommendations by (rewrite ?Hr; exact Ha).
    apply renderRecommendations_reads; assumption.
  - intros Ha1 Ha2 Hs Hs2. split; [apply renderBot_summary; assumption|].
    rewrite !renderBot_summary by (rewrite ?Hs2; assumption).
    apply renderSummary_reads; assumption.
  - intros Ha1 Ha2 Hs1 Hs2 Hans Hans2 Hb.
    split; [apply renderBot_answer; assumption|].
    rewrite !renderBot_answer by (rewrite ?Hans2; assumption).
    apply renderAnswer_reads; assumption.
Qed.

(** The payload of the specification's example, and the same without its
    summary. *)
Lemma renderBot_first_shape_only_witness :
  let recs := VArr [VObj [("title", VStr "A"); ("author", VStr "X");
                          ("reason", VStr "hay")]] in
  let f1 := [("recommendations", recs)] in
  let f2 := [("recommendations", recs);
             ("summary", VObj [("title", VStr "S"); ("bullets", VArr [VStr "b"])]);
             ("answer", VStr "an answer")] in
  renderBotMarkup (VObj f2) = renderBotMarkup (VObj f1)
  /\ renderBotMarkup (VObj f1) = Normal "<ul><li><b>A</b> — X<br><i>hay</i></li></ul>".
Proof.
  intros recs f1 f2.
  destruct (renderBot_first_shape_only f1 f2) as (H & _ & _).
  destruct H as (H1 & H2); [reflexivity | reflexivity | reflexivity |].
  split; [exact H2 | rewrite H1; reflexivity].
Defined.

(** C10.  The tests go by truthiness, not by the presence of a key.  An
    array under [recommendations], the empty one included, selects the
    first branch whatever else the payload holds (an empty list with no
    follow-up renders as an empty [ul]).  An [answer] that is the empty
    string, or a [summary] that is [null], does not select its branch:
    when no other test succeeds and [raw] is falsy the fixed message is
    rendered although the key is there. *)
Theorem renderBot_truthiness (fields : list (string * value)) :
  (forall recs, lookup "recommendations" fields = Some (VArr recs) ->
                renderBotMarkup (VObj fields) = renderRecommendations (VObj fields))
  /\ (lookup "recommendations" fields = Some (VArr []) ->
      truthy (field "follow_up" fields) = false ->
      renderBotMarkup (VObj fields) = Normal "<ul></ul>")
  /\ (lookup "answer" fields = Some (VStr "") ->
      isArray (field "recommendations" fields) = false ->
      truthy (field "summary" fields) = false ->
      truthy (field "raw" fields) = false ->
      renderBotMarkup (VObj fields) = Normal fallbackMessage)
  /\ (lookup "summary" fields = Some VNull ->
      isArray (field "recommendations" fields) = false ->
      truthy (field "answer" fields) = false ->
      truthy (field "raw" fields) = false ->
      renderBotMarkup (VObj fields) = Normal fallbackMessage).
Proof.
  split; [|split; [|split]].
  - intros recs H. apply renderBot_recommendations. unfold field. rewrite H. reflexivity.
  - intros H Hf. rewrite renderBot_recommendations
      by (unfold field; rewrite H; reflexivity).
    unfold renderRecommendations. cbn [prop bind].
    unfold field at 1. rewrite H. cbn [array_map mapM bind join].
    rewrite Hf. reflexivity.
  - intros H Ha Hs Hr.
    rewrite renderBot_fallback; try assumption.
    + apply renderFallback_fixed, Hr.
    + unfold field. rewrite H. reflexivity.
  - intros H Ha Hans Hr.
    rewrite renderBot_fallback; try assumption.
    + apply renderFallback_fixed, Hr.
    + unfold field. rewrite H. reflexivity.
Qed.

Lemma renderBot_truthiness_witness :
  renderBotMarkup (VObj [("recommendations", VArr []);
                         ("summary", VObj [("title", VStr "S")]);
                         ("answer", VStr "an answer")])
    = Normal "<ul></ul>"
  /\ renderBotMarkup (VObj [("answer", VStr "")]) = Normal fallbackMessage
  /\ renderBotMarkup (VObj [("summary", VNull)]) = Normal fallbackMessage.
Proof.
  split; [|split].
  - apply (proj1 (proj2 (renderBot_truthiness _))); reflexivity.
  - apply (proj1 (proj2 (proj2 (renderBot_truthiness _)))); reflexivity.
  - apply (proj2 (proj2 (proj2 (renderBot_truthiness _)))); reflexivity.
Defined.

(* ------------------------------------------------------------------ *)
(** * Escaping *)

Lemma occurs_app (c : ascii) (s1 s2 : string) :
  occurs c (s1 ++ s2) = occurs c s1 || occurs c s2.
Proof.
  induction s1 as [|c' s1 IH]; [reflexivity|].
  simpl. rewrite IH. apply orb_assoc.
Qed.

(** No character other than the ampersand is significant in the output
    of one replacement. *)
Lemma escapeChar_clean (c x : ascii) :
  markupChar x = true -> x <> "&"%char -> occurs x (escapeChar c) = false.
Proof.
  intros Hx Hamp.
  assert (Hcases : x = "<"%char \/ x = ">"%char \/ x = "034"%char \/ x = "'"%char).
  { unfold markupChar in Hx.
    destruct (Ascii.eqb_spec x "&"); [contradiction|].
    destruct (Ascii.eqb_spec x "<"); [auto|].
    destruct (Ascii.eqb_spec x ">"); [auto|].
    destruct (Ascii.eqb_spec x "034"); [auto|].
    destruct (Ascii.eqb_spec x "'"); [auto|discriminate]. }
  unfold escapeChar.
  destruct (Ascii.eqb_spec c "&"); [destruct Hcases as [->|[->|[->| ->]]]; reflexivity|].
  destruct (Ascii.eqb_spec c "<"); [destruct Hcases as [->|[->|[->| ->]]]; reflexivity|].
  destruct (Ascii.eqb_spec c ">"); [destruct Hcases as [->|[->|[->| ->]]]; reflexivity|].
  destruct (Ascii.eqb_spec c "034"); [destruct Hcases as [->|[->|[->| ->]]]; reflexivity|].
  destruct (Ascii.eqb_spec c "'"); [destruct Hcases as [->|[->|[->| ->]]]; reflexivity|].
  cbn [occurs]. rewrite orb_false_r.
  destruct (Ascii.eqb_spec x c) as [->|]; [|reflexivity].
  destruct Hcases as [->|[->|[->| ->]]]; congruence.
Qed.

(** The escaped text holds no [<], [>], double quote or single quote. *)
Lemma replaceMarkup_clean (s : string) (x : ascii) :
  markupChar x = true -> x <> "&"%char -> occurs x (replaceMarkup s) = false.
Proof.
  intros Hx Hamp. induction s as [|c s IH]; [reflexivity|].
  cbn [replaceMarkup]. rewrite occurs_app, IH, escapeChar_clean by assumption.
  reflexivity.
Qed.

(** Text without significant characters is left as it is. *)
Lemma replaceMarkup_plain (s : string) :
  (forall x, markupChar x = true -> occurs x s = false) -> replaceMarkup s = s.
Proof.
  induction s as [|c s IH]; intros H; [reflexivity|].
  cbn [replaceMarkup].
  assert (Hc : markupChar c = false).
  { destruct (markupChar c) eqn:E; [|reflexivity].
    specialize (H c E). cbn in H. rewrite Ascii.eqb_refl in H. discriminate. }
  rewrite IH.
  - unfold escapeChar. unfold markupChar in Hc.
    repeat match goal with
           | |- context [if Ascii.eqb c ?k then _ else _] =>
               destruct (Ascii.eqb c k); cbn in Hc; try discriminate
           end.
    reflexivity.
  - intros x Hx. specialize (H x Hx). cbn in H.
    apply orb_false_elim in H. apply H.
Qed.

(** After [replaceNewlines] no line feed is left. *)
Lemma replaceNewlines_clean (s : string) :
  occurs "010" (replaceNewlines s) = false.
Proof.
  induction s as [|c s IH]; [reflexivity|].
  cbn [replaceNewlines]. rewrite occurs_app, IH.
  destruct (Ascii.eqb_spec c "010") as [->|Hne]; [reflexivity|].
  cbn [occurs]. destruct (Ascii.eqb_spec "010" c); [congruence | reflexivity].
Qed.

(** What [appendYou] puts in the bubble. *)
Lemma appendYou_markup (text : string) (t : transcript) :
  rows (log (appendYou text t)) =
    (rows (log t)
     ++ [mkRow (next_id t) "bb-row you"
               (rowMarkup "you" (replaceNewlines (replaceMarkup text)))])%list.
Proof.
  unfold appendYou, append, stick. cbn [stickBottom log].
  destruct (stickBottom t); reflexivity.
Qed.

(** C8, where the code departs from it.  The quantity of a book line is
    interpolated as it is, so a string there reaches the markup with its
    significant characters; a [null] entry of [recommendations] makes the
    template throw; a missing title is rendered as the word
    [undefined]. *)
Theorem renderBot_qty_unescaped :
  renderBotMarkup
    (VObj [("answer", VStr "hi");
           ("books", VArr [VObj [("title", VStr "t"); ("author", VStr "a");
                                 ("qty", VStr "<img src=x onerror=alert(1)>")]])])
    = Normal "hi<div style='margin-top:6px'>• <b>t</b> — a (còn <img src=x onerror=alert(1)>)</div>"
  /\ renderBotMarkup (VObj [("recommendations", VArr [VNull])]) = Throw
  /\ renderBotMarkup (VObj [("summary", VObj [("bullets", VStr "one")])]) = Throw
  /\ renderBotMarkup (VObj [("recommendations", VArr [VObj []])])
     = Normal "<ul><li><b>undefined</b> — N/A<br><i></i></li></ul>".
Proof. repeat split. Qed.

(* ------------------------------------------------------------------ *)
(** * The send cycle *)

Lemma append_rows (type html : string) (t : transcript) :
  rows (log (append type html t)) =
    (rows (log t) ++ [mkRow (next_id t) ("bb-row " ++ type) (rowMarkup type html)])%list
  /\ next_id (append type html t) = S (next_id t)
  /\ stickBottom (append type html t) = stickBottom t.
Proof.
  unfold append, stick. cbn [stickBottom log].
  destruct (stickBottom t) eqn:E; cbn; rewrite ?E; repeat split.
Qed.

Lemma showTyping_rows (t : transcript) :
  fst (showTyping t) = next_id t
  /\ rows (log (snd (showTyping t))) =
       (rows (log t) ++ [mkRow (next_id t) "bb-row bot" typingMarkup])%list
  /\ next_id (snd (showTyping t)) = S (next_id t).
Proof.
  unfold showTyping, stick. cbn [stickBottom log fst snd row_id].
  destruct (stickBottom t); cbn; repeat split.
Qed.

Lemma afterScroll_rows (before : Z) (t : transcript) :
  rows (log (afterScroll before t)) = rows (log t)
  /\ next_id (afterScroll before t) = next_id t.
Proof.
  unfold afterScroll. destruct (scrollTop (log t) =? before); split; reflexivity.
Qed.

Lemma remove_rows (id : nat) (t : transcript) :
  rows (log (remove id t)) =
    filter (fun r => negb (Nat.eqb (row_id r) id)) (rows (log t)).
Proof.
  unfold remove. rewrite (proj1 (afterScroll_rows _ _)). reflexivity.
Qed.

Lemma hasRow_remove (id : nat) (t : transcript) : hasRow id (remove id t) = false.
Proof.
  unfold hasRow. rewrite remove_rows.
  induction (rows (log t)) as [|r l IH]; [reflexivity|].
  cbn [filter]. destruct (Nat.eqb (row_id r) id) eqn:E; cbn [negb]; [exact IH|].
  cbn [existsb]. rewrite E, IH. reflexivity.
Qed.

(** The [try] / [catch] of [onSend] appends exactly one bot row. *)
Lemma handleOutcome_appends (o : fetchOutcome) (t : transcript) :
  handleOutcome o t = appendBot (outcomeMarkup o) t.
Proof.
  destruct o as [|[|] json]; cbn [handleOutcome outcomeMarkup negb]; try reflexivity.
  unfold renderBot.
  destruct (renderBotMarkup _); reflexivity.
Qed.


(** Settling always leaves the cycle's typing row removed, the send
    button enabled and the request retired, whatever happened to the world
    while the request was in flight; the input gets the focus when the
    panel is on screen, and is left as it was when it is not. *)
Lemma onSendSettle_idle (typing : nat) (o : fetchOutcome) (w : world) (p : panelElem) :
  panel w = Some p ->
  exists p',
    panel (onSendSettle typing o w) = Some p'
    /\ sendDisabled p' = false
    /\ hasRow typing (chat p') = false
    /\ ~ In typing (map fst (inflight (onSendSettle typing o w)))
    /\ displayed p' = displayed p
    /\ inputFocused (onSendSettle typing o w) = (displayed p || inputFocused w).
Proof.
  intros Hp. unfold onSendSettle. cbn [panel set_inflight]. rewrite Hp.
  unfold focusInput. cbn [panel set_panel].
  set (p' := set_sendDisabled false _).
  assert (Hd : displayed p' = displayed p) by reflexivity.
  assert (Hin : ~ In typing (map fst (filter (fun r => negb (Nat.eqb (fst r) typing))
                                             (inflight w)))).
  { intros Habs. apply in_map_iff in Habs.
    destruct Habs as (r & Hr & Hf). apply filter_In in Hf.
    destruct Hf as (_ & Hf). rewrite Hr, Nat.eqb_refl in Hf. discriminate. }
  rewrite Hd. exists p'.
  destruct (displayed p);
    (split; [reflexivity|]; split; [reflexivity|]; split; [apply hasRow_remove|];
     split; [exact Hin|]; split; [exact Hd | reflexivity]).
Qed.

(* ------------------------------------------------------------------ *)
(** * The public control surface *)

Ltac break_match :=
  match goal with
  | |- context [match ?x with _ => _ end] => destruct x eqn:?
  | |- context [if ?b then _ else _] => destruct b eqn:?
  end.

Lemma hasPanel_saveState (w : world) : hasPanel (saveState w) = hasPanel w.
Proof. reflexivity. Qed.

Lemma hasPanel_set_rafQueue (n : nat) (w : world) :
  hasPanel (set_rafQueue n w) = hasPanel w.
Proof. reflexivity. Qed.

Lemma hasPanel_update (f : panelElem -> panelElem) (w : world) :
  hasPanel (update_panel f w) = hasPanel w.
Proof.
  unfold update_panel, hasPanel.
  destruct (panel w) eqn:Hp; cbn; rewrite ?Hp; reflexivity.
Qed.

Lemma hasPanel_focusInput (w : world) : hasPanel (focusInput w) = hasPanel w.
Proof.
  unfold focusInput, hasPanel.
  destruct (panel w) eqn:Hp; [destruct (displayed _)|]; cbn; rewrite ?Hp; reflexivity.
Qed.

Lemma hasPanel_closePanel (w : world) : hasPanel (closePanel w) = hasPanel w.
Proof.
  unfold closePanel, hasPanel. cbn [panel saveState set_state set_localStorage].
  destruct (panel w) eqn:Hp; cbn; destruct (fab w); cbn; rewrite ?Hp; reflexivity.
Qed.

Lemma hasPanel_clampIntoViewport (w : world) :
  hasPanel (clampIntoViewport w) = hasPanel w.
Proof.
  unfold clampIntoViewport, hasPanel.
  destruct (panel w) eqn:Hp; cbn; rewrite ?Hp; reflexivity.
Qed.

Lemma hasPanel_setPosition (x y : Z) (w : world) :
  hasPanel (setPosition x y w) = hasPanel w.
Proof.
  unfold setPosition, hasPanel.
  destruct (panel w) eqn:Hp; cbn; rewrite ?Hp; reflexivity.
Qed.

Lemma makePanel_hasPanel (w w' : world) :
  makePanel w = Some w' -> hasPanel w' = true.
Proof.
  unfold makePanel, hasPanel. intros H.
  destruct (panel w) eqn:Hp.
  - injection H as <-. rewrite Hp. reflexivity.
  - repeat match type of H with
           | context [match ?x with _ => _ end] => destruct x; try discriminate
           end;
      injection H as <-; reflexivity.
Qed.

Lemma openPanel_displayed (w w' : world) :
  openPanel w = Some w' -> panelDisplayed w' = true.
Proof.
  unfold openPanel. intros H.
  destruct (makePanel w) as [w1|]; [|discriminate].
  destruct (panel w1) as [p|]; [|discriminate].
  injection H as <-. unfold panelDisplayed.
  cbn [saveState set_state set_localStorage panel set_panel].
  destruct (fab w1); unfold focusInput; cbn; reflexivity.
Qed.

Lemma panelDisplayed_hasPanel (w : world) :
  panelDisplayed w = true -> hasPanel w = true.
Proof. unfold panelDisplayed, hasPanel. destruct (panel w); congruence. Qed.

Lemma init_hasPanel (w w' : world) : init w = Some w' -> hasPanel w' = true.
Proof.
  unfold init. intros H.
  destruct (makePanel (makeFab w)) as [w1|] eqn:Hm; [|discriminate].
  destruct (truthy _).
  - apply panelDisplayed_hasPanel, (openPanel_displayed w1), H.
  - injection H as <-. rewrite hasPanel_closePanel.
    apply (makePanel_hasPanel _ _ Hm).
Qed.

Lemma hasPanel_onSendStart (w : world) :
  hasPanel (fst (onSendStart w)) = hasPanel w.
Proof.
  unfold onSendStart, hasPanel.
  destruct (panel w) eqn:Hp; [|cbn; rewrite ?Hp; reflexivity].
  destruct (String.eqb _ _); [cbn; rewrite ?Hp; reflexivity|].
  destruct (showTyping _). reflexivity.
Qed.

Lemma hasPanel_onSendSettle (typing : nat) (o : fetchOutcome) (w : world) :
  hasPanel (onSendSettle typing o w) = hasPanel w.
Proof.
  unfold onSendSettle. cbn [panel set_inflight].
  destruct (panel w) eqn:Hp.
  - rewrite hasPanel_focusInput. unfold hasPanel. rewrite Hp. reflexivity.
  - unfold hasPanel. cbn. rewrite Hp. reflexivity.
Qed.

Lemma hasPanel_gesture (e : pointerEvent) (w : world) :
  hasPanel (dragStart e w) = hasPanel w
  /\ hasPanel (dragMove e w) = hasPanel w
  /\ hasPanel (dragEnd w) = hasPanel w
  /\ hasPanel (resizeStart e w) = hasPanel w
  /\ hasPanel (resizeMove e w) = hasPanel w
  /\ hasPanel (resizeEnd w) = hasPanel w.
Proof.
  unfold dragStart, dragMove, dragEnd, resizeStart, resizeMove, resizeEnd.
  destruct (panel w) as [p|] eqn:Hp; [|repeat split].
  assert (Hw : hasPanel w = true) by (unfold hasPanel; rewrite Hp; reflexivity).
  rewrite Hw.
  repeat split; repeat break_match; try reflexivity; try exact Hw;
    cbn [hasPanel set_userSelectNone panel];
    rewrite ?hasPanel_update, ?hasPanel_clampIntoViewport; reflexivity.
Qed.

(** No event takes the panel away. *)
Lemma hasPanel_step (w : world) (ev : event) :
  hasPanel w = true -> hasPanel (step w ev) = true.
Proof.
  intros Hw.
  destruct ev; cbn [step].
  - destruct (openPanel w) eqn:E; cbn [orSame]; [|exact Hw].
    apply panelDisplayed_hasPanel, (openPanel_displayed w), E.
  - rewrite hasPanel_closePanel. exact Hw.
  - rewrite hasPanel_setPosition. exact Hw.
  - destruct (fab w) as [[| |]|]; try exact Hw;
      (destruct (openPanel w) eqn:E; cbn [orSame]; [|exact Hw];
       apply panelDisplayed_hasPanel, (openPanel_displayed w), E).
  - break_match; rewrite ?hasPanel_closePanel; exact Hw.
  - break_match; rewrite ?hasPanel_closePanel; exact Hw.
  - break_match; rewrite ?hasPanel_onSendStart; exact Hw.
  - repeat break_match; rewrite ?hasPanel_onSendStart; exact Hw.
  - break_match; rewrite ?hasPanel_update; exact Hw.
  - destruct (panelDisplayed w); [|exact Hw].
    assert (Hd : hasPanel (dragStart e w) = true)
      by (rewrite (proj1 (hasPanel_gesture e w)); exact Hw).
    destruct (touches e); exact Hd.
  - break_match;
      rewrite ?(proj1 (proj2 (proj2 (proj2 (hasPanel_gesture e w))))); exact Hw.
  - set (w1 := match panel w with
               | Some p => if drag_listening (drag p) then dragMove e w else w
               | None => w
               end).
    assert (H1 : hasPanel w1 = true).
    { subst w1. repeat break_match;
        rewrite ?(proj1 (proj2 (hasPanel_gesture e w))); exact Hw. }
    repeat break_match;
      rewrite ?(proj1 (proj2 (proj2 (proj2 (proj2 (hasPanel_gesture e w1))))));
      exact H1.
  - set (w1 := match panel w with
               | Some p => if drag_listening (drag p) then dragEnd w else w
               | None => w
               end).
    assert (H1 : hasPanel w1 = true).
    { subst w1. repeat break_match;
        rewrite ?(proj1 (proj2 (proj2 (hasPanel_gesture (mkPointerEvent [] (mkPoint 0 0)) w))));
        exact Hw. }
    repeat break_match;
      rewrite ?(proj2 (proj2 (proj2 (proj2 (proj2
                  (hasPanel_gesture (mkPointerEvent [] (mkPoint 0 0)) w1))))));
      exact H1.
  - break_match; rewrite ?hasPanel_update; exact Hw.
  - rewrite hasPanel_set_rafQueue.
    break_match; rewrite ?hasPanel_update; exact Hw.
  - break_match; rewrite ?hasPanel_onSendSettle; exact Hw.
  - exact Hw.
  - rewrite hasPanel_update. exact Hw.
  - rewrite hasPanel_focusInput. exact Hw.
Qed.

Lemma hasPanel_run (evs : list event) (w : world) :
  hasPanel w = true -> hasPanel (run w evs) = true.
Proof.
  revert w. induction evs as [|ev evs IH]; intros w Hw; [exact Hw|].
  cbn [run fold_left]. apply IH, hasPanel_step, Hw.
Qed.

(** Reading a field after writing one. *)
Lemma lookup_assign_key_same (k : string) (v : value) (l : list (string * value)) :
  lookup k (assign_key k v l) = Some v.
Proof.
  induction l as [|[k' v'] l IH]; cbn [assign_key lookup].
  - rewrite String.eqb_refl. reflexivity.
  - destruct (String.eqb k k') eqn:E; cbn [lookup].
    + rewrite String.eqb_refl. reflexivity.
    + rewrite E. exact IH.
Qed.

Lemma lookup_assign_key_other (k k0 : string) (v : value) (l : list (string * value)) :
  k0 <> k -> lookup k0 (assign_key k v l) = lookup k0 l.
Proof.
  intros Hne. apply String.eqb_neq in Hne.
  induction l as [|[k' v'] l IH]; cbn [assign_key lookup].
  - rewrite Hne. reflexivity.
  - destruct (String.eqb k k') eqn:E; cbn [lookup].
    + apply String.eqb_eq in E. subst k'. rewrite Hne. reflexivity.
    + rewrite IH. reflexivity.
Qed.

Lemma lookup_insert_key_same (k : string) (v : value) (l : list (string * value)) :
  lookup k l = None -> lookup k (insert_key k v l) = Some v.
Proof.
  induction l as [|[k' v'] l IH]; cbn [insert_key lookup]; intros H.
  - rewrite String.eqb_refl. reflexivity.
  - destruct (String.eqb k k') eqn:E; [discriminate|].
    destruct (arrayIndex k), (arrayIndex k'); try destruct (_ <? _);
      cbn [lookup]; rewrite ?String.eqb_refl, ?E; auto.
Qed.

Lemma lookup_insert_key_other (k k0 : string) (v : value) (l : list (string * value)) :
  k0 <> k -> lookup k0 (insert_key k v l) = lookup k0 l.
Proof.
  intros Hne. apply String.eqb_neq in Hne.
  induction l as [|[k' v'] l IH]; cbn [insert_key lookup].
  - rewrite Hne. reflexivity.
  - destruct (arrayIndex k), (arrayIndex k'); try destruct (_ <? _);
      cbn [lookup]; rewrite ?Hne, ?IH; reflexivity.
Qed.

Lemma field_set_key_same (k : string) (v : value) (l : list (string * value)) :
  field k (set_key k v l) = v.
Proof.
  unfold field, set_key, has_key.
  destruct (lookup k l) eqn:E.
  - rewrite lookup_assign_key_same. reflexivity.
  - rewrite lookup_insert_key_same by exact E. reflexivity.
Qed.

Lemma field_set_key_other (k k0 : string) (v : value) (l : list (string * value)) :
  k0 <> k -> field k0 (set_key k v l) = field k0 l.
Proof.
  intros Hne. unfold field, set_key, has_key.
  destruct (lookup k l).
  - rewrite lookup_assign_key_other by exact Hne. reflexivity.
  - rewrite lookup_insert_key_other by exact Hne. reflexivity.
Qed.

(** A write that the storage accepts leaves the serialised state in the
    slot; one it refuses leaves the storage as it was. *)
Lemma save_slot (st : list (string * value)) (ls : storage) :
  slot (save st ls) =
    if writable ls then Some (JSON.stringify (VObj st)) else slot ls.
Proof. unfold save, setItem. destruct (writable ls); reflexivity. Qed.

(* ------------------------------------------------------------------ *)
(** * What gets persisted *)

(** C5, where the code departs from it.  On a fresh page (nothing
    stored), the visitor opens the panel, presses the resize handle,
    closes the panel with Escape while the button is still down (the
    handle's mousedown keeps the focus in the input), and releases: the
    end handler clamps the box of a panel that is no longer displayed,
    which is all zeros, and saves a state with [w = 0] and [h = 0].  The
    same happens when the host calls [close()] during the gesture.
    Start-up also saves, unchecked, whatever sizes a stored record
    carried. *)
Theorem resize_end_after_close_saves_zero_size :
  let press := mkPointerEvent [] (mkPoint 1250 770) in
  let byKey := run startedWorld [ClickFab; HandleDown press; KeyEscape; DocumentUp] in
  let byApi := run startedWorld [ApiOpen; HandleDown press; ApiClose; DocumentUp] in
  slot (localStorage byKey)
    = Some ("{" ++ dq ++ "open" ++ dq ++ ":false," ++ dq ++ "x" ++ dq ++ ":8,"
            ++ dq ++ "y" ++ dq ++ ":8," ++ dq ++ "w" ++ dq ++ ":0,"
            ++ dq ++ "h" ++ dq ++ ":0}")
  /\ persistedField "w" byKey = Some (VNum 0)
  /\ persistedField "h" byKey = Some (VNum 0)
  /\ persistedField "w" byApi = Some (VNum 0)
  /\ persistedField "h" byApi = Some (VNum 0)
  /\ option_map (persistedField "w")
       (boot 1280 800
             (mkStorage (Some ("{" ++ dq ++ "w" ++ dq ++ ":100," ++ dq ++ "h" ++ dq ++ ":50}"))
                        true true)
             400 (fun _ => 0))
     = Some (Some (VNum 100)).
Proof. vm_compute. repeat split. Qed.

(* ------------------------------------------------------------------ *)
(** * The size floors while gestures end on a displayed panel *)

Lemma sizeOK_set_key (k : string) (v : value) (st : list (string * value)) :
  k <> "w" -> k <> "h" -> sizeOK st -> sizeOK (set_key k v st).
Proof.
  intros Hw Hh (sw & sh & H1 & H2 & H3 & H4). exists sw, sh.
  rewrite !field_set_key_other by congruence. auto.
Qed.

Lemma sizeOK_clamped (x y wd ht : Z) (st : list (string * value)) :
  300 <= wd -> 380 <= ht ->
  sizeOK (set_key "h" (VNum ht)
            (set_key "w" (VNum wd) (set_key "y" (VNum y) (set_key "x" (VNum x) st)))).
Proof.
  intros Hw Hh. exists wd, ht.
  rewrite field_set_key_other by discriminate.
  rewrite !field_set_key_same. auto.
Qed.

Lemma persistedOK_saveState (w : world) :
  sizeOK (state w) -> persistedOK w -> persistedOK (saveState w).
Proof.
  intros Hs Hp. unfold persistedOK, saveState.
  cbn [localStorage set_localStorage]. rewrite save_slot.
  destruct (writable (localStorage w)); [|exact Hp].
  right. exists (state w). split; [reflexivity | exact Hs].
Qed.

(** The invariant reads the panel, the state and the storage only. *)
Lemma sizesKept_same (w w' : world) :
  panel w' = panel w -> state w' = state w -> localStorage w' = localStorage w ->
  sizesKept w -> sizesKept w'.
Proof.
  intros H1 H2 H3 (p & Hp & Hsz & Hst & Hps & Hg).
  exists p. unfold persistedOK in *. rewrite H1, H2, H3. repeat split; assumption.
Qed.

Lemma focusInput_same (w : world) :
  panel (focusInput w) = panel w /\ state (focusInput w) = state w
  /\ localStorage (focusInput w) = localStorage w.
Proof.
  unfold focusInput. destruct (panel w) as [p|] eqn:Hp; [destruct (displayed p)|];
    cbn; rewrite ?Hp; repeat split.
Qed.

Lemma sizesKept_focusInput (w : world) : sizesKept w -> sizesKept (focusInput w).
Proof.
  destruct (focusInput_same w) as (H1 & H2 & H3). apply sizesKept_same; assumption.
Qed.

(** An update of the panel that leaves its style and its gesture
    variables alone. *)
Lemma sizesKept_update (f : panelElem -> panelElem) (w : world) :
  (forall p, style (f p) = style p /\ drag (f p) = drag p /\ resize (f p) = resize p) ->
  sizesKept w -> sizesKept (update_panel f w).
Proof.
  intros Hf (p & Hp & Hsz & Hst & Hps & Hg).
  destruct (Hf p) as (H1 & H2 & H3).
  unfold update_panel. rewrite Hp.
  exists (f p). split; [reflexivity|].
  unfold gesture, displayed in *. rewrite H1, H2, H3.
  repeat split; assumption.
Qed.

Lemma sizesKept_openPanel (w w' : world) :
  sizesKept w -> openPanel w = Some w' -> sizesKept w'.
Proof.
  intros (p & Hp & Hsz & Hst & Hps & Hg) Ho.
  unfold openPanel, makePanel in Ho. rewrite Hp in Ho. rewrite Hp in Ho.
  injection Ho as <-.
  set (w2 := set_panel (Some (set_panelDisplay DisplayFlex p)) w).
  set (w3 := saveState (set_state (set_key "open" (VBool true) (state w2)) w2)).
  assert (H3 : sizesKept w3).
  { exists (set_panelDisplay DisplayFlex p). split; [reflexivity|].
    split; [exact Hsz|].
    assert (Hs3 : sizeOK (set_key "open" (VBool true) (state w)))
      by (apply sizeOK_set_key; [discriminate | discriminate | exact Hst]).
    split; [exact Hs3|]. split; [|reflexivity].
    apply persistedOK_saveState; [exact Hs3 | exact Hps]. }
  assert (H4 : sizesKept (match fab w3 with
                          | Some _ => set_fab (Some DisplayNone) w3
                          | None => w3
                          end))
    by (destruct (fab w3); exact H3).
  unfold requestScrollToBottom.
  match goal with
  | |- sizesKept (set_rafQueue _ (focusInput ?x)) =>
      apply (sizesKept_same (focusInput x)); try reflexivity;
      apply sizesKept_focusInput; exact H4
  end.
Qed.

Lemma sizesKept_closePanel (w : world) :
  sizesKept w ->
  match panel w with Some p => gesture p = false | None => True end ->
  sizesKept (closePanel w).
Proof.
  intros (p & Hp & Hsz & Hst & Hps & Hg) Hquiet. rewrite Hp in Hquiet.
  unfold closePanel. cbn [panel saveState set_state set_localStorage]. rewrite Hp.
  assert (Hs : sizeOK (set_key "open" (VBool false) (state w)))
    by (apply sizeOK_set_key; [discriminate | discriminate | exact Hst]).
  assert (H2 : sizesKept
                 (set_inputFocused false
                    (set_panel (Some (set_panelDisplay DisplayNone p))
                       (saveState (set_state (set_key "open" (VBool false) (state w)) w))))).
  { exists (set_panelDisplay DisplayNone p). split; [reflexivity|].
    split; [exact Hsz|]. split; [exact Hs|]. split.
    - apply (persistedOK_saveState (set_state _ w)); [exact Hs | exact Hps].
    - intros Hgest. change (gesture (set_panelDisplay DisplayNone p)) with (gesture p) in Hgest.
      congruence. }
  cbn [fab set_inputFocused set_panel saveState set_state set_localStorage].
  destruct (fab w); exact H2.
Qed.

Lemma sizesKept_setPosition (x y : Z) (w : world) :
  sizesKept w -> sizesKept (setPosition x y w).
Proof.
  intros (p & Hp & Hsz & Hst & Hps & Hg). unfold setPosition. rewrite Hp.
  assert (Hs : sizeOK (set_key "y" (VNum y) (set_key "x" (VNum x) (state w))))
    by (repeat apply sizeOK_set_key; try discriminate; exact Hst).
  eexists. split; [reflexivity|].
  split; [exact Hsz|]. split; [exact Hs|]. split; [|exact Hg].
  apply (persistedOK_saveState (set_state _ (set_panel _ w))); [exact Hs | exact Hps].
Qed.

Lemma sizesKept_clampIntoViewport (w : world) :
  sizesKept w ->
  match panel w with Some p => displayed p = true | None => True end ->
  sizesKept (clampIntoViewport w).
Proof.
  intros (p & Hp & (wd & ht & Hwd & Hht & H300 & H380) & Hst & Hps & Hg) Hd.
  rewrite Hp in Hd. unfold clampIntoViewport. rewrite Hp.
  assert (Hr : rect_width (getBoundingClientRect w p) = wd
               /\ rect_height (getBoundingClientRect w p) = ht).
  { unfold getBoundingClientRect. rewrite Hd, Hwd, Hht. split; reflexivity. }
  destruct Hr as (Hrw & Hrh). rewrite Hrw, Hrh.
  eexists. split; [reflexivity|].
  split; [exists wd, ht; repeat split; assumption|].
  assert (Hs : forall x y st, sizeOK (set_key "h" (VNum ht)
                 (set_key "w" (VNum wd) (set_key "y" (VNum y) (set_key "x" (VNum x) st)))))
    by (intros; apply sizeOK_clamped; assumption).
  split; [apply Hs|]. split; [|exact Hg].
  apply (persistedOK_saveState (set_state _ (set_panel _ w))); [apply Hs | exact Hps].
Qed.

Lemma sizesKept_gestureStart (e : pointerEvent) (w : world) :
  sizesKept w -> panelDisplayed w = true ->
  sizesKept (dragStart e w) /\ sizesKept (resizeStart e w).
Proof.
  intros (p & Hp & Hsz & Hst & Hps & Hg) Hd.
  unfold panelDisplayed in Hd. rewrite Hp in Hd.
  unfold dragStart, resizeStart. rewrite Hp.
  split; eexists; (split; [reflexivity|]); repeat split; try assumption;
    intros _; exact Hd.
Qed.

Lemma sizesKept_dragMove (e : pointerEvent) (w : world) :
  sizesKept w -> sizesKept (dragMove e w).
Proof.
  intros H. pose proof H as (p & Hp & Hsz & Hst & Hps & Hg).
  unfold dragMove. rewrite Hp. destruct (dragging (drag p)); [|exact H].
  eexists. split; [reflexivity|]. repeat split; assumption.
Qed.

Lemma sizesKept_resizeMove (e : pointerEvent) (w : world) :
  sizesKept w -> sizesKept (resizeMove e w).
Proof.
  intros H. pose proof H as (p & Hp & Hsz & Hst & Hps & Hg).
  unfold resizeMove. rewrite Hp. destruct (resizing (resize p)); [|exact H].
  set (wd := Z.max 300 _). set (ht := Z.max 380 _).
  assert (H1 : sizesKept (set_panel (Some (set_style (set_size wd ht (style p)) p)) w)).
  { eexists. split; [reflexivity|]. split.
    - exists wd, ht. cbn [style set_style set_size width height].
      assert (Hw0 : (0 <=? wd) = true) by (apply Z.leb_le; subst wd; lia).
      assert (Hh0 : (0 <=? ht) = true) by (apply Z.leb_le; subst ht; lia).
      rewrite Hw0, Hh0. repeat split; subst wd ht; lia.
    - repeat split; assumption. }
  destruct (stickBottom (chat p)); [|exact H1].
  apply (sizesKept_same _ _ eq_refl eq_refl eq_refl H1).
Qed.

Lemma sizesKept_dragEnd (w : world) : sizesKept w -> sizesKept (dragEnd w).
Proof.
  intros H. pose proof H as (p & Hp & Hsz & Hst & Hps & Hg).
  unfold dragEnd. rewrite Hp. destruct (dragging (drag p)) eqn:Hdrag; [|exact H].
  assert (Hd : displayed p = true) by (apply Hg; unfold gesture; rewrite Hdrag; reflexivity).
  set (w0 := set_panel _ w).
  assert (H0 : sizesKept w0).
  { eexists. split; [reflexivity|]. repeat split; try assumption. intros _. exact Hd. }
  assert (H1 : sizesKept (clampIntoViewport w0))
    by (apply sizesKept_clampIntoViewport; [exact H0 | exact Hd]).
  match goal with
  | |- sizesKept (set_userSelectNone _ ?x) =>
      apply (sizesKept_same x); try reflexivity
  end.
  destruct H1 as (p1 & Hp1 & Hsz1 & Hst1 & Hps1 & Hg1).
  unfold update_panel. rewrite Hp1.
  eexists. split; [reflexivity|]. repeat split; try assumption.
  intros Hgest. apply Hg1. unfold gesture in *. cbn [drag set_drag dragging resize] in Hgest.
  cbn [orb] in Hgest. rewrite Hgest. apply orb_true_r.
Qed.

Lemma sizesKept_resizeEnd (w : world) : sizesKept w -> sizesKept (resizeEnd w).
Proof.
  intros H. pose proof H as (p & Hp & Hsz & Hst & Hps & Hg).
  unfold resizeEnd. rewrite Hp. destruct (resizing (resize p)) eqn:Hres; [|exact H].
  assert (Hd : displayed p = true)
    by (apply Hg; unfold gesture; rewrite Hres; apply orb_true_r).
  set (w0 := set_panel _ w).
  assert (H0 : sizesKept w0).
  { eexists. split; [reflexivity|]. repeat split; try assumption. intros _. exact Hd. }
  assert (H1 : sizesKept (clampIntoViewport w0))
    by (apply sizesKept_clampIntoViewport; [exact H0 | exact Hd]).
  destruct H1 as (p1 & Hp1 & Hsz1 & Hst1 & Hps1 & Hg1).
  unfold update_panel. rewrite Hp1.
  eexists. split; [reflexivity|]. repeat split; try assumption.
  intros Hgest. apply Hg1. unfold gesture in *. cbn [drag set_resize resizing resize] in Hgest.
  rewrite orb_false_r in Hgest. rewrite Hgest. reflexivity.
Qed.

Lemma sizesKept_onSendStart (w : world) : sizesKept w -> sizesKept (fst (onSendStart w)).
Proof.
  intros H. pose proof H as (p & Hp & Hsz & Hst & Hps & Hg).
  unfold onSendStart. rewrite Hp.
  destruct (String.eqb _ _); [exact H|].
  destruct (showTyping _) as [ty t2]. cbn [fst].
  eexists. split; [reflexivity|]. repeat split; assumption.
Qed.

Lemma sizesKept_onSendSettle (typing : nat) (o : fetchOutcome) (w : world) :
  sizesKept w -> sizesKept (onSendSettle typing o w).
Proof.
  intros H. pose proof H as (p & Hp & Hsz & Hst & Hps & Hg).
  unfold onSendSettle. cbn [panel set_inflight]. rewrite Hp.
  apply sizesKept_focusInput.
  eexists. split; [reflexivity|]. repeat split; assumption.
Qed.

(** While no event hides the panel in the middle of a gesture, the
    floors hold of the panel, of the state and of what is stored. *)
Lemma sizesKept_step (w : world) (ev : event) :
  sizesKept w -> orderly w ev -> sizesKept (step w ev).
Proof.
  intros H Hord. unfold orderly in Hord.
  destruct ev; cbn [step closes] in *.
  - destruct (openPanel w) eqn:E; cbn [orSame]; [|exact H].
    apply (sizesKept_openPanel w); assumption.
  - apply sizesKept_closePanel; [exact H | apply Hord; reflexivity].
  - apply sizesKept_setPosition, H.
  - destruct (fab w) as [[| |]|]; try exact H;
      (destruct (openPanel w) eqn:E; cbn [orSame]; [|exact H];
       apply (sizesKept_openPanel w); assumption).
  - destruct (panelDisplayed w); [|exact H].
    apply sizesKept_closePanel; [exact H | apply Hord; reflexivity].
  - destruct (panelDisplayed w && inputFocused w); [|exact H].
    apply sizesKept_closePanel; [exact H | apply Hord; reflexivity].
  - destruct (panelDisplayed w && inputFocused w); [|exact H].
    apply sizesKept_onSendStart, H.
  - destruct (panel w) as [p|] eqn:Hp; [|exact H].
    destruct (displayed p); [|exact H].
    assert (H1 : sizesKept (set_inputFocused false w))
      by (apply (sizesKept_same w); try reflexivity; exact H).
    destruct (sendDisabled p); [exact H1|].
    apply sizesKept_onSendStart, H1.
  - destruct (panelDisplayed w && inputFocused w); [|exact H].
    apply sizesKept_update; [intros; repeat split | exact H].
  - destruct (panelDisplayed w) eqn:Hd; [|exact H].
    assert (H1 : sizesKept (dragStart e w))
      by (apply sizesKept_gestureStart; assumption).
    destruct (touches e); [|exact H1].
    apply (sizesKept_same (dragStart e w)); try reflexivity. exact H1.
  - destruct (panelDisplayed w) eqn:Hd; [|exact H].
    apply sizesKept_gestureStart; assumption.
  - set (w1 := match panel w with
               | Some p => if drag_listening (drag p) then dragMove e w else w
               | None => w
               end).
    assert (H1 : sizesKept w1).
    { subst w1. destruct (panel w) as [p|]; [|exact H].
      destruct (drag_listening (drag p)); [apply sizesKept_dragMove, H | exact H]. }
    destruct (panel w1) as [p1|]; [|exact H1].
    destruct (resize_listening (resize p1)); [apply sizesKept_resizeMove, H1 | exact H1].
  - set (w1 := match panel w with
               | Some p => if drag_listening (drag p) then dragEnd w else w
               | None => w
               end).
    assert (H1 : sizesKept w1).
    { subst w1. destruct (panel w) as [p|]; [|exact H].
      destruct (drag_listening (drag p)); [apply sizesKept_dragEnd, H | exact H]. }
    destruct (panel w1) as [p1|]; [|exact H1].
    destruct (resize_listening (resize p1)); [apply sizesKept_resizeEnd, H1 | exact H1].
  - destruct (panelDisplayed w); [|exact H].
    apply sizesKept_update; [intros; repeat split | exact H].
  - apply (sizesKept_same
             (if (0 <? rafQueue w)%nat
              then update_panel (fun p => set_chat (scrollToBottom (chat p)) p) w
              else w)); try reflexivity.
    destruct (0 <? rafQueue w)%nat; [|exact H].
    apply sizesKept_update; [intros; repeat split | exact H].
  - destruct (existsb _ _); [|exact H]. apply sizesKept_onSendSettle, H.
  - apply (sizesKept_same w); try reflexivity. exact H.
  - apply sizesKept_update; [intros; repeat split | exact H].
  - apply sizesKept_focusInput, H.
Qed.

Lemma sizesKept_run (evs : list event) (w : world) :
  sizesKept w -> orderlyRun w evs -> sizesKept (run w evs).
Proof.
  revert w. induction evs as [|ev evs IH]; intros w H Hord; [exact H|].
  cbn [run fold_left orderlyRun] in *. destruct Hord as (Ho & Hrest).
  apply IH; [apply sizesKept_step; assumption | exact Hrest].
Qed.

(** On a fresh page the floors hold once [init()] has run. *)
Lemma sizesKept_started : sizesKept startedWorld.
Proof.
  destruct (panel startedWorld) as [p|] eqn:Hp; [|discriminate Hp].
  exists p. split; [exact Hp|].
  vm_compute in Hp. injection Hp as <-.
  split; [exists 360, 520; repeat split; [lia | lia]|].
  split; [exists 360, 520; repeat split; [lia | lia]|].
  split; [|intros Hg; discriminate Hg].
  right. exists (panelState false None None 360 520).
  split; [vm_compute; reflexivity | exists 360, 520; repeat split; lia].
Qed.

(** So, from a fresh page, whatever is stored after an orderly run
    records sizes at or above the floors. *)
Lemma persisted_sizes_orderly (evs : list event) :
  orderlyRun startedWorld evs -> persistedOK (run startedWorld evs).
Proof.
  intros Hord.
  destruct (sizesKept_run evs startedWorld sizesKept_started Hord)
    as (p & _ & _ & _ & Hps & _).
  exact Hps.
Qed.

(* ------------------------------------------------------------------ *)
(** * The codec on the persisted record *)

Section Codec.

Import JSON.

Lemma string_app_assoc (a b c : string) : (a ++ b) ++ c = a ++ (b ++ c).
Proof. induction a as [|x a IH]; [reflexivity|]. simpl. rewrite IH. reflexivity. Qed.

Lemma string_length_app (a b : string) :
  String.length (a ++ b) = (String.length a + String.length b)%nat.
Proof. induction a as [|x a IH]; [reflexivity|]. simpl. rewrite IH. reflexivity. Qed.

Lemma substring_all (s : string) : String.substring 0 (String.length s) s = s.
Proof. induction s as [|c s IH]; [reflexivity|]. simpl. rewrite IH. reflexivity. Qed.

Lemma prefix_app (w rest : string) : String.prefix w (w ++ rest) = true.
Proof.
  induction w as [|c w IH]; [destruct rest; reflexivity|].
  simpl. destruct (ascii_dec c c); [exact IH | congruence].
Qed.

Lemma substring_app (w rest : string) :
  String.substring (String.length w)
                   (String.length (w ++ rest) - String.length w) (w ++ rest) = rest.
Proof.
  induction w as [|c w IH].
  - simpl. rewrite Nat.sub_0_r. apply substring_all.
  - simpl. exact IH.
Qed.

Lemma parseWord_app (word : string) (v : value) (rest : string) :
  parseWord word v (word ++ rest) = Parsed v rest.
Proof. unfold parseWord. rewrite prefix_app, substring_app. reflexivity. Qed.

(** ** Numbers *)

Lemma digits_string_of_uint (d : Decimal.uint) (acc : Z) (rest : string) :
  startsWithDigit rest = false ->
  digits acc (NilEmpty.string_of_uint d ++ rest) = (uintValue acc d, rest).
Proof.
  intros Hrest. revert acc.
  induction d; intros acc; cbn [NilEmpty.string_of_uint uintValue];
    try (simpl; rewrite IHd; reflexivity).
  simpl. destruct rest as [|c r]; [reflexivity|].
  cbn [digits]. cbn [startsWithDigit] in Hrest. rewrite Hrest. reflexivity.
Qed.

Lemma uintValue_acc (d : Decimal.uint) (acc : positive) :
  uintValue (Z.pos acc) d = Z.pos (Pos.of_uint_acc d acc).
Proof.
  revert acc. induction d; intros acc; cbn [uintValue Pos.of_uint_acc];
    try reflexivity;
    match goal with
    | |- uintValue ?a _ = Z.pos (Pos.of_uint_acc _ ?b) =>
        replace a with (Z.pos b) by lia; apply IHd
    end.
Qed.

Lemma uintValue_of_uint (d : Decimal.uint) :
  uintValue 0 d = Z.of_N (Pos.of_uint d).
Proof.
  induction d; cbn [uintValue Pos.of_uint]; try reflexivity;
    try (change (10 * 0 + 0) with 0; exact IHd);
    match goal with
    | |- uintValue ?a _ = _ =>
        let p := eval vm_compute in a in
        change a with p; rewrite uintValue_acc; reflexivity
    end.
Qed.

Lemma uintValue_to_uint (p : positive) : uintValue 0 (Pos.to_uint p) = Z.pos p.
Proof. rewrite uintValue_of_uint, DecimalPos.Unsigned.of_to. reflexivity. Qed.


(** The decimal numeral of a positive number starts with a digit that
    is not zero. *)
Lemma to_uint_head (p : positive) :
  exists c s, NilEmpty.string_of_uint (Pos.to_uint p) = String c s
              /\ isDigit c = true /\ c <> "0"%char.
Proof.
  pose proof (DecimalPos.Unsigned.to_uint_nonzero p) as Hnz.
  pose proof (DecimalPos.Unsigned.to_of (Pos.to_uint p)) as Hnorm.
  rewrite DecimalPos.Unsigned.of_to in Hnorm. cbn [N.to_uint] in Hnorm.
  pose proof (DecimalPos.Unsigned.to_uint_nonnil p) as Hnil.
  destruct (Pos.to_uint p) as [|d|d|d|d|d|d|d|d|d|d] eqn:E;
    try congruence;
    try (eexists; eexists; split; [reflexivity|]; split; [reflexivity|discriminate]).
  exfalso.
  destruct (Decimal.uint_eq_dec d Decimal.Nil) as [->|Hd]; [apply Hnz; reflexivity|].
  pose proof (DecimalFacts.nb_digits_unorm d Hd) as Hlen.
  change (Decimal.unorm (Decimal.D0 d)) with (Decimal.unorm d) in Hnorm.
  rewrite <- Hnorm in Hlen. cbn [Decimal.nb_digits] in Hlen. lia.
Qed.


Lemma isDigit_not_special (c : ascii) :
  isDigit c = true \/ c = "-"%char ->
  isSpace c = false
  /\ Ascii.eqb c "n" = false /\ Ascii.eqb c "t" = false /\ Ascii.eqb c "f" = false
  /\ Ascii.eqb c "034" = false /\ Ascii.eqb c "[" = false /\ Ascii.eqb c "{" = false.
Proof.
  intros [H| ->]; [|repeat split].
  destruct c as [[] [] [] [] [] [] [] []]; try discriminate H; repeat split.
Qed.

Lemma parseValue_number (fuel : nat) (c : ascii) (s : string) :
  isDigit c = true \/ c = "-"%char ->
  parseValue (S fuel) (String c s) = parseNumber (String c s).
Proof.
  intros H. destruct (isDigit_not_special c H) as (H0 & H1 & H2 & H3 & H4 & H5 & H6).
  cbn [parseValue skipSpace]. rewrite H0, H1, H2, H3, H4, H5, H6. reflexivity.
Qed.

Lemma numberTail_delimited (n : Z) (rest : string) :
  delimited rest -> numberTail n rest = Parsed n rest.
Proof.
  intros (c & r & -> & [-> | ->]); reflexivity.
Qed.

Lemma delimited_no_digit (rest : string) :
  delimited rest -> startsWithDigit rest = false.
Proof. intros (c & r & -> & [-> | ->]); reflexivity. Qed.

Lemma parseNumber_pos (p : positive) (rest : string) :
  delimited rest -> Z.pos p <= two53 ->
  parseNumber (NilEmpty.string_of_uint (Pos.to_uint p) ++ rest)
    = Parsed (VNum (Z.pos p)) rest
  /\ parseNumber (String "-" (NilEmpty.string_of_uint (Pos.to_uint p) ++ rest))
    = Parsed (VNum (Z.neg p)) rest.
Proof.
  intros Hrest Hsafe.
  pose proof (digits_string_of_uint (Pos.to_uint p) 0 rest
                (delimited_no_digit rest Hrest)) as Hdigits.
  rewrite uintValue_to_uint in Hdigits.
  destruct (to_uint_head p) as (c & s & Hs & Hd & Hz).
  rewrite Hs in *.
  change (String c s ++ rest) with (String c (s ++ rest)) in *.
  assert (Hminus : Ascii.eqb c "-" = false)
    by (destruct c as [[] [] [] [] [] [] [] []]; try discriminate Hd; reflexivity).
  assert (Hzero : Ascii.eqb c "0" = false) by (apply Ascii.eqb_neq; exact Hz).
  assert (Hle : (Z.pos p <=? two53) = true) by (apply Z.leb_le; exact Hsafe).
  split.
  - unfold parseNumber. cbv beta iota. rewrite Hminus. cbv beta iota.
    rewrite Hd, Hzero, Hdigits.
    rewrite numberTail_delimited by exact Hrest. rewrite Hle. reflexivity.
  - unfold parseNumber. cbv beta iota.
    change (Ascii.eqb "-" "-") with true. cbv beta iota.
    rewrite Hd, Hzero, Hdigits.
    rewrite numberTail_delimited by exact Hrest. rewrite Hle. reflexivity.
Qed.

Lemma string_of_to_uint (p : positive) :
  NilZero.string_of_uint (Pos.to_uint p) = NilEmpty.string_of_uint (Pos.to_uint p).
Proof.
  pose proof (DecimalPos.Unsigned.to_uint_nonnil p) as Hnil.
  unfold NilZero.string_of_uint. destruct (Pos.to_uint p); congruence.
Qed.

Lemma parseValue_simple (fuel0 : nat) (v : value) (rest : string) :
  simple v -> delimited rest -> (0 < fuel0)%nat ->
  parseValue fuel0 (serialize v ++ rest) = Parsed v rest.
Proof.
  intros Hv Hrest Hfuel. destruct fuel0 as [|fuel]; [lia|]. clear Hfuel.
  destruct v as [| |[|]|n| | |]; try contradiction.
  - change (serialize VNull) with "null".
    change (parseValue (S fuel) ("null" ++ rest))
      with (parseWord "null" VNull ("null" ++ rest)).
    apply parseWord_app.
  - change (parseValue (S fuel) (serialize (VBool true) ++ rest))
      with (parseWord "true" (VBool true) ("true" ++ rest)).
    apply parseWord_app.
  - change (parseValue (S fuel) (serialize (VBool false) ++ rest))
      with (parseWord "false" (VBool false) ("false" ++ rest)).
    apply parseWord_app.
  - cbn [simple] in Hv. unfold safeInteger in Hv.
    cbn [serialize]. unfold Z_to_string.
    destruct n as [|p|p]; cbn [Z.to_int NilZero.string_of_int].
    + destruct Hrest as (c & r & -> & Hc).
      destruct Hc as [-> | ->]; reflexivity.
    + rewrite string_of_to_uint.
      destruct (to_uint_head p) as (c & s & Hs & Hd & Hz).
      rewrite Hs. change (String c s ++ rest) with (String c (s ++ rest)).
      rewrite parseValue_number by (left; exact Hd).
      change (String c (s ++ rest)) with (String c s ++ rest).
      rewrite <- Hs. apply parseNumber_pos; [assumption | lia].
    + rewrite string_of_to_uint.
      change (String "-" (NilEmpty.string_of_uint (Pos.to_uint p)) ++ rest)
        with (String "-" (NilEmpty.string_of_uint (Pos.to_uint p) ++ rest)).
      rewrite parseValue_number by (right; reflexivity).
      apply parseNumber_pos; [assumption | lia].
Qed.


(** ** Keys *)

Lemma quoteChar_plain (c : ascii) :
  plainChar c = true -> quoteChar c = String c EmptyString.
Proof.
  unfold plainChar, quoteChar. intros H.
  apply andb_prop in H. destruct H as (H & H32).
  apply andb_prop in H. destruct H as (Hq & Hb).
  apply negb_true_iff in Hq, Hb. rewrite Hq, Hb.
  apply Nat.leb_le in H32.
  repeat match goal with
         | |- context [?a =? ?b] => destruct (Z.eqb_spec a b); [lia|]
         end.
  destruct (Z.ltb_spec (Z.of_nat (nat_of_ascii c)) 32); [lia | reflexivity].
Qed.

Lemma quoteChars_plain (s : string) : plain s = true -> quoteChars s = s.
Proof.
  induction s as [|c s IH]; [reflexivity|].
  cbn [plain quoteChars]. intros H. apply andb_prop in H. destruct H as (Hc & Hs).
  rewrite quoteChar_plain, IH by assumption. reflexivity.
Qed.

Lemma parseChars_plain (k : string) (fuel : nat) (rest : string) :
  plain k = true -> (String.length k < fuel)%nat ->
  parseChars fuel (k ++ String "034" rest) = Parsed k rest.
Proof.
  revert fuel. induction k as [|c k IH]; intros fuel Hk Hfuel.
  - destruct fuel; [cbn in Hfuel; lia|]. reflexivity.
  - destruct fuel; [cbn in Hfuel; lia|].
    cbn [plain] in Hk. apply andb_prop in Hk. destruct Hk as (Hc & Hk).
    unfold plainChar in Hc.
    apply andb_prop in Hc. destruct Hc as (Hc & H32).
    apply andb_prop in Hc. destruct Hc as (Hq & Hb).
    apply negb_true_iff in Hq, Hb.
    change (String c k ++ String "034" rest) with (String c (k ++ String "034" rest)).
    cbn [parseChars]. rewrite Hq, Hb.
    assert (Hlt : (nat_of_ascii c <? 32)%nat = false)
      by (apply Nat.ltb_ge, Nat.leb_le; exact H32).
    rewrite Hlt, IH; [reflexivity | exact Hk | cbn in Hfuel; lia].
Qed.

(** ** Objects of simple values under plain keys *)

Lemma simple_defined (v : value) : simple v -> is_undefined v = false.
Proof. destruct v; cbn; intros H; try reflexivity; contradiction. Qed.

Lemma serialize_storable (maxKey : nat) (fields : list (string * value)) :
  storable maxKey fields ->
  serialize (VObj fields) = "{" ++ join "," (map member fields) ++ "}".
Proof.
  intros H. cbn [serialize]. do 3 f_equal.
  induction H as [|[k v] l (_ & _ & Hv) _ IH]; [reflexivity|].
  cbn [map]. rewrite (simple_defined v Hv), IH. reflexivity.
Qed.

Lemma parseMembers_storable (maxKey : nat) (fields : list (string * value)) :
  storable maxKey fields -> fields <> [] ->
  forall (fuel : nat) (acc : list (string * value)) (rest : string),
    (List.length fields + maxKey + 2 <= fuel)%nat ->
    parseMembers fuel acc (join "," (map member fields) ++ String "}" rest)
    = Parsed (fold_left (fun a kv => set_key (fst kv) (snd kv) a) fields acc) rest.
Proof.
  induction 1 as [|[k v] l (Hk & Hlen & Hv) Hl IH]; [congruence|].
  intros _ fuel acc rest Hfuel. cbn [List.length] in Hfuel.
  destruct fuel as [|fuel']; [lia|].
  assert (Hkey : forall tail,
             parseChars fuel' (quoteChars k ++ String "034" tail) = Parsed k tail).
  { intros tail. rewrite quoteChars_plain by exact Hk.
    apply parseChars_plain; [exact Hk | cbn [fst] in Hlen; lia]. }
  destruct l as [|kv2 l'].
  - cbn [map join fold_left]. unfold member. cbn [fst snd]. unfold quote.
    rewrite !string_app_assoc.
    change (dq ++ quoteChars k ++ dq ++ ":" ++ serialize v ++ String "}" rest)
      with (String "034" (quoteChars k
              ++ String "034" (String ":" (serialize v ++ String "}" rest)))).
    cbn [parseMembers skipSpace].
    change (isSpace "034") with false. cbv beta iota.
    change (Ascii.eqb "034" "034") with true. cbv beta iota.
    rewrite Hkey.
    cbn [skipSpace]. change (isSpace ":") with false. cbv beta iota.
    change (Ascii.eqb ":" ":") with true. cbv beta iota.
    rewrite parseValue_simple;
      [|exact Hv|eexists; eexists; split; [reflexivity|right; reflexivity]|lia].
    cbn [skipSpace]. change (isSpace "}") with false. cbv beta iota.
    change (Ascii.eqb "}" "}") with true. reflexivity.
  - set (restFields := kv2 :: l') in *.
    change (join "," (map member ((k, v) :: restFields)))
      with (member (k, v) ++ "," ++ join "," (map member restFields)).
    unfold member at 1. cbn [fst snd fold_left]. unfold quote.
    rewrite !string_app_assoc.
    change (dq ++ quoteChars k ++ dq ++ ":" ++ serialize v ++ ","
               ++ join "," (map member restFields) ++ String "}" rest)
      with (String "034" (quoteChars k
              ++ String "034" (String ":" (serialize v
                   ++ String "," (join "," (map member restFields) ++ String "}" rest))))).
    cbn [parseMembers skipSpace].
    change (isSpace "034") with false. cbv beta iota.
    change (Ascii.eqb "034" "034") with true. cbv beta iota.
    rewrite Hkey.
    cbn [skipSpace]. change (isSpace ":") with false. cbv beta iota.
    change (Ascii.eqb ":" ":") with true. cbv beta iota.
    rewrite parseValue_simple;
      [|exact Hv|eexists; eexists; split; [reflexivity|left; reflexivity]|lia].
    cbn [skipSpace]. change (isSpace ",") with false. cbv beta iota.
    change (Ascii.eqb "," "}") with false. change (Ascii.eqb "," ",") with true.
    cbv beta iota.
    apply IH; [subst restFields; discriminate | subst restFields; cbn [List.length] in *; lia].
Qed.


(** Reading back what [serialize] wrote for such an object. *)
Lemma parse_serialize_storable (maxKey : nat) (fields : list (string * value)) :
  storable maxKey fields -> fields <> [] ->
  (List.length fields + maxKey + 1 <= 2 * String.length (serialize (VObj fields)))%nat ->
  parse (stringify (VObj fields))
  = Parsed (VObj (fold_left (fun a kv => set_key (fst kv) (snd kv) a) fields [])) "".
Proof.
  intros Hst Hne Hfuel.
  change (stringify (VObj fields)) with (serialize (VObj fields)).
  unfold parse.
  set (fuel := (2 * String.length (serialize (VObj fields)) + 2)%nat).
  assert (Hf : exists fuel', fuel = S fuel'
                             /\ (List.length fields + maxKey + 2 <= fuel')%nat).
  { exists (Nat.pred fuel). subst fuel. split; lia. }
  destruct Hf as (fuel' & -> & Hfuel').
  rewrite (serialize_storable maxKey fields Hst).
  destruct fields as [|[k v] l]; [congruence|].
  pose proof (parseMembers_storable maxKey ((k, v) :: l) Hst Hne fuel' [] ""
                Hfuel') as Hmembers.
  change ("{" ++ join "," (map member ((k, v) :: l)) ++ "}")
    with (String "{" (join "," (map member ((k, v) :: l)) ++ String "}" "")).
  assert (Hhead : exists tail,
             join "," (map member ((k, v) :: l)) ++ String "}" "" = String "034" tail).
  { destruct l; cbn [map join]; unfold member, quote; cbn [fst];
      rewrite !string_app_assoc; eexists; reflexivity. }
  destruct Hhead as (tail & Htail).
  rewrite Htail in *.
  cbn [parseValue skipSpace].
  change (isSpace "{") with false. cbv beta iota.
  change (Ascii.eqb "{" "n") with false. change (Ascii.eqb "{" "t") with false.
  change (Ascii.eqb "{" "f") with false. change (Ascii.eqb "{" "034") with false.
  change (Ascii.eqb "{" "[") with false. change (Ascii.eqb "{" "{") with true.
  cbv beta iota.
  change (isSpace "034") with false. cbv beta iota.
  change (Ascii.eqb "034" "}") with false. cbv beta iota.
  rewrite Hmembers. reflexivity.
Qed.

End Codec.

(* ------------------------------------------------------------------ *)
(** * Loading and saving the panel state *)

Lemma panelState_storable (open : bool) (x y : option Z) (w h : Z) :
  safeOpt x -> safeOpt y -> safeInteger w -> safeInteger h ->
  storable 4 (panelState open x y w h).
Proof.
  intros Hx Hy Hw Hh. unfold storable, panelState.
  repeat (apply Forall_cons; [cbn [fst snd]; split; [reflexivity|split; [cbn; lia|]]|]);
    try apply Forall_nil; cbn [simple]; try exact I; try assumption.
  - destruct x; [exact Hx | exact I].
  - destruct y; [exact Hy | exact I].
Qed.

Lemma parse_panelState (open : bool) (x y : option Z) (w h : Z) :
  safeOpt x -> safeOpt y -> safeInteger w -> safeInteger h ->
  JSON.parse (JSON.stringify (VObj (panelState open x y w h)))
  = JSON.Parsed (VObj (panelState open x y w h)) "".
Proof.
  intros Hx Hy Hw Hh.
  pose proof (panelState_storable open x y w h Hx Hy Hw Hh) as Hst.
  rewrite (parse_serialize_storable 4 _ Hst); [reflexivity | discriminate |].
  rewrite (serialize_storable 4 _ Hst).
  unfold panelState. cbn [map join member fst snd]. unfold JSON.quote.
  cbn [JSON.quoteChars JSON.quoteChar]. simpl String.length.
  cbn [Datatypes.length]. lia.
Qed.

Lemma stringify_object_nonempty (fields : list (string * value)) :
  String.eqb (JSON.stringify (VObj fields)) "" = false.
Proof. reflexivity. Qed.

(** C6.  A state with the five typed fields, sizes at or above the
    floors and numbers the codec holds exactly, comes back from [load]
    as it was given to [save], provided the storage takes the write and
    allows the read.  With nothing stored, with a stored text that does
    not parse, or with a storage that refuses the read, [load] gives the
    defaults; it has a result in each of these cases. *)
Theorem load_save_roundtrip :
  (forall (ls : storage) (open : bool) (x y : option Z) (w h : Z),
      writable ls = true -> readable ls = true ->
      300 <= w -> 380 <= h ->
      safeOpt x -> safeOpt y -> safeInteger w -> safeInteger h ->
      load (save (panelState open x y w h) ls) = Some (panelState open x y w h))
  /\ (forall ls : storage, slot ls = None -> load ls = Some defaults)
  /\ (forall (ls : storage) (text : string),
         slot ls = Some text -> JSON.parse text = JSON.SyntaxError ->
         load ls = Some defaults)
  /\ (forall ls : storage, readable ls = false -> load ls = Some defaults)
  /\ defaults = panelState false None None 360 520.
Proof.
  split; [|split; [|split; [|split]]].
  - intros ls open x y w h Hw Hr _ _ Hx Hy Hsw Hsh.
    unfold load, save, setItem, getItem. rewrite Hw. cbn [readable slot]. rewrite Hr.
    rewrite stringify_object_nonempty, parse_panelState by assumption.
    reflexivity.
  - intros ls Hs. unfold load, getItem. rewrite Hs.
    destruct (readable ls); reflexivity.
  - intros ls text Hs Hp. unfold load, getItem. rewrite Hs.
    destruct (readable ls); [|reflexivity].
    destruct (String.eqb text ""); [reflexivity|]. rewrite Hp. reflexivity.
  - intros ls Hr. unfold load, getItem. rewrite Hr. reflexivity.
  - reflexivity.
Qed.

Lemma load_save_roundtrip_witness :
  let ls := mkStorage None true true in
  load (save (panelState true (Some 912) (Some (-40)) 300 380) ls)
    = Some (panelState true (Some 912) (Some (-40)) 300 380)
  /\ load ls = Some defaults
  /\ load (mkStorage (Some "{oops") true true) = Some defaults
  /\ load (mkStorage (Some "{}") false true) = Some defaults.
Proof.
  intro ls.
  destruct load_save_roundtrip as (Hround & Habsent & Hcorrupt & Hdenied & _).
  split; [|split; [|split]].
  - apply Hround; try reflexivity; cbn; unfold safeInteger, JSON.two53; lia.
  - apply Habsent. reflexivity.
  - apply (Hcorrupt _ "{oops"); [reflexivity | vm_compute; reflexivity].
  - apply Hdenied. reflexivity.
Defined.

(* ------------------------------------------------------------------ *)
(** * Further facts about the transcript and the dispatcher *)

(** The scroll event that follows a programmatic scroll to the bottom
    confirms the flag. *)
Lemma onScroll_after_stick (t : transcript) :
  stickBottom t = true -> onScroll (stick t) = stick t.
Proof.
  intros E. pose proof (stick_true t E) as Hb.
  pose proof (stick_stickBottom t) as Hs. rewrite E in Hs.
  destruct (stick t) as [l s n]. cbn [log stickBottom] in *. subst s.
  unfold onScroll. cbn [log next_id]. f_equal.
  apply Z.geb_le. unfold scrollBottom in Hb. lia.
Qed.

Lemma filter_fresh (id : nat) (l : list row) :
  (forall r, In r l -> (row_id r < id)%nat) ->
  filter (fun r => negb (Nat.eqb (row_id r) id)) l = l.
Proof.
  induction l as [|r l IH]; intros H; [reflexivity|].
  cbn [filter].
  assert (Hr : Nat.eqb (row_id r) id = false).
  { apply Nat.eqb_neq. specialize (H r (or_introl eq_refl)). lia. }
  rewrite Hr. cbn [negb]. rewrite IH; [reflexivity|].
  intros r' Hin. apply H. right. exact Hin.
Qed.

(** A whole cycle adds two rows to the log: the visitor's text, escaped,
    and one bot row with the markup of the outcome.  Nothing else
    changes in the list of rows. *)
Lemma onSend_rows (w : world) (p : panelElem) (o : fetchOutcome) :
  panel w = Some p ->
  trim (inputValue p) <> "" ->
  freshIds (chat p) ->
  exists p',
    panel (onSend o w) = Some p'
    /\ rows (log (chat p')) =
         (rows (log (chat p))
          ++ [mkRow (next_id (chat p)) "bb-row you"
                    (rowMarkup "you"
                       (replaceNewlines (replaceMarkup (trim (inputValue p)))));
              mkRow (S (S (next_id (chat p)))) "bb-row bot"
                    (rowMarkup "bot" (outcomeMarkup o))])%list
    /\ inputValue p' = ""
    /\ sendDisabled p' = false.
Proof.
  intros Hp Htext Hfresh.
  apply String.eqb_neq in Htext.
  unfold onSend, onSendStart. rewrite Hp, Htext.
  set (t1 := appendYou (trim (inputValue p)) (chat p)).
  destruct (showTyping t1) as [ty t2] eqn:Hty.
  pose proof (showTyping_rows t1) as Hs. rewrite Hty in Hs. cbn [fst snd] in Hs.
  destruct Hs as (Hid & Hrows2 & Hnext2).
  pose proof (append_rows "you"
                (replaceNewlines (replaceMarkup (trim (inputValue p)))) (chat p))
    as (Hrows1 & Hnext1 & _).
  fold (appendYou (trim (inputValue p)) (chat p)) in Hrows1, Hnext1. fold t1 in Hrows1, Hnext1.
  unfold onSendSettle. cbn [panel set_inflight set_panel].
  unfold focusInput. cbn [panel set_panel].
  match goal with
  | |- exists p', panel (if ?b then _ else _) = _ /\ _ => destruct b
  end;
    (eexists; split; [reflexivity|];
     cbn [chat set_chat set_sendDisabled inputValue set_inputValue sendDisabled];
     split; [|split; reflexivity];
     rewrite remove_rows, handleOutcome_appends;
     unfold appendBot;
     rewrite (proj1 (append_rows _ _ _)), Hrows2, Hrows1, Hnext2, Hnext1, Hid, Hnext1;
     rewrite !filter_app; cbn [filter row_id];
     rewrite filter_fresh
       by (intros r Hin; specialize (Hfresh r Hin); lia);
     rewrite Nat.eqb_refl;
     replace (Nat.eqb (next_id (chat p)) (S (next_id (chat p)))) with false
       by (symmetry; apply Nat.eqb_neq; lia);
     replace (Nat.eqb (S (S (next_id (chat p)))) (S (next_id (chat p)))) with false
       by (symmetry; apply Nat.eqb_neq; lia);
     cbn [negb]; rewrite <- !app_assoc; reflexivity).
Qed.

(** The two end-to-end runs of the specification: a successful reply
    with one recommendation and a follow-up question, and a network
    failure. *)
Example onSend_recommendation_run :
  let reply := VObj [("recommendations",
                      VArr [VObj [("title", VStr "A"); ("author", VStr "X");
                                  ("reason", VStr "hay")]]);
                     ("follow_up", VStr "Bạn muốn thêm gì?")] in
  option_map (fun p => (map row_innerHTML (rows (log (chat p))), sendDisabled p))
             (panel (onSend (Responded true (Some reply)) typedWorld))
  = Some ([rowMarkup "bot" greeting;
           rowMarkup "you" "gợi ý sách trinh thám ngắn";
           rowMarkup "bot"
             ("<ul><li><b>A</b> — X<br><i>hay</i></li></ul><div style=" ++ dq
              ++ "margin-top:6px" ++ dq ++ "><b>Hỏi thêm:</b> Bạn muốn thêm gì?</div>")],
          false).
Proof. vm_compute. reflexivity. Qed.

Example onSend_network_failure_run :
  option_map (fun p => (map row_innerHTML (rows (log (chat p))), sendDisabled p))
             (panel (onSend Rejected typedWorld))
  = Some ([rowMarkup "bot" greeting;
           rowMarkup "you" "gợi ý sách trinh thám ngắn";
           rowMarkup "bot" networkErrorMessage],
          false).
Proof. vm_compute. reflexivity. Qed.

(** What the list item and the book line do with text fields: title,
    author and reason go through the escaping; the quantity does not. *)
Lemma recommendationItem_text (title author reason : string) :
  author <> "" -> reason <> "" ->
  recommendationItem
    (VObj [("title", VStr title); ("author", VStr author); ("reason", VStr reason)])
  = Normal ("<li><b>" ++ replaceMarkup title ++ "</b> — " ++ replaceMarkup author
            ++ "<br><i>" ++ replaceMarkup reason ++ "</i>" ++ "" ++ "</li>").
Proof.
  intros Ha Hr. apply String.eqb_neq in Ha, Hr.
  unfold recommendationItem. cbn [prop field lookup String.eqb Ascii.eqb Bool.eqb bind].
  unfold or_else. cbn [truthy]. rewrite Ha, Hr. reflexivity.
Qed.

Lemma bookLine_text (title author qty : string) :
  bookLine (VObj [("title", VStr title); ("author", VStr author); ("qty", VStr qty)])
  = Normal ("• <b>" ++ replaceMarkup title ++ "</b> — " ++ replaceMarkup author
            ++ " (còn " ++ qty ++ ")").
Proof. reflexivity. Qed.

(* ------------------------------------------------------------------ *)
(** * Escaping, further *)

Lemma count_app (c : ascii) (s1 s2 : string) :
  count c (s1 ++ s2) = (count c s1 + count c s2)%nat.
Proof.
  induction s1 as [|c' s1 IH]; [reflexivity|].
  simpl. rewrite IH. lia.
Qed.

Lemma escapeChar_head (c : ascii) :
  exists h t, escapeChar c = String h t
              /\ (markupChar c = false -> h = c /\ t = EmptyString)
              /\ (markupChar c = true -> h = "&"%char).
Proof.
  unfold escapeChar, markupChar.
  destruct (Ascii.eqb c "&"); [eexists; eexists; split; [reflexivity|split; [discriminate|reflexivity]]|].
  destruct (Ascii.eqb c "<"); [eexists; eexists; split; [reflexivity|split; [discriminate|reflexivity]]|].
  destruct (Ascii.eqb c ">"); [eexists; eexists; split; [reflexivity|split; [discriminate|reflexivity]]|].
  destruct (Ascii.eqb c "034"); [eexists; eexists; split; [reflexivity|split; [discriminate|reflexivity]]|].
  destruct (Ascii.eqb c "'"); [eexists; eexists; split; [reflexivity|split; [discriminate|reflexivity]]|].
  eexists; eexists; split; [reflexivity|split; [split; reflexivity|discriminate]].
Qed.

(** The five replacements, by cases. *)
Lemma escapeChar_cases (c : ascii) :
  (markupChar c = false /\ escapeChar c = String c EmptyString)
  \/ (c = "&"%char /\ escapeChar c = "&amp;")
  \/ (c = "<"%char /\ escapeChar c = "&lt;")
  \/ (c = ">"%char /\ escapeChar c = "&gt;")
  \/ (c = "034"%char /\ escapeChar c = "&quot;")
  \/ (c = "'"%char /\ escapeChar c = "&#39;").
Proof.
  unfold escapeChar, markupChar.
  destruct (Ascii.eqb_spec c "&"); [subst; auto|].
  destruct (Ascii.eqb_spec c "<"); [subst; auto|].
  destruct (Ascii.eqb_spec c ">"); [subst; auto 6|].
  destruct (Ascii.eqb_spec c "034"); [subst; auto 7|].
  destruct (Ascii.eqb_spec c "'"); [subst; auto 8|].
  left. split; reflexivity.
Qed.

Lemma replaceMarkup_injective (s1 s2 : string) :
  replaceMarkup s1 = replaceMarkup s2 -> s1 = s2.
Proof.
  revert s2. induction s1 as [|c1 s1 IH]; intros [|c2 s2] H.
  - reflexivity.
  - cbn [replaceMarkup] in H.
    destruct (escapeChar_head c2) as (h & t & E & _). rewrite E in H. discriminate.
  - cbn [replaceMarkup] in H.
    destruct (escapeChar_head c1) as (h & t & E & _). rewrite E in H. discriminate.
  - cbn [replaceMarkup] in H.
    destruct (escapeChar_cases c1) as [(M1 & E1)|[(-> & E1)|[(-> & E1)|[(-> & E1)|[(-> & E1)|(-> & E1)]]]]];
    destruct (escapeChar_cases c2) as [(M2 & E2)|[(-> & E2)|[(-> & E2)|[(-> & E2)|[(-> & E2)|(-> & E2)]]]]];
      rewrite ?E1, ?E2 in H; cbn in H;
      first [ discriminate H
            | injection H; intros; subst;
              first [ f_equal; apply IH; assumption
                    | vm_compute in M1; discriminate M1
                    | vm_compute in M2; discriminate M2 ] ].
Qed.

Lemma count_amp_escapeChar (c : ascii) :
  count "&" (escapeChar c) = if markupChar c then 1%nat else 0%nat.
Proof.
  destruct (escapeChar_cases c) as [(M & E)|[(-> & E)|[(-> & E)|[(-> & E)|[(-> & E)|(-> & E)]]]]];
    rewrite E; try reflexivity.
  rewrite M. cbn [count]. unfold markupChar in M.
  destruct (Ascii.eqb_spec "&" c) as [<-|]; [discriminate M | reflexivity].
Qed.

Lemma count_amp_replaceMarkup (s : string) :
  count "&" (replaceMarkup s) = countMarkup s.
Proof.
  induction s as [|c s IH]; [reflexivity|].
  cbn [replaceMarkup countMarkup]. rewrite count_app, count_amp_escapeChar, IH.
  reflexivity.
Qed.

(** X1.  Whatever value [escapeHtml] is given, the text it returns holds
    no [<], [>], double quote or single quote, and it holds exactly one
    ampersand for each significant character of the converted value: every
    ampersand of the result starts one of the five entities. *)
Theorem escapeHtml_result_clean (v : value) (str s : string) (x : ascii) :
  ToString v = Normal str ->
  escapeHtml v = Normal s ->
  (markupChar x = true -> x <> "&"%char -> occurs x s = false)
  /\ count "&" s = countMarkup str.
Proof.
  intros Hstr H. unfold escapeHtml in H. rewrite Hstr in H. cbn [bind] in H.
  injection H as <-. split.
  - intros Hx Hamp. apply replaceMarkup_clean; assumption.
  - apply count_amp_replaceMarkup.
Qed.

Lemma escapeHtml_result_clean_witness :
  occurs "<" "a&lt;b&gt; &amp; &quot;c&quot;" = false
  /\ count "&" "a&lt;b&gt; &amp; &quot;c&quot;" = 5%nat.
Proof.
  destruct (escapeHtml_result_clean
              (VStr ("a<b> & " ++ dq ++ "c" ++ dq))
              ("a<b> & " ++ dq ++ "c" ++ dq)
              "a&lt;b&gt; &amp; &quot;c&quot;" "<" eq_refl eq_refl) as (H1 & H2).
  split; [apply H1; [reflexivity | discriminate] | exact H2].
Defined.

(** X2.  Escaping loses nothing: two values whose escaped texts are equal
    convert to the same text. *)
Theorem escapeHtml_injective (v1 v2 : value) (s1 s2 e : string) :
  ToString v1 = Normal s1 -> ToString v2 = Normal s2 ->
  escapeHtml v1 = Normal e -> escapeHtml v2 = Normal e ->
  s1 = s2.
Proof.
  intros H1 H2 E1 E2. unfold escapeHtml in *. rewrite H1 in E1. rewrite H2 in E2.
  cbn [bind] in *. injection E1 as E1. injection E2 as E2.
  apply replaceMarkup_injective. congruence.
Qed.

Lemma escapeHtml_injective_witness : Z_to_string 5 = "5".
Proof.
  symmetry.
  apply (escapeHtml_injective (VStr "5") (VNum 5) "5" (Z_to_string 5) "5");
    reflexivity.
Defined.

Lemma occurs_count (c : ascii) (s : string) :
  occurs c s = false -> count c s = O.
Proof.
  induction s as [|c' s IH]; [reflexivity|].
  cbn [occurs count]. intros H. apply orb_false_elim in H. destruct H as (H1 & H2).
  rewrite H1, IH by exact H2. reflexivity.
Qed.

Lemma count_newline_replaceMarkup (s : string) :
  count "010" (replaceMarkup s) = count "010" s.
Proof.
  induction s as [|c s IH]; [reflexivity|].
  cbn [replaceMarkup count]. rewrite count_app, IH. f_equal.
  destruct (escapeChar_cases c) as [(M & E)|[(-> & E)|[(-> & E)|[(-> & E)|[(-> & E)|(-> & E)]]]]];
    rewrite E; try reflexivity.
  cbn [count]. lia.
Qed.

(** Each line feed becomes one [<br/>]; nothing else is touched. *)
Lemma count_replaceNewlines (x : ascii) (s : string) :
  x <> "010"%char ->
  count x (replaceNewlines s)
  = (count x s + count x "<br/>" * count "010" s)%nat.
Proof.
  intros Hx. remember (count x "<br/>") as k eqn:Hk.
  induction s as [|c s IH]; [cbn [replaceNewlines count]; lia|].
  cbn [replaceNewlines]. rewrite count_app, IH. cbn [count].
  destruct (Ascii.eqb_spec c "010") as [->|Hc].
  - destruct (Ascii.eqb_spec x "010"); [contradiction|].
    rewrite Ascii.eqb_refl, <- Hk. lia.
  - destruct (Ascii.eqb_spec "010" c); [congruence|].
    cbn [count]. lia.
Qed.

(** X3.  The bubble [appendYou] builds holds exactly one [<] and one [>]
    for each line feed of the visitor's text (those of the [<br/>] written
    in its place), no quote of either kind and no line feed: the text
    cannot open a tag or close an attribute of its own. *)
Theorem appendYou_bubble (text : string) (t : transcript) :
  exists bubble,
    rows (log (appendYou text t))
    = (rows (log t) ++ [mkRow (next_id t) "bb-row you" (rowMarkup "you" bubble)])%list
    /\ count "<" bubble = count "010" text
    /\ count ">" bubble = count "010" text
    /\ count "034" bubble = O
    /\ count "'" bubble = O
    /\ count "010" bubble = O.
Proof.
  exists (replaceNewlines (replaceMarkup text)).
  split; [apply appendYou_markup|].
  assert (Hclean : forall x, markupChar x = true -> x <> "&"%char ->
                             count x (replaceMarkup text) = O)
    by (intros x Hx Hamp; apply occurs_count, replaceMarkup_clean; assumption).
  repeat split.
  - rewrite count_replaceNewlines by discriminate.
    rewrite Hclean by (reflexivity || discriminate).
    rewrite count_newline_replaceMarkup. cbn. lia.
  - rewrite count_replaceNewlines by discriminate.
    rewrite Hclean by (reflexivity || discriminate).
    rewrite count_newline_replaceMarkup. cbn. lia.
  - rewrite count_replaceNewlines by discriminate.
    rewrite Hclean by (reflexivity || discriminate). cbn. lia.
  - rewrite count_replaceNewlines by discriminate.
    rewrite Hclean by (reflexivity || discriminate). cbn. lia.
  - apply occurs_count, replaceNewlines_clean.
Qed.

(* ------------------------------------------------------------------ *)
(** * Endpoint discovery *)

Lemma lastScript_app {A} (before : list A) (me : A) :
  lastScript (before ++ [me]) = Some me.
Proof.
  induction before as [|x before IH]; [reflexivity|].
  cbn [app lastScript]. destruct (before ++ [me])%list eqn:E.
  - destruct before; discriminate E.
  - exact IH.
Qed.

(** X4.  [getApiUrl] looks at the last script element of the document
    only, whatever stands before it; it returns that element's
    [data-api-url] when it has a non-empty one and the default path in
    every other case, so the endpoint is never the empty string. *)
Theorem getApiUrl_last_script (before : list (option string)) (me : option string) :
  getApiUrl (before ++ [me]) = getApiUrl [me]
  /\ (forall url, me = Some url -> url <> "" -> getApiUrl (before ++ [me]) = url)
  /\ (me = None \/ me = Some "" -> getApiUrl (before ++ [me]) = API_URL_DEFAULT)
  /\ getApiUrl [] = API_URL_DEFAULT
  /\ getApiUrl (before ++ [me]) <> "".
Proof.
  unfold getApiUrl. rewrite lastScript_app. cbn [lastScript].
  split; [reflexivity|]. split; [|split; [|split]].
  - intros url -> Hne. apply String.eqb_neq in Hne. rewrite Hne. reflexivity.
  - intros [-> | ->]; reflexivity.
  - reflexivity.
  - destruct me as [url|]; [|discriminate].
    destruct (String.eqb_spec url ""); [discriminate | assumption].
Qed.

Lemma getApiUrl_last_script_witness :
  getApiUrl [Some "/first"; None; Some "https://shop.example/api/bot"]
    = "https://shop.example/api/bot"
  /\ getApiUrl [Some "/widget-endpoint"; None] = API_URL_DEFAULT.
Proof.
  split.
  - apply (proj1 (proj2 (getApiUrl_last_script [Some "/first"; None]
                           (Some "https://shop.example/api/bot"))));
      [reflexivity | discriminate].
  - apply (proj1 (proj2 (proj2 (getApiUrl_last_script [Some "/widget-endpoint"] None)))).
    left. reflexivity.
Defined.

(* ------------------------------------------------------------------ *)
(** * What every reachable world satisfies *)

Lemma writable_save (st : list (string * value)) (ls : storage) :
  writable (save st ls) = writable ls.
Proof. unfold save, setItem. destruct (writable ls) eqn:E; [reflexivity | exact E]. Qed.

Lemma coherent_same (w w' : world) :
  panel w' = panel w -> fab w' = fab w -> state w' = state w ->
  localStorage w' = localStorage w -> userSelectNone w' = userSelectNone w ->
  coherent w -> coherent w'.
Proof.
  intros H1 H2 H3 H4 H5 (p & Hp & Hf & Ho & Hs & Hd & Hr & Hu).
  exists p. rewrite H1, H2, H3, H4, H5. repeat split; assumption.
Qed.

(** After [saveState] the storage is in step with the state. *)
Lemma saveState_in_step (w : world) :
  writable (localStorage (saveState w)) = true ->
  slot (localStorage (saveState w)) = Some (JSON.stringify (VObj (state w))).
Proof.
  unfold saveState. cbn [localStorage set_localStorage].
  rewrite writable_save, save_slot. intros ->. reflexivity.
Qed.

Lemma coherent_update (f : panelElem -> panelElem) (w : world) :
  (forall p, style (f p) = style p /\ drag (f p) = drag p /\ resize (f p) = resize p) ->
  coherent w -> coherent (update_panel f w).
Proof.
  intros Hf (p & Hp & Hfab & Ho & Hs & Hd & Hr & Hu).
  destruct (Hf p) as (H1 & H2 & H3).
  unfold update_panel. rewrite Hp.
  exists (f p). split; [reflexivity|].
  unfold displayed in *. rewrite H1, H2, H3.
  repeat split; assumption.
Qed.

Lemma coherent_focusInput (w : world) : coherent w -> coherent (focusInput w).
Proof.
  intros H. unfold focusInput. destruct (panel w) as [p|] eqn:Hp; [|exact H].
  destruct (displayed p); [|exact H].
  apply (coherent_same w); try reflexivity. exact H.
Qed.

Lemma coherent_openPanel (w w' : world) :
  coherent w -> openPanel w = Some w' -> coherent w'.
Proof.
  intros (p & Hp & Hfab & Ho & Hs & Hd & Hr & Hu) Hopen.
  unfold openPanel, makePanel in Hopen. rewrite Hp in Hopen. rewrite Hp in Hopen.
  injection Hopen as <-.
  cbv zeta.
  match goal with |- context [fab ?x] => change (fab x) with (fab w) end.
  rewrite Hfab.
  unfold requestScrollToBottom.
  match goal with
  | |- coherent (set_rafQueue _ (focusInput ?x)) =>
      apply (coherent_same (focusInput x)); try reflexivity;
      apply coherent_focusInput
  end.
  exists (set_panelDisplay DisplayFlex p). split; [reflexivity|].
  split; [reflexivity|]. split; [apply field_set_key_same|].
  split; [|repeat split; assumption].
  intros Hw. apply (saveState_in_step (set_state _ (set_panel _ w))). exact Hw.
Qed.

Lemma coherent_closePanel (w : world) : coherent w -> coherent (closePanel w).
Proof.
  intros (p & Hp & Hfab & Ho & Hs & Hd & Hr & Hu).
  unfold closePanel. cbv zeta.
  cbn [panel saveState set_state set_localStorage]. rewrite Hp.
  match goal with |- context [fab ?x] => change (fab x) with (fab w) end.
  rewrite Hfab.
  exists (set_panelDisplay DisplayNone p). split; [reflexivity|].
  split; [reflexivity|]. split; [apply field_set_key_same|].
  split; [|repeat split; assumption].
  intros Hw. apply (saveState_in_step (set_state _ w)). exact Hw.
Qed.

Lemma coherent_setPosition (x y : Z) (w : world) :
  coherent w -> coherent (setPosition x y w).
Proof.
  intros (p & Hp & Hfab & Ho & Hs & Hd & Hr & Hu).
  unfold setPosition. rewrite Hp.
  eexists. split; [reflexivity|].
  split; [exact Hfab|]. split.
  - cbn [state saveState set_state set_localStorage set_panel].
    rewrite !field_set_key_other by discriminate. exact Ho.
  - split; [|repeat split; assumption].
    intros Hw. apply (saveState_in_step (set_state _ (set_panel _ w))). exact Hw.
Qed.

Lemma clampIntoViewport_frame (w : world) (p : panelElem) :
  panel w = Some p ->
  exists p', panel (clampIntoViewport w) = Some p'
             /\ displayed p' = displayed p
             /\ drag p' = drag p /\ resize p' = resize p
             /\ chat p' = chat p
             /\ fab (clampIntoViewport w) = fab w
             /\ userSelectNone (clampIntoViewport w) = userSelectNone w
             /\ field "open" (state (clampIntoViewport w)) = field "open" (state w)
             /\ (writable (localStorage (clampIntoViewport w)) = true ->
                 slot (localStorage (clampIntoViewport w))
                 = Some (JSON.stringify (VObj (state (clampIntoViewport w))))).
Proof.
  intros Hp. unfold clampIntoViewport. rewrite Hp. cbv zeta.
  eexists. split; [reflexivity|].
  split; [reflexivity|]. split; [reflexivity|]. split; [reflexivity|].
  split; [reflexivity|]. split; [reflexivity|]. split; [reflexivity|].
  split.
  - cbn [state saveState set_state set_localStorage set_panel].
    rewrite !field_set_key_other by discriminate. reflexivity.
  - intros Hw. apply (saveState_in_step (set_state _ (set_panel _ w))). exact Hw.
Qed.

Lemma coherent_clampIntoViewport (w : world) :
  coherent w -> coherent (clampIntoViewport w).
Proof.
  intros (p & Hp & Hfab & Ho & Hs & Hd & Hr & Hu).
  destruct (clampIntoViewport_frame w p Hp)
    as (p' & Hp' & E1 & E2 & E3 & _ & E4 & E5 & E6 & E7).
  exists p'. rewrite E1, E2, E3, E4, E5, E6.
  repeat split; assumption.
Qed.

Lemma coherent_gestures (e : pointerEvent) (w : world) :
  coherent w ->
  coherent (dragStart e w) /\ coherent (dragMove e w) /\ coherent (dragEnd w)
  /\ coherent (resizeStart e w) /\ coherent (resizeMove e w) /\ coherent (resizeEnd w).
Proof.
  intros H. pose proof H as (p & Hp & Hfab & Ho & Hs & Hd & Hr & Hu).
  unfold dragStart, dragMove, dragEnd, resizeStart, resizeMove, resizeEnd. rewrite Hp.
  split; [|split; [|split; [|split; [|split]]]].
  - eexists. split; [reflexivity|]. repeat split; assumption.
  - destruct (dragging (drag p)) eqn:Hdrag; [|exact H].
    eexists. split; [reflexivity|]. cbn [drag resize set_style].
    rewrite Hdrag. repeat split; assumption.
  - destruct (dragging (drag p)) eqn:Hdrag; [|exact H]. cbv zeta.
    match goal with
    | |- context [clampIntoViewport (set_panel (Some ?q) w)] =>
        destruct (clampIntoViewport_frame (set_panel (Some q) w) q eq_refl)
          as (p' & Hp' & E1 & E2 & E3 & _ & E4 & E5 & E6 & E7)
    end.
    unfold update_panel. rewrite Hp'.
    eexists. split; [reflexivity|].
    cbn [fab state localStorage set_userSelectNone set_panel userSelectNone].
    unfold displayed in *.
    cbn [style drag resize set_drag dragging drag_listening] in *.
    rewrite E4, E6, E1, E3.
    split; [exact Hfab|]. split; [exact Ho|]. split; [exact E7|].
    split; [reflexivity|]. split; [exact Hr|reflexivity].
  - eexists. split; [reflexivity|]. repeat split; assumption.
  - destruct (resizing (resize p)) eqn:Hres; [|exact H].
    set (w1 := set_panel _ w).
    assert (H1 : coherent w1)
      by (eexists; split; [reflexivity|]; cbn [drag resize set_style];
          rewrite ?Hres; repeat split; assumption).
    destruct (stickBottom (chat p)); [|exact H1].
    apply (coherent_same w1); try reflexivity. exact H1.
  - destruct (resizing (resize p)) eqn:Hres; [|exact H]. cbv zeta.
    match goal with
    | |- context [clampIntoViewport (set_panel (Some ?q) w)] =>
        destruct (clampIntoViewport_frame (set_panel (Some q) w) q eq_refl)
          as (p' & Hp' & E1 & E2 & E3 & _ & E4 & E5 & E6 & E7)
    end.
    unfold update_panel. rewrite Hp'.
    eexists. split; [reflexivity|].
    cbn [fab state localStorage set_panel userSelectNone].
    unfold displayed in *.
    cbn [style drag resize set_resize resizing resize_listening] in *.
    rewrite E4, E5, E6, E1, E2.
    split; [exact Hfab|]. split; [exact Ho|]. split; [exact E7|].
    split; [exact Hd|]. split; [reflexivity|]. exact Hu.
Qed.

Lemma coherent_onSendStart (w : world) : coherent w -> coherent (fst (onSendStart w)).
Proof.
  intros H. pose proof H as (p & Hp & Hrest).
  unfold onSendStart. rewrite Hp.
  destruct (String.eqb _ _); [exact H|].
  destruct (showTyping _) as [ty t2]. cbn [fst].
  eexists. split; [reflexivity|]. exact Hrest.
Qed.

Lemma coherent_onSendSettle (typing : nat) (o : fetchOutcome) (w : world) :
  coherent w -> coherent (onSendSettle typing o w).
Proof.
  intros H. pose proof H as (p & Hp & Hrest).
  unfold onSendSettle. cbn [panel set_inflight]. rewrite Hp.
  apply coherent_focusInput.
  eexists. split; [reflexivity|]. exact Hrest.
Qed.

Lemma coherent_step (w : world) (ev : event) : coherent w -> coherent (step w ev).
Proof.
  intros H. pose proof H as (p0 & Hp0 & Hfab0 & _).
  destruct ev; cbn [step].
  - destruct (openPanel w) eqn:E; cbn [orSame]; [|exact H].
    apply (coherent_openPanel w); assumption.
  - apply coherent_closePanel, H.
  - apply coherent_setPosition, H.
  - rewrite Hfab0. destruct (displayed p0); [exact H|].
    destruct (openPanel w) eqn:E; cbn [orSame]; [|exact H].
    apply (coherent_openPanel w); assumption.
  - destruct (panelDisplayed w); [apply coherent_closePanel|]; exact H.
  - destruct (panelDisplayed w && inputFocused w); [apply coherent_closePanel|]; exact H.
  - destruct (panelDisplayed w && inputFocused w); [apply coherent_onSendStart|]; exact H.
  - rewrite Hp0. destruct (displayed p0); [|exact H].
    assert (H1 : coherent (set_inputFocused false w))
      by (apply (coherent_same w); try reflexivity; exact H).
    destruct (sendDisabled p0); [|apply coherent_onSendStart]; exact H1.
  - destruct (panelDisplayed w && inputFocused w); [|exact H].
    apply coherent_update; [intros; repeat split | exact H].
  - destruct (panelDisplayed w); [|exact H].
    assert (H1 : coherent (dragStart e w)) by (apply coherent_gestures, H).
    destruct (touches e); [|exact H1].
    apply (coherent_same (dragStart e w)); try reflexivity. exact H1.
  - destruct (panelDisplayed w); [|exact H]. apply coherent_gestures, H.
  - set (w1 := match panel w with
               | Some p => if drag_listening (drag p) then dragMove e w else w
               | None => w
               end).
    assert (H1 : coherent w1).
    { subst w1. rewrite Hp0. destruct (drag_listening (drag p0));
        [apply coherent_gestures|]; exact H. }
    destruct (panel w1) as [p1|]; [|exact H1].
    destruct (resize_listening (resize p1)); [apply coherent_gestures|]; exact H1.
  - set (w1 := match panel w with
               | Some p => if drag_listening (drag p) then dragEnd w else w
               | None => w
               end).
    assert (H1 : coherent w1).
    { subst w1. rewrite Hp0. destruct (drag_listening (drag p0));
        [apply (coherent_gestures (mkPointerEvent [] (mkPoint 0 0)))|]; exact H. }
    destruct (panel w1) as [p1|]; [|exact H1].
    destruct (resize_listening (resize p1));
      [apply (coherent_gestures (mkPointerEvent [] (mkPoint 0 0)))|]; exact H1.
  - destruct (panelDisplayed w); [|exact H].
    apply coherent_update; [intros; repeat split | exact H].
  - apply (coherent_same
             (if (0 <? rafQueue w)%nat
              then update_panel (fun p => set_chat (scrollToBottom (chat p)) p) w
              else w)); try reflexivity.
    destruct (0 <? rafQueue w)%nat; [|exact H].
    apply coherent_update; [intros; repeat split | exact H].
  - destruct (existsb _ _); [apply coherent_onSendSettle|]; exact H.
  - apply (coherent_same w); try reflexivity. exact H.
  - apply coherent_update; [intros; repeat split | exact H].
  - apply coherent_focusInput, H.
Qed.

(** [makePanel], when it has to construct, makes a displayed panel with
    no gesture in progress and leaves the rest of the world alone. *)
Lemma makePanel_fresh (w w1 : world) :
  panel w = None -> makePanel w = Some w1 ->
  exists p, panel w1 = Some p
            /\ displayed p = true
            /\ drag p = mkDrag false 0 0 0 0 false
            /\ resize p = mkResize false 0 0 0 0 false
            /\ rows (log (chat p))
               = [mkRow O "bb-row bot" (rowMarkup "bot" greeting)]
            /\ next_id (chat p) = 1%nat
            /\ inputValue p = "" /\ sendDisabled p = false
            /\ fab w1 = fab w /\ state w1 = state w
            /\ localStorage w1 = localStorage w
            /\ userSelectNone w1 = userSelectNone w
            /\ inflight w1 = inflight w.
Proof.
  intros Hp H. unfold makePanel in H. rewrite Hp in H.
  destruct (px _) as [wd|]; [|discriminate].
  destruct (px _) as [ht|]; [|discriminate].
  match type of H with
  | match ?pos with _ => _ end = _ => destruct pos as [s|] eqn:Hpos; [|discriminate]
  end.
  injection H as <-.
  eexists. split; [reflexivity|].
  assert (Hdisp : display s = DisplayDefault).
  { destruct (notNullish _ && notNullish _) in Hpos.
    - destruct (px _); [|discriminate]. destruct (px _); [|discriminate].
      injection Hpos as <-. reflexivity.
    - injection Hpos as <-. reflexivity. }
  split; [unfold displayed; cbn [style]; rewrite Hdisp; reflexivity|].
  split; [reflexivity|]. split; [reflexivity|].
  split; [reflexivity|]. repeat split.
Qed.

Lemma coherent_boot (vw vh : Z) (ls : storage) (clientH : Z)
      (measure : list row -> Z) (w : world) :
  boot vw vh ls clientH measure = Some w -> coherent w.
Proof.
  unfold boot. destruct (load ls) as [st|]; [|discriminate].
  unfold init. intros H.
  set (w0 := mkWorld vw vh ls st None None false O false clientH measure []) in *.
  destruct (makePanel (makeFab w0)) as [w1|] eqn:Hm; [|discriminate].
  destruct (makePanel_fresh (makeFab w0) w1 eq_refl Hm)
    as (p & Hp & Hd & Hdrag & Hres & _ & _ & _ & _ & Hfab & Hst & Hls & Hus & _).
  assert (Hmk : makePanel w1 = Some w1) by (unfold makePanel; rewrite Hp; reflexivity).
  destruct (truthy _).
  - unfold openPanel in H. rewrite Hmk, Hp in H. injection H as <-.
    unfold requestScrollToBottom.
    match goal with
    | |- coherent (set_rafQueue _ (focusInput ?x)) =>
        apply (coherent_same (focusInput x)); try reflexivity;
        apply coherent_focusInput
    end.
    cbv zeta.
    match goal with |- context [fab ?x] => change (fab x) with (fab w1) end.
    rewrite Hfab. cbn [makeFab fab w0 set_fab].
    exists (set_panelDisplay DisplayFlex p). split; [reflexivity|].
    split; [reflexivity|]. split; [apply field_set_key_same|].
    split; [intros Hw; apply (saveState_in_step (set_state _ (set_panel _ w1))); exact Hw|].
    cbn [drag resize set_panelDisplay userSelectNone set_fab saveState set_state
         set_localStorage set_panel].
    rewrite Hdrag, Hres, Hus. repeat split.
  - injection H as <-.
    unfold closePanel. cbv zeta.
    cbn [panel saveState set_state set_localStorage]. rewrite Hp.
    match goal with |- context [fab ?x] => change (fab x) with (fab w1) end.
    rewrite Hfab. cbn [makeFab fab w0 set_fab].
    exists (set_panelDisplay DisplayNone p). split; [reflexivity|].
    split; [reflexivity|]. split; [apply field_set_key_same|].
    split; [intros Hw; apply (saveState_in_step (set_state _ w1)); exact Hw|].
    cbn [drag resize set_panelDisplay userSelectNone set_fab saveState set_state
         set_localStorage set_panel set_inputFocused].
    rewrite Hdrag, Hres, Hus. repeat split.
Qed.

Lemma reachable_coherent (w : world) : reachable w -> coherent w.
Proof.
  induction 1 as [vw vh ls ch m w Hb | w ev _ IH].
  - apply (coherent_boot vw vh ls ch m), Hb.
  - apply coherent_step, IH.
Qed.

Lemma reachable_run (evs : list event) (w : world) :
  reachable w -> reachable (run w evs).
Proof.
  revert w. induction evs as [|ev evs IH]; intros w H; [exact H|].
  apply IH, reach_step, H.
Qed.

Lemma reachable_startedWorld : reachable startedWorld.
Proof.
  apply (reach_boot 1280 800 (mkStorage None true true) 400
                    (fun l => 60 * Z.of_nat (List.length l))).
  vm_compute. reflexivity.
Qed.

Lemma reachable_typedWorld : reachable typedWorld.
Proof. apply reachable_run, reachable_startedWorld. Qed.

(** X5.  On every world the page can reach, the panel exists and exactly
    one of the trigger button and the panel is on screen; [state.open]
    tells which of the two it is. *)
Theorem reachable_trigger_or_panel (w : world) :
  reachable w ->
  exists p, panel w = Some p
            /\ fab w = Some (if displayed p then DisplayNone else DisplayFlex)
            /\ field "open" (state w) = VBool (displayed p).
Proof.
  intros H. destruct (reachable_coherent w H) as (p & Hp & Hfab & Ho & _).
  exists p. repeat split; assumption.
Qed.

Lemma reachable_trigger_or_panel_witness :
  fab typedWorld = Some DisplayNone /\ field "open" (state typedWorld) = VBool true.
Proof.
  destruct (reachable_trigger_or_panel typedWorld reachable_typedWorld)
    as (p & Hp & Hfab & Ho).
  assert (Hd : displayed p = true).
  { assert (E : panelDisplayed typedWorld = true) by (vm_compute; reflexivity).
    unfold panelDisplayed in E. rewrite Hp in E. exact E. }
  rewrite Hd in Hfab, Ho. split; assumption.
Defined.

(** X6.  On every reachable world whose storage takes writes, the slot
    holds the serialisation of the current state: no change of [state] is
    left unsaved, whatever was stored before the page was loaded. *)
Theorem reachable_storage_in_step (w : world) :
  reachable w ->
  writable (localStorage w) = true ->
  slot (localStorage w) = Some (JSON.stringify (VObj (state w))).
Proof.
  intros H. destruct (reachable_coherent w H) as (p & _ & _ & _ & Hs & _).
  exact Hs.
Qed.

Lemma reachable_storage_in_step_witness :
  slot (localStorage typedWorld) = Some (JSON.stringify (VObj (state typedWorld))).
Proof.
  apply (reachable_storage_in_step typedWorld reachable_typedWorld).
  vm_compute. reflexivity.
Defined.

(** X7.  On every reachable world the document-level move and end
    listeners of a gesture are attached exactly while that gesture is in
    progress, and text selection is suppressed exactly during a drag. *)
Theorem reachable_gesture_listeners (w : world) :
  reachable w ->
  exists p, panel w = Some p
            /\ drag_listening (drag p) = dragging (drag p)
            /\ resize_listening (resize p) = resizing (resize p)
            /\ userSelectNone w = dragging (drag p).
Proof.
  intros H. destruct (reachable_coherent w H) as (p & Hp & _ & _ & _ & Hd & Hr & Hu).
  exists p. repeat split; assumption.
Qed.

Lemma reachable_gesture_listeners_witness :
  userSelectNone
    (run typedWorld [HeaderDown (mkPointerEvent [] (mkPoint 700 300))]) = true.
Proof.
  destruct (reachable_gesture_listeners
              (run typedWorld [HeaderDown (mkPointerEvent [] (mkPoint 700 300))])
              (reachable_run _ _ reachable_typedWorld))
    as (p & Hp & _ & _ & Hu).
  rewrite Hu.
  assert (E : match panel (run typedWorld
                             [HeaderDown (mkPointerEvent [] (mkPoint 700 300))]) with
              | Some q => dragging (drag q)
              | None => false
              end = true) by (vm_compute; reflexivity).
  rewrite Hp in E. exact E.
Defined.

(** X8.  Releasing the pointer ends whatever gesture is in progress: after
    a [mouseup] or [touchend] on a reachable world no drag and no resize
    remains, no gesture listener is left on the document and text
    selection works again. *)
Theorem documentUp_ends_gestures (w : world) :
  reachable w ->
  exists p, panel (step w DocumentUp) = Some p
            /\ gesture p = false
            /\ drag_listening (drag p) = false
            /\ resize_listening (resize p) = false
            /\ userSelectNone (step w DocumentUp) = false.
Proof.
  intros H.
  destruct (reachable_coherent _ (reach_step w DocumentUp H))
    as (q & Hq & _ & _ & _ & Hdq & Hrq & Huq).
  exists q. split; [exact Hq|].
  destruct (reachable_coherent w H) as (p & Hp & _ & _ & _ & Hd & Hr & Hu).
  assert (Hgoal : dragging (drag q) = false /\ resizing (resize q) = false).
  { revert Hq. cbn [step]. rewrite Hp.
    set (w1 := if drag_listening (drag p) then dragEnd w else w).
    assert (H1 : exists p1, panel w1 = Some p1 /\ dragging (drag p1) = false
                            /\ resize p1 = resize p).
    { subst w1. destruct (drag_listening (drag p)) eqn:Hl.
      - unfold dragEnd. rewrite Hp. rewrite <- Hd. cbv zeta.
        match goal with
        | |- context [clampIntoViewport (set_panel (Some ?x) w)] =>
            destruct (clampIntoViewport_frame (set_panel (Some x) w) x eq_refl)
              as (p' & Hp' & _ & _ & E3 & _)
        end.
        unfold update_panel. rewrite Hp'.
        eexists. split; [reflexivity|]. split; [reflexivity|]. exact E3.
      - exists p. split; [exact Hp|]. split; [|reflexivity].
        rewrite <- Hd. reflexivity. }
    destruct H1 as (p1 & Hp1 & Hd1 & Hr1). rewrite Hp1.
    destruct (resize_listening (resize p1)) eqn:Hl.
    - unfold resizeEnd. rewrite Hp1.
      assert (Hres : resizing (resize p1) = true) by (rewrite Hr1, <- Hr, <- Hr1; exact Hl).
      rewrite Hres. cbv zeta.
      match goal with
      | |- context [clampIntoViewport (set_panel (Some ?x) w1)] =>
          destruct (clampIntoViewport_frame (set_panel (Some x) w1) x eq_refl)
            as (p' & Hp' & _ & E2 & _)
      end.
      unfold update_panel. rewrite Hp'. intros Hq. injection Hq as <-.
      split; [|reflexivity]. cbn [drag set_resize]. rewrite E2. exact Hd1.
    - rewrite Hp1. intros Hq. injection Hq as <-.
      split; [exact Hd1|]. rewrite Hr1, <- Hr, <- Hr1. exact Hl. }
  destruct Hgoal as (G1 & G2).
  unfold gesture. rewrite Hdq, Hrq, Huq, G1, G2. repeat split.
Qed.

Lemma documentUp_ends_gestures_witness :
  userSelectNone
    (step (run typedWorld [HeaderDown (mkPointerEvent [] (mkPoint 700 300))])
          DocumentUp) = false.
Proof.
  destruct (documentUp_ends_gestures
              (run typedWorld [HeaderDown (mkPointerEvent [] (mkPoint 700 300))])
              (reachable_run _ _ reachable_typedWorld))
    as (p & _ & _ & _ & _ & Hu).
  exact Hu.
Defined.

(* ------------------------------------------------------------------ *)
(** * The rows of the log *)

Lemma logRows_update (f : panelElem -> panelElem) (w : world) :
  (forall p, rows (log (chat (f p))) = rows (log (chat p))
             /\ next_id (chat (f p)) = next_id (chat p)) ->
  logRows (update_panel f w) = logRows w /\ nextId (update_panel f w) = nextId w
  /\ inflight (update_panel f w) = inflight w.
Proof.
  intros Hf. unfold update_panel, logRows, nextId.
  destruct (panel w) as [p|] eqn:Hp; [|rewrite Hp; repeat split].
  cbn [panel set_panel inflight]. destruct (Hf p) as (-> & ->). repeat split.
Qed.

Lemma logRows_same (w w' : world) :
  panel w' = panel w -> inflight w' = inflight w ->
  logRows w' = logRows w /\ nextId w' = nextId w /\ inflight w' = inflight w.
Proof. intros H1 H2. unfold logRows, nextId. rewrite H1, H2. repeat split. Qed.

Lemma logRows_focusInput (w : world) :
  logRows (focusInput w) = logRows w /\ nextId (focusInput w) = nextId w
  /\ inflight (focusInput w) = inflight w.
Proof.
  unfold focusInput. destruct (panel w) as [p|] eqn:Hp; [|repeat split].
  destruct (displayed p); [|repeat split].
  apply logRows_same; reflexivity.
Qed.

Lemma logRows_openPanel (w w' : world) (p : panelElem) :
  panel w = Some p -> openPanel w = Some w' ->
  logRows w' = logRows w /\ nextId w' = nextId w /\ inflight w' = inflight w.
Proof.
  intros Hp H. unfold openPanel, makePanel in H. rewrite Hp in H. rewrite Hp in H.
  injection H as <-. cbv zeta. unfold requestScrollToBottom.
  match goal with
  | |- logRows (set_rafQueue ?n (focusInput ?x)) = _ /\ _ =>
      destruct (logRows_focusInput x) as (E1 & E2 & E3);
      destruct (logRows_same (focusInput x) (set_rafQueue n (focusInput x))
                             eq_refl eq_refl) as (F1 & F2 & F3);
      rewrite F1, F2, F3, E1, E2, E3
  end.
  destruct (fab _); unfold logRows, nextId;
    cbn [panel set_fab saveState set_state set_localStorage set_panel inflight];
    rewrite Hp; repeat split.
Qed.

Lemma logRows_closePanel (w : world) :
  logRows (closePanel w) = logRows w /\ nextId (closePanel w) = nextId w
  /\ inflight (closePanel w) = inflight w.
Proof.
  unfold closePanel. cbv zeta.
  cbn [panel saveState set_state set_localStorage].
  destruct (panel w) as [p|] eqn:Hp.
  - destruct (fab _); unfold logRows, nextId;
      cbn [panel set_fab set_inputFocused set_panel inflight saveState set_state
           set_localStorage]; rewrite Hp; repeat split.
  - destruct (fab _); unfold logRows, nextId;
      cbn [panel set_fab set_inputFocused set_panel inflight saveState set_state
           set_localStorage]; rewrite Hp; repeat split.
Qed.

Lemma logRows_setPosition (x y : Z) (w : world) :
  logRows (setPosition x y w) = logRows w /\ nextId (setPosition x y w) = nextId w
  /\ inflight (setPosition x y w) = inflight w.
Proof.
  unfold setPosition. destruct (panel w) as [p|] eqn:Hp; [|repeat split].
  unfold logRows, nextId. cbv zeta.
  cbn [panel saveState set_state set_localStorage set_panel inflight].
  rewrite Hp. repeat split.
Qed.

Lemma logRows_clampIntoViewport (w : world) :
  logRows (clampIntoViewport w) = logRows w
  /\ nextId (clampIntoViewport w) = nextId w
  /\ inflight (clampIntoViewport w) = inflight w.
Proof.
  unfold clampIntoViewport. destruct (panel w) as [p|] eqn:Hp; [|repeat split].
  unfold logRows, nextId. cbv zeta.
  cbn [panel saveState set_state set_localStorage set_panel inflight].
  rewrite Hp. repeat split.
Qed.

Ltac log_chain :=
  repeat match goal with
         | |- logRows ?x = logRows ?y /\ nextId ?x = _ /\ inflight ?x = _ =>
             first
               [ split; [reflexivity | split; reflexivity]
               | match x with
                 | update_panel ?f ?z =>
                     let E1 := fresh in let E2 := fresh in let E3 := fresh in
                     destruct (logRows_update f z) as (E1 & E2 & E3);
                     [intros; split; reflexivity | rewrite E1, E2, E3]
                 | clampIntoViewport ?z =>
                     let E1 := fresh in let E2 := fresh in let E3 := fresh in
                     destruct (logRows_clampIntoViewport z) as (E1 & E2 & E3);
                     rewrite E1, E2, E3
                 | _ ?z =>
                     let E1 := fresh in let E2 := fresh in let E3 := fresh in
                     destruct (logRows_same z x eq_refl eq_refl) as (E1 & E2 & E3);
                     rewrite E1, E2, E3
                 | _ _ ?z =>
                     let E1 := fresh in let E2 := fresh in let E3 := fresh in
                     destruct (logRows_same z x eq_refl eq_refl) as (E1 & E2 & E3);
                     rewrite E1, E2, E3
                 end ]
         end.

Lemma logRows_gestures (e : pointerEvent) (w : world) :
  (logRows (dragStart e w) = logRows w /\ nextId (dragStart e w) = nextId w
   /\ inflight (dragStart e w) = inflight w)
  /\ (logRows (dragMove e w) = logRows w /\ nextId (dragMove e w) = nextId w
      /\ inflight (dragMove e w) = inflight w)
  /\ (logRows (dragEnd w) = logRows w /\ nextId (dragEnd w) = nextId w
      /\ inflight (dragEnd w) = inflight w)
  /\ (logRows (resizeStart e w) = logRows w /\ nextId (resizeStart e w) = nextId w
      /\ inflight (resizeStart e w) = inflight w)
  /\ (logRows (resizeMove e w) = logRows w /\ nextId (resizeMove e w) = nextId w
      /\ inflight (resizeMove e w) = inflight w)
  /\ (logRows (resizeEnd w) = logRows w /\ nextId (resizeEnd w) = nextId w
      /\ inflight (resizeEnd w) = inflight w).
Proof.
  unfold dragStart, dragMove, dragEnd, resizeStart, resizeMove, resizeEnd.
  destruct (panel w) as [p|] eqn:Hp; [|repeat split].
  assert (Hset : forall q, rows (log (chat q)) = rows (log (chat p)) ->
                           next_id (chat q) = next_id (chat p) ->
                           logRows (set_panel (Some q) w) = logRows w
                           /\ nextId (set_panel (Some q) w) = nextId w
                           /\ inflight (set_panel (Some q) w) = inflight w).
  { intros q E1 E2. unfold logRows, nextId. cbn [panel set_panel inflight].
    rewrite Hp, E1, E2. repeat split. }
  cbv zeta.
  split; [|split; [|split; [|split; [|split]]]].
  - log_chain. apply Hset; reflexivity.
  - destruct (dragging (drag p)); [|repeat split]. apply Hset; reflexivity.
  - destruct (dragging (drag p)); [|repeat split].
    log_chain. apply Hset; reflexivity.
  - apply Hset; reflexivity.
  - destruct (resizing (resize p)); [|repeat split].
    destruct (stickBottom (chat p)); [unfold requestScrollToBottom; log_chain|];
      apply Hset; reflexivity.
  - destruct (resizing (resize p)); [|repeat split].
    log_chain. apply Hset; reflexivity.
Qed.

(** Outside a send cycle nothing is added to the log and nothing taken
    from it. *)
Lemma step_keeps_log (w : world) (p : panelElem) (ev : event) :
  panel w = Some p -> sendEvent ev = false ->
  logRows (step w ev) = logRows w /\ nextId (step w ev) = nextId w
  /\ inflight (step w ev) = inflight w.
Proof.
  intros Hp Hev. destruct ev; try discriminate Hev; cbn [step].
  - destruct (openPanel w) eqn:E; cbn [orSame]; [|repeat split].
    apply (logRows_openPanel w w0 p); assumption.
  - apply logRows_closePanel.
  - apply logRows_setPosition.
  - destruct (fab w) as [[]|]; try (repeat split; fail);
      (destruct (openPanel w) eqn:E; cbn [orSame]; [|repeat split];
       apply (logRows_openPanel w w0 p); assumption).
  - destruct (panelDisplayed w); [apply logRows_closePanel | repeat split].
  - destruct (panelDisplayed w && inputFocused w);
      [apply logRows_closePanel | repeat split].
  - destruct (panelDisplayed w && inputFocused w); [|repeat split].
    apply logRows_update. intros; split; reflexivity.
  - destruct (panelDisplayed w); [|repeat split].
    destruct (logRows_gestures e w) as (G & _).
    destruct (touches e); [|exact G].
    destruct G as (G1 & G2 & G3).
    destruct (logRows_same (dragStart e w) (set_inputFocused false (dragStart e w))
                           eq_refl eq_refl) as (E1 & E2 & E3).
    rewrite E1, E2, E3. repeat split; assumption.
  - destruct (panelDisplayed w); [|repeat split].
    apply (logRows_gestures e w).
  - set (w1 := match panel w with
               | Some p => if drag_listening (drag p) then dragMove e w else w
               | None => w
               end).
    assert (H1 : logRows w1 = logRows w /\ nextId w1 = nextId w
                 /\ inflight w1 = inflight w).
    { subst w1. rewrite Hp. destruct (drag_listening (drag p)); [|repeat split].
      apply (logRows_gestures e w). }
    destruct H1 as (E1 & E2 & E3). rewrite <- E1, <- E2, <- E3.
    destruct (panel w1) as [p1|]; [|repeat split].
    destruct (resize_listening (resize p1)); [|repeat split].
    apply (logRows_gestures e w1).
  - set (w1 := match panel w with
               | Some p => if drag_listening (drag p) then dragEnd w else w
               | None => w
               end).
    assert (H1 : logRows w1 = logRows w /\ nextId w1 = nextId w
                 /\ inflight w1 = inflight w).
    { subst w1. rewrite Hp. destruct (drag_listening (drag p)); [|repeat split].
      apply (logRows_gestures (mkPointerEvent [] (mkPoint 0 0)) w). }
    destruct H1 as (E1 & E2 & E3). rewrite <- E1, <- E2, <- E3.
    destruct (panel w1) as [p1|]; [|repeat split].
    destruct (resize_listening (resize p1)); [|repeat split].
    apply (logRows_gestures (mkPointerEvent [] (mkPoint 0 0)) w1).
  - destruct (panelDisplayed w); [|repeat split].
    apply logRows_update. intros q. unfold userScroll, onScroll. split; reflexivity.
  - match goal with
    | |- logRows (set_rafQueue O ?x) = _ /\ _ =>
        destruct (logRows_same x (set_rafQueue O x) eq_refl eq_refl) as (E1 & E2 & E3);
        rewrite E1, E2, E3
    end.
    destruct (0 <? rafQueue w)%nat; [|repeat split].
    apply logRows_update. intros q. unfold scrollToBottom.
    cbn [chat set_chat]. destruct (afterScroll_rows (scrollTop (log (chat q)))
      (mkTranscript (set_scrollTop (scrollHeight (log (chat q))) (log (chat q)))
                    (stickBottom (chat q)) (next_id (chat q)))) as (-> & ->).
    split; reflexivity.
  - apply logRows_same; reflexivity.
  - apply logRows_update. intros q. cbn [chat set_chat].
    match goal with
    | |- context [afterScroll ?b ?t] => destruct (afterScroll_rows b t) as (-> & ->)
    end.
    split; reflexivity.
  - apply logRows_focusInput.
Qed.

Lemma onSendStart_log (w : world) (p : panelElem) :
  panel w = Some p -> trim (inputValue p) <> "" ->
  let text := trim (inputValue p) in
  logRows (fst (onSendStart w))
  = (logRows w
     ++ [mkRow (nextId w) "bb-row you"
               (rowMarkup "you" (replaceNewlines (replaceMarkup text)));
         mkRow (S (nextId w)) "bb-row bot" typingMarkup])%list
  /\ nextId (fst (onSendStart w)) = S (S (nextId w))
  /\ inflight (fst (onSendStart w))
     = (inflight w
        ++ [(S (nextId w), JSON.stringify (VObj [("message", VStr text)]))])%list
  /\ exists p', panel (fst (onSendStart w)) = Some p'
                /\ inputValue p' = "" /\ sendDisabled p' = true.
Proof.
  intros Hp Ht text. unfold onSendStart, logRows, nextId. rewrite Hp.
  destruct (String.eqb_spec (trim (inputValue p)) "") as [E|_]; [contradiction|].
  destruct (showTyping_rows (appendYou (trim (inputValue p)) (chat p)))
    as (S1 & S2 & S3).
  destruct (showTyping (appendYou (trim (inputValue p)) (chat p))) as [ty t2] eqn:Est.
  cbn [fst snd] in *. cbn [panel set_inflight set_panel inflight chat set_chat].
  destruct (append_rows "you"
              (replaceNewlines (replaceMarkup (trim (inputValue p)))) (chat p))
    as (A1 & A2 & _).
  unfold appendYou in *. rewrite S2, S3, S1, A1, A2, <- app_assoc.
  split; [reflexivity|]. split; [reflexivity|]. split; [reflexivity|].
  eexists. split; [reflexivity|]. split; reflexivity.
Qed.

Lemma onSendSettle_log (typing : nat) (o : fetchOutcome) (w : world) (p : panelElem) :
  panel w = Some p ->
  logRows (onSendSettle typing o w)
  = filter (fun r => negb (Nat.eqb (row_id r) typing))
           (logRows w ++ [mkRow (nextId w) "bb-row bot"
                                (rowMarkup "bot" (outcomeMarkup o))])
  /\ nextId (onSendSettle typing o w) = S (nextId w)
  /\ inflight (onSendSettle typing o w)
     = filter (fun r => negb (Nat.eqb (fst r) typing)) (inflight w).
Proof.
  intros Hp. unfold onSendSettle. cbv zeta. cbn [panel set_inflight]. rewrite Hp.
  match goal with
  | |- logRows (focusInput ?x) = _ /\ _ =>
      destruct (logRows_focusInput x) as (E1 & E2 & E3); rewrite E1, E2, E3
  end.
  unfold logRows, nextId. cbn [panel set_panel inflight chat set_chat set_sendDisabled].
  rewrite Hp, remove_rows, handleOutcome_appends.
  unfold remove.
  match goal with
  | |- context [afterScroll ?b ?t] => destruct (afterScroll_rows b t) as (_ & ->)
  end.
  cbn [next_id].
  destruct (append_rows "bot" (outcomeMarkup o) (chat p)) as (A1 & A2 & _).
  unfold appendBot. rewrite A1, A2. repeat split.
Qed.

Lemma map_row_id_filter (id : nat) (l : list row) :
  map row_id (filter (fun r => negb (Nat.eqb (row_id r) id)) l)
  = filter (fun n => negb (Nat.eqb n id)) (map row_id l).
Proof.
  induction l as [|r l IH]; [reflexivity|]. cbn [filter map].
  destruct (negb (Nat.eqb (row_id r) id)); cbn [map]; rewrite IH; reflexivity.
Qed.

Lemma map_fst_filter {B} (id : nat) (l : list (nat * B)) :
  map fst (filter (fun r => negb (Nat.eqb (fst r) id)) l)
  = filter (fun n => negb (Nat.eqb n id)) (map fst l).
Proof.
  induction l as [|r l IH]; [reflexivity|]. cbn [filter map].
  destruct (negb (Nat.eqb (fst r) id)); cbn [map]; rewrite IH; reflexivity.
Qed.

Lemma NoDup_snoc {A} (l : list A) (a : A) :
  NoDup l -> ~ In a l -> NoDup (l ++ [a]).
Proof.
  induction l as [|b l IH]; intros Hnd Hin.
  - constructor; [intros []|constructor].
  - inversion Hnd as [|? ? Hb Hl]; subst. cbn [app]. constructor.
    + intros H. apply in_app_or in H. destruct H as [H|[<-|[]]].
      * apply Hb, H.
      * apply Hin. left. reflexivity.
    + apply IH; [exact Hl|]. intros H. apply Hin. right. exact H.
Qed.

Lemma rowsOK_same (w w' : world) :
  logRows w' = logRows w -> nextId w' = nextId w -> inflight w' = inflight w ->
  rowsOK w -> rowsOK w'.
Proof.
  intros E1 E2 E3. unfold rowsOK, pending. rewrite E1, E2, E3. exact (fun H => H).
Qed.

Lemma rowsOK_onSendStart (w : world) (p : panelElem) :
  panel w = Some p -> rowsOK w -> rowsOK (fst (onSendStart w)).
Proof.
  intros Hp (H1 & H2 & H3 & H4).
  destruct (String.eqb_spec (trim (inputValue p)) "") as [E|E].
  - unfold onSendStart. rewrite Hp, E. cbn [String.eqb fst].
    repeat split; assumption.
  - destruct (onSendStart_log w p Hp E) as (L1 & L2 & L3 & _).
    unfold rowsOK, pending. rewrite L1, L2, L3.
    assert (Hids : forall n, In n (map row_id (logRows w)) -> (n < nextId w)%nat).
    { intros n Hn. apply in_map_iff in Hn. destruct Hn as (r & <- & Hr).
      apply H1, Hr. }
    split; [|split; [|split]].
    + intros r Hr. apply in_app_or in Hr. destruct Hr as [Hr|Hr].
      * apply H1 in Hr. lia.
      * destruct Hr as [<-|[<-|[]]]; cbn [row_id]; lia.
    + rewrite map_app. cbn [map row_id].
      change [nextId w; S (nextId w)] with ([nextId w] ++ [S (nextId w)])%list.
      rewrite app_assoc. apply NoDup_snoc; [apply NoDup_snoc; [exact H2|]|].
      * intros Hin. apply Hids in Hin. lia.
      * intros Hin. apply in_app_or in Hin. destruct Hin as [Hin|[Hin|[]]].
        -- apply Hids in Hin. lia.
        -- lia.
    + rewrite map_app. cbn [map fst]. apply NoDup_snoc; [exact H3|].
      intros Hin. apply H4 in Hin. apply H1 in Hin. cbn [row_id] in Hin. lia.
    + intros id Hid. rewrite map_app in Hid. apply in_app_or in Hid.
      apply in_or_app. destruct Hid as [Hid|Hid].
      * left. apply H4, Hid.
      * destruct Hid as [<-|[]]. right. right. left. reflexivity.
Qed.

Lemma rowsOK_onSendSettle (typing : nat) (o : fetchOutcome) (w : world) (p : panelElem) :
  panel w = Some p -> In typing (pending w) ->
  rowsOK w -> rowsOK (onSendSettle typing o w).
Proof.
  intros Hp Hin (H1 & H2 & H3 & H4).
  destruct (onSendSettle_log typing o w p Hp) as (L1 & L2 & L3).
  unfold rowsOK, pending. rewrite L1, L2, L3.
  assert (Hty : (typing < nextId w)%nat).
  { apply H4 in Hin. apply H1 in Hin. exact Hin. }
  split; [|split; [|split]].
  - intros r Hr. apply filter_In in Hr. destruct Hr as (Hr & _).
    apply in_app_or in Hr. destruct Hr as [Hr|[<-|[]]].
    + apply H1 in Hr. lia.
    + cbn [row_id]. lia.
  - rewrite map_row_id_filter. apply NoDup_filter.
    rewrite map_app. cbn [map row_id].
    assert (Hids : forall n, In n (map row_id (logRows w)) -> (n < nextId w)%nat).
    { intros n Hn. apply in_map_iff in Hn. destruct Hn as (r & <- & Hr).
      apply H1, Hr. }
    apply NoDup_snoc; [exact H2|].
    intros Hin'. apply Hids in Hin'. lia.
  - rewrite map_fst_filter. apply NoDup_filter, H3.
  - intros id Hid. rewrite map_fst_filter in Hid. apply filter_In in Hid.
    destruct Hid as (Hid & Hne).
    apply filter_In. split.
    + apply in_or_app. left. apply H4, Hid.
    + exact Hne.
Qed.

Lemma existsb_pending (typing : nat) (w : world) :
  existsb (fun r => Nat.eqb (fst r) typing) (inflight w) = true
  <-> In typing (pending w).
Proof.
  unfold pending. rewrite existsb_exists, in_map_iff. split.
  - intros (r & Hr & E). apply Nat.eqb_eq in E. exists r. split; assumption.
  - intros (r & E & Hr). exists r. split; [exact Hr|]. apply Nat.eqb_eq, E.
Qed.

Lemma rowsOK_step (w : world) (ev : event) :
  hasPanel w = true -> rowsOK w -> rowsOK (step w ev).
Proof.
  intros Hhas H. unfold hasPanel in Hhas.
  destruct (panel w) as [p|] eqn:Hp; [|discriminate].
  destruct (sendEvent ev) eqn:Hev.
  - destruct ev; try discriminate Hev; cbn [step].
    + destruct (panelDisplayed w && inputFocused w); [|exact H].
      apply (rowsOK_onSendStart w p); assumption.
    + rewrite Hp. destruct (displayed p); [|exact H].
      assert (H1 : rowsOK (set_inputFocused false w))
        by (apply (rowsOK_same w); try reflexivity; exact H).
      destruct (sendDisabled p); [exact H1|].
      apply (rowsOK_onSendStart (set_inputFocused false w) p); [exact Hp | exact H1].
    + destruct (existsb _ _) eqn:E; [|exact H].
      apply (rowsOK_onSendSettle typing o w p); [assumption| |assumption].
      apply existsb_pending, E.
  - destruct (step_keeps_log w p ev Hp Hev) as (E1 & E2 & E3).
    apply (rowsOK_same w); assumption.
Qed.

Lemma rowsOK_boot (vw vh : Z) (ls : storage) (clientH : Z)
      (measure : list row -> Z) (w : world) :
  boot vw vh ls clientH measure = Some w -> rowsOK w.
Proof.
  unfold boot. destruct (load ls) as [st|]; [|discriminate].
  unfold init. intros H.
  set (w0 := mkWorld vw vh ls st None None false O false clientH measure []) in *.
  destruct (makePanel (makeFab w0)) as [w1|] eqn:Hm; [|discriminate].
  destruct (makePanel_fresh (makeFab w0) w1 eq_refl Hm)
    as (p & Hp & _ & _ & _ & Hrows & Hnext & _ & _ & _ & _ & _ & _ & Hin).
  assert (H1 : rowsOK w1).
  { unfold rowsOK, pending, logRows, nextId. rewrite Hp, Hrows, Hnext, Hin.
    cbn [makeFab w0 inflight fab set_fab map].
    split; [|split; [|split]].
    - intros r [<-|[]]. cbn [row_id]. lia.
    - constructor; [intros []|constructor].
    - constructor.
    - intros id []. }
  destruct (truthy _).
  - destruct (logRows_openPanel w1 w p Hp H) as (E1 & E2 & E3).
    apply (rowsOK_same w1); assumption.
  - injection H as <-.
    destruct (logRows_closePanel w1) as (E1 & E2 & E3).
    apply (rowsOK_same w1); assumption.
Qed.

Lemma reachable_hasPanel (w : world) : reachable w -> hasPanel w = true.
Proof.
  intros H. destruct (reachable_coherent w H) as (p & Hp & _).
  unfold hasPanel. rewrite Hp. reflexivity.
Qed.

Lemma reachable_rowsOK (w : world) : reachable w -> rowsOK w.
Proof.
  induction 1 as [vw vh ls ch m w Hb | w ev Hw IH].
  - apply (rowsOK_boot vw vh ls ch m), Hb.
  - apply rowsOK_step; [apply reachable_hasPanel, Hw | exact IH].
Qed.

(** Removing by identity from a list without repeated identities takes
    out exactly the one row. *)
Lemma filter_unique (r : row) (before after : list row) :
  NoDup (map row_id (before ++ r :: after)) ->
  filter (fun x => negb (Nat.eqb (row_id x) (row_id r))) (before ++ r :: after)
  = (before ++ after)%list.
Proof.
  intros Hnd. rewrite filter_app. cbn [filter]. rewrite Nat.eqb_refl. cbn [negb].
  rewrite map_app in Hnd. cbn [map] in Hnd.
  assert (Hb : forall x, In x before -> row_id x <> row_id r).
  { intros x Hx E. apply NoDup_remove_2 in Hnd. apply Hnd.
    apply in_or_app. left. rewrite <- E. apply in_map, Hx. }
  assert (Ha : forall x, In x after -> row_id x <> row_id r).
  { intros x Hx E. apply NoDup_remove_2 in Hnd. apply Hnd.
    apply in_or_app. right. rewrite <- E. apply in_map, Hx. }
  assert (Hf : forall l, (forall x, In x l -> row_id x <> row_id r) ->
                         filter (fun x => negb (Nat.eqb (row_id x) (row_id r))) l = l).
  { induction l as [|x l IH]; intros Hl; [reflexivity|]. cbn [filter].
    destruct (Nat.eqb_spec (row_id x) (row_id r)) as [E|_].
    - exfalso. apply (Hl x); [left; reflexivity | exact E].
    - cbn [negb]. f_equal. apply IH. intros y Hy. apply Hl. right. exact Hy. }
  rewrite (Hf before Hb), (Hf after Ha). reflexivity.
Qed.

(** X9.  Outside a send cycle the log is left alone: on a reachable world
    no event other than a send or the settling of a request adds a row,
    drops one or reorders them, and none touches the requests in flight.
    Opening the panel again, in particular, does not repeat the greeting. *)
Theorem log_changes_only_by_sending (w : world) (ev : event) :
  reachable w -> sendEvent ev = false ->
  logRows (step w ev) = logRows w /\ inflight (step w ev) = inflight w.
Proof.
  intros H Hev. destruct (reachable_coherent w H) as (p & Hp & _).
  destruct (step_keeps_log w p ev Hp Hev) as (E1 & _ & E3). split; assumption.
Qed.

Lemma log_changes_only_by_sending_witness :
  logRows (step typedWorld ApiOpen) = logRows typedWorld.
Proof.
  apply (log_changes_only_by_sending typedWorld ApiOpen reachable_typedWorld).
  reflexivity.
Defined.

(** X10.  On every reachable world the rows of the log have pairwise
    different identities, and every request in flight has its typing
    row in the log; no request is listed twice. *)
Theorem reachable_pending_rows (w : world) :
  reachable w ->
  NoDup (map row_id (logRows w))
  /\ NoDup (pending w)
  /\ forall id, In id (pending w) ->
                In (mkRow id "bb-row bot" typingMarkup) (logRows w).
Proof.
  intros H. destruct (reachable_rowsOK w H) as (_ & H2 & H3 & H4).
  repeat split; assumption.
Qed.

Lemma reachable_pending_rows_witness :
  In (mkRow 2 "bb-row bot" typingMarkup) (logRows (step typedWorld KeyEnter)).
Proof.
  apply (proj2 (proj2 (reachable_pending_rows (step typedWorld KeyEnter)
                         (reach_step _ _ reachable_typedWorld)))).
  vm_compute. left. reflexivity.
Defined.

(** X11.  Settling a request in flight on a reachable world takes exactly
    its typing row out of the log and puts one bot row, holding the markup
    of the outcome, at the end; every other row stays, in order; the
    request is no longer in flight. *)
Theorem settle_replaces_typing_row (w : world) (typing : nat) (o : fetchOutcome) :
  reachable w -> In typing (pending w) ->
  exists before after,
    logRows w = (before ++ mkRow typing "bb-row bot" typingMarkup :: after)%list
    /\ logRows (step w (FetchSettled typing o))
       = (before ++ after
          ++ [mkRow (nextId w) "bb-row bot" (rowMarkup "bot" (outcomeMarkup o))])%list
    /\ ~ In typing (pending (step w (FetchSettled typing o))).
Proof.
  intros H Hin.
  destruct (reachable_coherent w H) as (p & Hp & _).
  destruct (reachable_rowsOK w H) as (H1 & H2 & H3 & H4).
  destruct (in_split _ _ (H4 typing Hin)) as (before & after & Hrows).
  exists before, after. split; [exact Hrows|].
  cbn [step]. rewrite (proj2 (existsb_pending typing w) Hin).
  destruct (onSendSettle_log typing o w p Hp) as (L1 & _ & L3).
  split.
  - rewrite L1, filter_app. cbn [filter row_id].
    assert (Hlt : (typing < nextId w)%nat) by (apply (H1 _ (H4 typing Hin))).
    destruct (Nat.eqb_spec (nextId w) typing) as [E|_]; [lia|]. cbn [negb].
    rewrite Hrows in H2 |- *.
    pose proof (filter_unique (mkRow typing "bb-row bot" typingMarkup)
                              before after H2) as Hf.
    cbn [row_id] in Hf. rewrite Hf, <- app_assoc. reflexivity.
  - unfold pending. rewrite L3, map_fst_filter. intros Hf.
    apply filter_In in Hf. destruct Hf as (_ & Hf).
    rewrite Nat.eqb_refl in Hf. discriminate Hf.
Qed.

Lemma settle_replaces_typing_row_witness :
  exists before after,
    logRows (step typedWorld KeyEnter)
    = (before ++ mkRow 2 "bb-row bot" typingMarkup :: after)%list
    /\ logRows (run typedWorld [KeyEnter; FetchSettled 2 Rejected])
       = (before ++ after
          ++ [mkRow 3 "bb-row bot" (rowMarkup "bot" networkErrorMessage)])%list.
Proof.
  destruct (settle_replaces_typing_row (step typedWorld KeyEnter) 2 Rejected
              (reach_step _ _ reachable_typedWorld))
    as (before & after & E1 & E2 & _).
  - vm_compute. left. reflexivity.
  - exists before, after. split; [exact E1 | exact E2].
Defined.

(* ------------------------------------------------------------------ *)
(** * Gestures, from press to release *)

(** The panel of a sample world, by computation. *)
Ltac panel_of W p Hp :=
  let v := eval vm_compute in (panel W) in
  match v with
  | Some ?q =>
      pose (p := q);
      assert (Hp : panel W = Some p) by (vm_compute; reflexivity)
  end.

(** The box depends on the viewport, on whether the panel is displayed
    and on the four inline lengths only. *)
Lemma box_moved (w w' : world) (p p' : panelElem) (x y : Z) :
  displayed p = true -> displayed p' = true ->
  innerWidth w' = innerWidth w -> innerHeight w' = innerHeight w ->
  width (style p') = width (style p) -> height (style p') = height (style p) ->
  left (style p') = Some x -> top (style p') = Some y ->
  getBoundingClientRect w' p'
  = mkRect x y (rect_width (getBoundingClientRect w p))
           (rect_height (getBoundingClientRect w p)).
Proof.
  intros Hd Hd' Hw Hh Hwd Hht Hl Ht. unfold getBoundingClientRect.
  rewrite Hd, Hd', Hw, Hh, Hwd, Hht, Hl, Ht. reflexivity.
Qed.

Lemma box_same (w w' : world) (p p' : panelElem) :
  innerWidth w' = innerWidth w -> innerHeight w' = innerHeight w ->
  style p' = style p ->
  getBoundingClientRect w' p' = getBoundingClientRect w p.
Proof.
  intros Hw Hh Hs. unfold getBoundingClientRect, displayed. rewrite Hw, Hh, Hs.
  reflexivity.
Qed.

Lemma last_cons {A} (a d : A) (l : list A) : List.last (a :: l) d = List.last l a.
Proof.
  revert a d. induction l as [|b l IH]; intros a d; [reflexivity|].
  change (List.last (a :: b :: l) d) with (List.last (b :: l) d).
  rewrite !IH. reflexivity.
Qed.

Lemma dragAt_start (e : pointerEvent) (w : world) (p : panelElem) :
  panel w = Some p -> displayed p = true -> resize_listening (resize p) = false ->
  let r := getBoundingClientRect w p in
  dragAt (pt_x (getPoint e)) (pt_y (getPoint e)) (rect_left r) (rect_top r) r
         (state w) (localStorage w) (innerWidth w) (innerHeight w)
         (step w (HeaderDown e)).
Proof.
  intros Hp Hd Hr r. cbn [step]. unfold panelDisplayed. rewrite Hp, Hd.
  unfold dragStart. rewrite Hp. cbv zeta.
  destruct (touches e) eqn:Et;
    (eexists; split; [reflexivity|]; split; [exact Hd|]; split; [reflexivity|];
     split; [exact Hr|]; split; [apply box_same; reflexivity|]; repeat split).
Qed.

Lemma dragAt_move (e : pointerEvent) (sx sy ox oy : Z) (box : rect)
      (st : list (string * value)) (ls : storage) (vw vh : Z) (w : world) :
  dragAt sx sy ox oy box st ls vw vh w ->
  dragAt sx sy ox oy
         (mkRect (ox + (pt_x (getPoint e) - sx)) (oy + (pt_y (getPoint e) - sy))
                 (rect_width box) (rect_height box))
         st ls vw vh (step w (DocumentMove e)).
Proof.
  intros (p & Hp & Hd & Hdrag & Hr & Hbox & Hst & Hls & Hvw & Hvh).
  cbn [step]. rewrite Hp, Hdrag. cbn [drag_listening].
  unfold dragMove. rewrite Hp, Hdrag. cbn [dragging drag_sx drag_sy drag_ox drag_oy].
  cbv zeta. cbn [panel set_panel resize set_style]. rewrite Hr.
  eexists. split; [reflexivity|]. split; [exact Hd|]. split; [exact Hdrag|].
  split; [exact Hr|]. split; [|repeat split; assumption].
  rewrite <- Hbox. apply box_moved; try reflexivity; exact Hd.
Qed.

Lemma dragAt_moves (moves : list pointerEvent) (cur : pointerEvent)
      (sx sy ox oy w0 h0 : Z)
      (st : list (string * value)) (ls : storage) (vw vh : Z) (w : world) :
  dragAt sx sy ox oy
         (mkRect (ox + (pt_x (getPoint cur) - sx)) (oy + (pt_y (getPoint cur) - sy))
                 w0 h0) st ls vw vh w ->
  dragAt sx sy ox oy
         (mkRect (ox + (pt_x (getPoint (List.last moves cur)) - sx))
                 (oy + (pt_y (getPoint (List.last moves cur)) - sy)) w0 h0)
         st ls vw vh (run w (map DocumentMove moves)).
Proof.
  revert cur w. induction moves as [|m moves IH]; intros cur w H; [exact H|].
  rewrite last_cons. cbn [map run fold_left].
  apply (IH m (step w (DocumentMove m))).
  apply (dragAt_move m) in H. exact H.
Qed.

Lemma dragAt_pressed (e : pointerEvent) (moves : list pointerEvent)
      (w : world) (p : panelElem) :
  panel w = Some p -> displayed p = true -> resize_listening (resize p) = false ->
  let r := getBoundingClientRect w p in
  let d := lastPointer e moves in
  dragAt (pt_x (getPoint e)) (pt_y (getPoint e)) (rect_left r) (rect_top r)
         (mkRect (rect_left r + (pt_x (getPoint d) - pt_x (getPoint e)))
                 (rect_top r + (pt_y (getPoint d) - pt_y (getPoint e)))
                 (rect_width r) (rect_height r))
         (state w) (localStorage w) (innerWidth w) (innerHeight w)
         (run w (HeaderDown e :: map DocumentMove moves)).
Proof.
  intros Hp Hd Hr r d. cbn [run fold_left].
  apply (dragAt_moves moves e). fold r.
  pose proof (dragAt_start e w p Hp Hd Hr) as H. cbv zeta in H. fold r in H.
  replace (mkRect _ _ _ _) with r; [exact H|].
  destruct r as [x y wd ht]. cbn [rect_left rect_top rect_width rect_height].
  f_equal; lia.
Qed.

Lemma clampIntoViewport_viewport (w : world) :
  innerWidth (clampIntoViewport w) = innerWidth w
  /\ innerHeight (clampIntoViewport w) = innerHeight w.
Proof.
  unfold clampIntoViewport. destruct (panel w); split; reflexivity.
Qed.

(** X12.  While the header is dragged the panel follows the pointer: after
    a press on a displayed panel and any number of moves, the box stands
    where it stood at the press, shifted by the way from the press to the
    last move, with its size as it was; nothing of it is put into [state]
    or into the storage before the release. *)
Theorem drag_follows_pointer (w : world) (p : panelElem) (press : pointerEvent)
        (moves : list pointerEvent) :
  panel w = Some p -> displayed p = true -> resize_listening (resize p) = false ->
  let r := getBoundingClientRect w p in
  let d := lastPointer press moves in
  let w' := run w (HeaderDown press :: map DocumentMove moves) in
  panelBox w'
  = Some (mkRect (rect_left r + (pt_x (getPoint d) - pt_x (getPoint press)))
                 (rect_top r + (pt_y (getPoint d) - pt_y (getPoint press)))
                 (rect_width r) (rect_height r))
  /\ state w' = state w
  /\ localStorage w' = localStorage w.
Proof.
  intros Hp Hd Hr r d w'.
  destruct (dragAt_pressed press moves w p Hp Hd Hr)
    as (q & Hq & _ & _ & _ & Hbox & Hst & Hls & _).
  fold w' in Hq, Hbox, Hst, Hls. unfold panelBox. rewrite Hq, Hbox.
  repeat split; assumption.
Qed.

Lemma drag_follows_pointer_witness :
  panelBox (run typedWorld
              [HeaderDown (mkPointerEvent [] (mkPoint 1000 300));
               DocumentMove (mkPointerEvent [] (mkPoint 900 280));
               DocumentMove (mkPointerEvent [] (mkPoint 400 100))])
  = Some (mkRect 298 58 360 520).
Proof.
  panel_of typedWorld p Hp.
  pose proof (proj1 (drag_follows_pointer typedWorld p
                       (mkPointerEvent [] (mkPoint 1000 300))
                       [mkPointerEvent [] (mkPoint 900 280);
                        mkPointerEvent [] (mkPoint 400 100)] Hp
                       ltac:(vm_compute; reflexivity)
                       ltac:(vm_compute; reflexivity))) as H.
  vm_compute in H. vm_compute. exact H.
Defined.

(** X13.  A whole drag, from the press over any moves to the release: the
    box ends as the moved box pinned into the viewport, [state] holds
    that position and the size of the box, the storage (when it takes
    writes) the serialisation of that state, and the drag is over. *)
Theorem drag_release_pins_and_saves (w : world) (p : panelElem)
        (press : pointerEvent) (moves : list pointerEvent) :
  panel w = Some p -> displayed p = true -> resize_listening (resize p) = false ->
  let r := getBoundingClientRect w p in
  let d := lastPointer press moves in
  let moved := mkRect (rect_left r + (pt_x (getPoint d) - pt_x (getPoint press)))
                      (rect_top r + (pt_y (getPoint d) - pt_y (getPoint press)))
                      (rect_width r) (rect_height r) in
  let final := clampRect moved (innerWidth w) (innerHeight w) in
  let w' := run w (HeaderDown press :: map DocumentMove moves ++ [DocumentUp]) in
  panelBox w' = Some final
  /\ field "x" (state w') = VNum (rect_left final)
  /\ field "y" (state w') = VNum (rect_top final)
  /\ field "w" (state w') = VNum (rect_width final)
  /\ field "h" (state w') = VNum (rect_height final)
  /\ (writable (localStorage w) = true ->
      slot (localStorage w') = Some (JSON.stringify (VObj (state w'))))
  /\ exists p', panel w' = Some p' /\ dragging (drag p') = false.
Proof.
  intros Hp Hd Hr r d moved final w'.
  destruct (dragAt_pressed press moves w p Hp Hd Hr)
    as (q & Hq & Hdq & Hdrag & Hrq & Hbox & Hst & Hls & Hvw & Hvh).
  fold r d moved in Hbox.
  assert (Ew : w' = step (run w (HeaderDown press :: map DocumentMove moves)) DocumentUp).
  { subst w'. unfold run. rewrite app_comm_cons, fold_left_app. reflexivity. }
  set (w1 := run w (HeaderDown press :: map DocumentMove moves)) in *.
  rewrite Ew. clear Ew w'.
  cbn [step]. rewrite Hq, Hdrag. cbn [drag_listening].
  unfold dragEnd. rewrite Hq, Hdrag. cbn [dragging drag_sx drag_sy drag_ox drag_oy].
  cbv zeta.
  set (q0 := set_drag _ q).
  set (w2 := set_panel (Some q0) w1).
  assert (Hq0 : panel w2 = Some q0) by reflexivity.
  assert (Hbox2 : getBoundingClientRect w2 q0 = moved)
    by (rewrite <- Hbox; apply box_same; reflexivity).
  destruct (clampIntoViewport_applies w2 q0 Hq0)
    as (q1 & Hq1 & Hl1 & Ht1 & Hw1 & Hh1 & Hst1).
  destruct (clampIntoViewport_frame w2 q0 Hq0)
    as (q1' & Hq1' & Hd1 & _ & Hr1 & _ & _ & _ & _ & Hsave).
  rewrite Hq1 in Hq1'. injection Hq1' as <-.
  destruct (clampIntoViewport_viewport w2) as (Hvw2 & Hvh2).
  rewrite Hbox2 in Hl1, Ht1, Hst1.
  assert (Hvw1 : innerWidth w2 = innerWidth w) by exact Hvw.
  assert (Hvh1 : innerHeight w2 = innerHeight w) by exact Hvh.
  rewrite Hvw1, Hvh1 in Hl1, Ht1, Hst1. fold final in Hl1, Ht1, Hst1.
  unfold update_panel. rewrite Hq1.
  cbn [panel set_userSelectNone set_panel resize set_drag].
  rewrite Hr1. cbn [resize q0 set_drag]. rewrite Hrq.
  unfold panelBox.
  cbn [panel set_userSelectNone set_panel state localStorage].
  split.
  - f_equal.
    rewrite (box_moved w2 _ q0 _ (rect_left final) (rect_top final)).
    + rewrite Hbox2. reflexivity.
    + exact Hdq.
    + change (displayed q1 = true). rewrite Hd1. exact Hdq.
    + exact Hvw2.
    + exact Hvh2.
    + exact Hw1.
    + exact Hh1.
    + exact Hl1.
    + exact Ht1.
  - rewrite Hst1.
    split; [rewrite !field_set_key_other by discriminate; apply field_set_key_same|].
    split; [rewrite !field_set_key_other by discriminate; apply field_set_key_same|].
    split; [rewrite !field_set_key_other by discriminate; apply field_set_key_same|].
    split; [apply field_set_key_same|].
    split.
    + intros Hwr. rewrite <- Hst1. apply Hsave.
      unfold clampIntoViewport. rewrite Hq0. cbv zeta.
      unfold saveState. cbn [localStorage set_localStorage set_state set_panel].
      rewrite writable_save.
      change (writable (localStorage w1) = true). rewrite Hls. exact Hwr.
    + eexists. split; reflexivity.
Qed.

Lemma drag_release_pins_and_saves_witness :
  let w' := run typedWorld
              [HeaderDown (mkPointerEvent [] (mkPoint 1000 300));
               DocumentMove (mkPointerEvent [] (mkPoint 400 100));
               DocumentMove (mkPointerEvent [] (mkPoint 90 700));
               DocumentUp] in
  panelBox w' = Some (mkRect 8 272 360 520)
  /\ field "x" (state w') = VNum 8 /\ field "y" (state w') = VNum 272.
Proof.
  panel_of typedWorld p Hp.
  destruct (drag_release_pins_and_saves typedWorld p
              (mkPointerEvent [] (mkPoint 1000 300))
              [mkPointerEvent [] (mkPoint 400 100);
               mkPointerEvent [] (mkPoint 90 700)] Hp
              ltac:(vm_compute; reflexivity) ltac:(vm_compute; reflexivity))
    as (H1 & H2 & H3 & _).
  vm_compute in H1, H2, H3. vm_compute.
  split; [exact H1|]. split; [exact H2 | exact H3].
Defined.

Lemma resizeAt_start (e : pointerEvent) (w : world) (p : panelElem) :
  panel w = Some p -> displayed p = true -> drag_listening (drag p) = false ->
  let r := getBoundingClientRect w p in
  resizeAt (rect_width r) (rect_height r) (pt_x (getPoint e)) (pt_y (getPoint e))
           (width (style p)) (height (style p)) (left (style p)) (top (style p))
           (state w) (localStorage w) (innerWidth w) (innerHeight w)
           (step w (HandleDown e)).
Proof.
  intros Hp Hd Hl r. cbn [step]. unfold panelDisplayed. rewrite Hp, Hd.
  unfold resizeStart. rewrite Hp. cbv zeta.
  eexists. split; [reflexivity|]. split; [exact Hd|]. split; [reflexivity|].
  split; [exact Hl|]. repeat split.
Qed.

Lemma resizeAt_move (e : pointerEvent) (sw sh sx sy : Z) (wd ht x y : option Z)
      (st : list (string * value)) (ls : storage) (vw vh : Z) (w : world) :
  resizeAt sw sh sx sy wd ht x y st ls vw vh w ->
  resizeAt sw sh sx sy
           (Some (Z.max 300 (sw + (pt_x (getPoint e) - sx))))
           (Some (Z.max 380 (sh + (pt_y (getPoint e) - sy))))
           x y st ls vw vh (step w (DocumentMove e)).
Proof.
  intros (p & Hp & Hd & Hres & Hl & Hwd & Hht & Hx & Hy & Hst & Hls & Hvw & Hvh).
  cbn [step]. rewrite Hp, Hl, Hp, Hres. cbn [resize_listening].
  unfold resizeMove. rewrite Hp, Hres.
  cbn [resizing resize_sw resize_sh resize_sx resize_sy]. cbv zeta.
  assert (Hsize : forall a b s,
             set_size (Z.max 300 a) (Z.max 380 b) s
             = mkStyle (display s) (left s) (top s) (rightAuto s) (bottomAuto s)
                       (Some (Z.max 300 a)) (Some (Z.max 380 b))).
  { intros a b s. unfold set_size.
    destruct (Z.leb_spec 0 (Z.max 300 a)); [|lia].
    destruct (Z.leb_spec 0 (Z.max 380 b)); [|lia]. reflexivity. }
  rewrite Hsize.
  destruct (stickBottom (chat p));
    (eexists; split; [reflexivity|]; split; [exact Hd|]; split; [exact Hres|];
     split; [exact Hl|]; split; [reflexivity|]; split; [reflexivity|];
     split; [exact Hx|]; split; [exact Hy|]; repeat split; assumption).
Qed.

Lemma resizeAt_moves (moves : list pointerEvent) (cur : pointerEvent)
      (sw sh sx sy : Z) (x y : option Z)
      (st : list (string * value)) (ls : storage) (vw vh : Z) (w : world) :
  resizeAt sw sh sx sy
           (Some (Z.max 300 (sw + (pt_x (getPoint cur) - sx))))
           (Some (Z.max 380 (sh + (pt_y (getPoint cur) - sy))))
           x y st ls vw vh w ->
  resizeAt sw sh sx sy
           (Some (Z.max 300 (sw + (pt_x (getPoint (List.last moves cur)) - sx))))
           (Some (Z.max 380 (sh + (pt_y (getPoint (List.last moves cur)) - sy))))
           x y st ls vw vh (run w (map DocumentMove moves)).
Proof.
  revert cur w. induction moves as [|m moves IH]; intros cur w H; [exact H|].
  rewrite last_cons. cbn [map run fold_left].
  apply (IH m (step w (DocumentMove m))).
  apply (resizeAt_move m) in H. exact H.
Qed.

Lemma resizeAt_pressed (e m : pointerEvent) (moves : list pointerEvent)
      (w : world) (p : panelElem) :
  panel w = Some p -> displayed p = true -> drag_listening (drag p) = false ->
  let r := getBoundingClientRect w p in
  let d := lastPointer m moves in
  resizeAt (rect_width r) (rect_height r) (pt_x (getPoint e)) (pt_y (getPoint e))
           (Some (Z.max 300 (rect_width r + (pt_x (getPoint d) - pt_x (getPoint e)))))
           (Some (Z.max 380 (rect_height r + (pt_y (getPoint d) - pt_y (getPoint e)))))
           (left (style p)) (top (style p))
           (state w) (localStorage w) (innerWidth w) (innerHeight w)
           (run w (HandleDown e :: map DocumentMove (m :: moves))).
Proof.
  intros Hp Hd Hl r d. cbn [run fold_left map].
  apply (resizeAt_moves moves m).
  apply (resizeAt_move m _ _ _ _ (width (style p)) (height (style p))).
  exact (resizeAt_start e w p Hp Hd Hl).
Qed.

(** X14.  While the handle is dragged the panel is sized by the pointer:
    after a press on a displayed panel and at least one move, the inline
    width is the width of the box at the press plus the horizontal way
    from the press to the last move, and not below 300; the height
    likewise, not below 380.  The inline position is left alone, and
    nothing is put into [state] or into the storage before the release. *)
Theorem resize_follows_pointer (w : world) (p : panelElem) (press m : pointerEvent)
        (moves : list pointerEvent) :
  panel w = Some p -> displayed p = true -> drag_listening (drag p) = false ->
  let r := getBoundingClientRect w p in
  let d := lastPointer m moves in
  let w' := run w (HandleDown press :: map DocumentMove (m :: moves)) in
  exists p',
    panel w' = Some p'
    /\ width (style p')
       = Some (Z.max 300 (rect_width r + (pt_x (getPoint d) - pt_x (getPoint press))))
    /\ height (style p')
       = Some (Z.max 380 (rect_height r + (pt_y (getPoint d) - pt_y (getPoint press))))
    /\ left (style p') = left (style p) /\ top (style p') = top (style p)
    /\ state w' = state w /\ localStorage w' = localStorage w.
Proof.
  intros Hp Hd Hl r d w'.
  destruct (resizeAt_pressed press m moves w p Hp Hd Hl)
    as (q & Hq & _ & _ & _ & Hwd & Hht & Hx & Hy & Hst & Hls & _).
  exists q. repeat split; assumption.
Qed.

Lemma resize_follows_pointer_witness :
  exists p',
    panel (run typedWorld
             [HandleDown (mkPointerEvent [] (mkPoint 1250 770));
              DocumentMove (mkPointerEvent [] (mkPoint 1300 700));
              DocumentMove (mkPointerEvent [] (mkPoint 900 790))]) = Some p'
    /\ width (style p') = Some 300 /\ height (style p') = Some 540.
Proof.
  panel_of typedWorld p Hp.
  destruct (resize_follows_pointer typedWorld p
              (mkPointerEvent [] (mkPoint 1250 770))
              (mkPointerEvent [] (mkPoint 1300 700))
              [mkPointerEvent [] (mkPoint 900 790)] Hp
              ltac:(vm_compute; reflexivity) ltac:(vm_compute; reflexivity))
    as (p' & Hp' & Hw & Hh & _).
  exists p'. split; [exact Hp'|].
  vm_compute in Hw, Hh. split; [exact Hw | exact Hh].
Defined.

(** X15.  A whole resize of a displayed panel, from the press over at
    least one move to the release: the size the pointer gave is what
    [state] records, so the recorded width is at least 300 and the
    recorded height at least 380; the box is pinned into the viewport
    with that size, [state] holds its position, the storage (when it
    takes writes) the serialisation of that state, and the resize is
    over. *)
Theorem resize_release_records_size (w : world) (p : panelElem)
        (press m : pointerEvent) (moves : list pointerEvent) :
  panel w = Some p -> displayed p = true -> drag_listening (drag p) = false ->
  let r := getBoundingClientRect w p in
  let d := lastPointer m moves in
  let wd := Z.max 300 (rect_width r + (pt_x (getPoint d) - pt_x (getPoint press))) in
  let ht := Z.max 380 (rect_height r + (pt_y (getPoint d) - pt_y (getPoint press))) in
  let w1 := run w (HandleDown press :: map DocumentMove (m :: moves)) in
  let w' := step w1 DocumentUp in
  exists box,
    panelBox w1 = Some box
    /\ rect_width box = wd /\ rect_height box = ht
    /\ panelBox w' = Some (clampRect box (innerWidth w) (innerHeight w))
    /\ field "x" (state w') = VNum (clampX box (innerWidth w))
    /\ field "y" (state w') = VNum (clampY box (innerHeight w))
    /\ field "w" (state w') = VNum wd /\ field "h" (state w') = VNum ht
    /\ 300 <= wd /\ 380 <= ht
    /\ (writable (localStorage w) = true ->
        slot (localStorage w') = Some (JSON.stringify (VObj (state w'))))
    /\ exists p', panel w' = Some p' /\ resizing (resize p') = false.
Proof.
  intros Hp Hd Hl r d wd ht w1 w'.
  destruct (resizeAt_pressed press m moves w p Hp Hd Hl)
    as (q & Hq & Hdq & Hres & Hlq & Hwd & Hht & _ & _ & Hst & Hls & Hvw & Hvh).
  fold r d wd ht w1 in Hq, Hwd, Hht, Hst, Hls, Hvw, Hvh.
  exists (getBoundingClientRect w1 q).
  assert (Hbw : rect_width (getBoundingClientRect w1 q) = wd
                /\ rect_height (getBoundingClientRect w1 q) = ht).
  { unfold getBoundingClientRect. rewrite Hdq, Hwd, Hht. split; reflexivity. }
  destruct Hbw as (Hbw & Hbh).
  split; [unfold panelBox; rewrite Hq; reflexivity|].
  split; [exact Hbw|]. split; [exact Hbh|].
  subst w'. cbn [step]. rewrite Hq, Hlq, Hq, Hres. cbn [resize_listening].
  unfold resizeEnd. rewrite Hq, Hres.
  cbn [resizing resize_sw resize_sh resize_sx resize_sy]. cbv zeta.
  set (q0 := set_resize _ q).
  set (w2 := set_panel (Some q0) w1).
  assert (Hq0 : panel w2 = Some q0) by reflexivity.
  assert (Hbox2 : getBoundingClientRect w2 q0 = getBoundingClientRect w1 q)
    by (apply box_same; reflexivity).
  destruct (clampIntoViewport_applies w2 q0 Hq0)
    as (q1 & Hq1 & Hl1 & Ht1 & Hw1 & Hh1 & Hst1).
  destruct (clampIntoViewport_frame w2 q0 Hq0)
    as (q1' & Hq1' & Hd1 & _ & _ & _ & _ & _ & _ & Hsave).
  rewrite Hq1 in Hq1'. injection Hq1' as <-.
  destruct (clampIntoViewport_viewport w2) as (Hvw2 & Hvh2).
  rewrite Hbox2 in Hl1, Ht1, Hst1.
  assert (Hvw1 : innerWidth w2 = innerWidth w) by exact Hvw.
  assert (Hvh1 : innerHeight w2 = innerHeight w) by exact Hvh.
  rewrite Hvw1, Hvh1 in Hl1, Ht1, Hst1.
  unfold update_panel. rewrite Hq1.
  unfold panelBox. cbn [panel set_panel state localStorage].
  split.
  - f_equal.
    rewrite (box_moved w2 _ q0 _
               (clampX (getBoundingClientRect w1 q) (innerWidth w))
               (clampY (getBoundingClientRect w1 q) (innerHeight w))).
    + rewrite Hbox2. reflexivity.
    + exact Hdq.
    + change (displayed q1 = true). rewrite Hd1. exact Hdq.
    + exact Hvw2.
    + exact Hvh2.
    + exact Hw1.
    + exact Hh1.
    + exact Hl1.
    + exact Ht1.
  - rewrite Hst1. cbn [clampRect rect_left rect_top rect_width rect_height].
    rewrite Hbw, Hbh.
    split; [rewrite !field_set_key_other by discriminate; apply field_set_key_same|].
    split; [rewrite !field_set_key_other by discriminate; apply field_set_key_same|].
    split; [rewrite !field_set_key_other by discriminate; apply field_set_key_same|].
    split; [apply field_set_key_same|].
    split; [subst wd; lia|]. split; [subst ht; lia|].
    split.
    + intros Hwr.
      assert (E : state (clampIntoViewport w2)
                  = set_key "h" (VNum ht)
                      (set_key "w" (VNum wd)
                         (set_key "y" (VNum (clampY (getBoundingClientRect w1 q)
                                                    (innerHeight w)))
                            (set_key "x" (VNum (clampX (getBoundingClientRect w1 q)
                                                       (innerWidth w)))
                                     (state w2))))).
      { rewrite Hst1. cbn [clampRect rect_left rect_top rect_width rect_height].
        rewrite Hbw, Hbh. reflexivity. }
      rewrite <- E. apply Hsave.
      unfold clampIntoViewport. rewrite Hq0. cbv zeta.
      unfold saveState. cbn [localStorage set_localStorage set_state set_panel].
      rewrite writable_save.
      change (writable (localStorage w1) = true). rewrite Hls. exact Hwr.
    + eexists. split; reflexivity.
Qed.

Lemma resize_release_records_size_witness :
  let w' := run typedWorld
              [HandleDown (mkPointerEvent [] (mkPoint 1250 770));
               DocumentMove (mkPointerEvent [] (mkPoint 900 790));
               DocumentUp] in
  field "w" (state w') = VNum 300 /\ field "h" (state w') = VNum 540.
Proof.
  panel_of typedWorld p Hp.
  destruct (resize_release_records_size typedWorld p
              (mkPointerEvent [] (mkPoint 1250 770))
              (mkPointerEvent [] (mkPoint 900 790)) [] Hp
              ltac:(vm_compute; reflexivity) ltac:(vm_compute; reflexivity))
    as (box & _ & _ & _ & _ & _ & _ & Hw & Hh & _).
  vm_compute in Hw, Hh. vm_compute. split; [exact Hw | exact Hh].
Defined.

(* ------------------------------------------------------------------ *)
(** * What starts a send cycle and what does not *)

(** X16.  The Enter key does not look at the send button: on a displayed
    panel whose button is disabled (a request is being answered) a click
    on the button sends nothing and only takes the focus off the input,
    after which Enter reaches no listener; Enter in the focused input
    sends the trimmed text all the same, adding its two rows and one more
    request in flight. *)
Theorem enter_ignores_disabled_button (w : world) (p : panelElem) :
  panel w = Some p -> displayed p = true -> inputFocused w = true ->
  sendDisabled p = true -> trim (inputValue p) <> "" ->
  step w ClickSend = set_inputFocused false w
  /\ step (step w ClickSend) KeyEnter = step w ClickSend
  /\ logRows (step w KeyEnter)
     = (logRows w
        ++ [mkRow (nextId w) "bb-row you"
                  (rowMarkup "you"
                     (replaceNewlines (replaceMarkup (trim (inputValue p)))));
            mkRow (S (nextId w)) "bb-row bot" typingMarkup])%list
  /\ pending (step w KeyEnter) = (pending w ++ [S (nextId w)])%list.
Proof.
  intros Hp Hd Hf Hs Ht.
  assert (Hclick : step w ClickSend = set_inputFocused false w)
    by (cbn [step]; rewrite Hp, Hd, Hs; reflexivity).
  split; [exact Hclick|]. split.
  - rewrite Hclick. cbn [step inputFocused set_inputFocused].
    rewrite andb_false_r. reflexivity.
  - cbn [step]. unfold panelDisplayed. rewrite Hp, Hd, Hf. cbn [andb].
    destruct (onSendStart_log w p Hp Ht) as (L1 & _ & L3 & _).
    split; [exact L1|].
    unfold pending. rewrite L3, map_app. reflexivity.
Qed.

Lemma enter_ignores_disabled_button_witness :
  let w := run typedWorld [KeyEnter; TypeText "và sách thiếu nhi?"] in
  step w ClickSend = set_inputFocused false w
  /\ pending (step w KeyEnter) = [2; 4]%nat.
Proof.
  intros w.
  panel_of w p Hp.
  destruct (enter_ignores_disabled_button w p Hp
              ltac:(vm_compute; reflexivity) ltac:(vm_compute; reflexivity)
              ltac:(vm_compute; reflexivity) ltac:(vm_compute; discriminate))
    as (H1 & _ & _ & H3).
  split; [exact H1|]. rewrite H3. vm_compute. reflexivity.
Defined.

(** The white-space sequences are prefix free: one that starts a text is
    the one the text was built with. *)
Lemma find_whiteSpace (t rest : string) :
  In t whiteSpace ->
  find (fun ws => String.prefix ws (t ++ rest)) whiteSpace = Some t.
Proof.
  intros Hin. unfold whiteSpace in Hin. cbn [map bytes fold_right] in Hin.
  repeat (destruct Hin as [E|Hin]; [subst t; destruct rest; vm_compute; reflexivity|]).
  destruct Hin.
Qed.

Lemma whiteSpace_nonempty (t : string) : In t whiteSpace -> (1 <= String.length t)%nat.
Proof.
  intros Hin. unfold whiteSpace in Hin. cbn [map bytes fold_right] in Hin.
  repeat (destruct Hin as [E|Hin]; [subst t; vm_compute; lia|]).
  destruct Hin.
Qed.

Lemma dropLeading_blank (toks : list string) (fuel : nat) :
  Forall (fun t => In t whiteSpace) toks ->
  (List.length toks <= fuel)%nat ->
  dropLeading fuel whiteSpace (fold_right String.append "" toks) = "".
Proof.
  revert fuel. induction toks as [|t toks IH]; intros fuel Hall Hfuel.
  - destruct fuel; reflexivity.
  - inversion Hall as [|? ? Ht Htoks]; subst.
    destruct fuel as [|fuel]; [cbn [Datatypes.length] in Hfuel; lia|].
    cbn [fold_right dropLeading].
    rewrite (find_whiteSpace t _ Ht).
    unfold dropPrefix. rewrite substring_app.
    apply IH; [exact Htoks|]. cbn [Datatypes.length] in Hfuel. lia.
Qed.

Lemma blank_length (toks : list string) :
  Forall (fun t => In t whiteSpace) toks ->
  (List.length toks <= String.length (fold_right String.append "" toks))%nat.
Proof.
  induction 1 as [|t toks Ht _ IH]; [reflexivity|].
  cbn [fold_right Datatypes.length]. rewrite string_length_app.
  pose proof (whiteSpace_nonempty t Ht). lia.
Qed.

Lemma trim_blank (toks : list string) :
  Forall (fun t => In t whiteSpace) toks ->
  trim (fold_right String.append "" toks) = "".
Proof.
  intros Hall. unfold trim, trimStart.
  rewrite (dropLeading_blank toks _ Hall (blank_length toks Hall)).
  reflexivity.
Qed.

(** X17.  An input holding nothing but white space (spaces, tabs,
    no-break and other Unicode spaces, in any number and order) sends
    nothing: Enter leaves the page exactly as it is, and a click on the
    send button does nothing but take the focus off the input. *)
Theorem blank_input_sends_nothing (w : world) (p : panelElem) (toks : list string) :
  panel w = Some p ->
  Forall (fun t => In t whiteSpace) toks ->
  inputValue p = fold_right String.append "" toks ->
  step w KeyEnter = w
  /\ step w ClickSend = (if displayed p then set_inputFocused false w else w)
  /\ onSendStart w = (w, None).
Proof.
  intros Hp Hall Hin.
  assert (Hblank : forall w0, panel w0 = Some p -> onSendStart w0 = (w0, None)).
  { intros w0 Hp0. unfold onSendStart.
    rewrite Hp0, Hin, (trim_blank toks Hall). reflexivity. }
  cbn [step]. rewrite Hp, (Hblank w Hp). cbn [fst].
  split; [destruct (_ && _); reflexivity|].
  split; [|reflexivity].
  destruct (displayed p); [|reflexivity].
  destruct (sendDisabled p); [reflexivity|].
  rewrite (Hblank (set_inputFocused false w) Hp). reflexivity.
Qed.

Lemma blank_input_sends_nothing_witness :
  let w := run startedWorld
             [ClickFab; TypeText (" " ++ bytes [9; 194; 160; 227; 128; 128])] in
  step w KeyEnter = w /\ step w ClickSend = set_inputFocused false w.
Proof.
  intros w.
  panel_of w p Hp.
  assert (Hall : Forall (fun t => In t whiteSpace)
                        [" "; bytes [9]; bytes [194; 160]; bytes [227; 128; 128]])
    by (repeat (apply Forall_cons; [vm_compute; tauto|]); apply Forall_nil).
  assert (Hin : inputValue p
                = fold_right String.append ""
                    [" "; bytes [9]; bytes [194; 160]; bytes [227; 128; 128]])
    by (vm_compute; reflexivity).
  destruct (blank_input_sends_nothing w p _ Hp Hall Hin) as (H1 & H2 & _).
  split; [exact H1|]. rewrite H2. vm_compute. reflexivity.
Defined.

(* ------------------------------------------------------------------ *)
(** * Clamping twice *)

Lemma assign_key_noop (k : string) (v : value) (l : list (string * value)) :
  lookup k l = Some v -> assign_key k v l = l.
Proof.
  induction l as [|[k' v'] l IH]; cbn [lookup assign_key]; [discriminate|].
  destruct (String.eqb_spec k k') as [<-|_].
  - intros H. injection H as <-. reflexivity.
  - intros H. rewrite (IH H). reflexivity.
Qed.

Lemma set_key_noop (k : string) (v : value) (l : list (string * value)) :
  lookup k l = Some v -> set_key k v l = l.
Proof.
  intros H. unfold set_key, has_key. rewrite H. apply assign_key_noop, H.
Qed.

Lemma lookup_set_key_same (k : string) (v : value) (l : list (string * value)) :
  lookup k (set_key k v l) = Some v.
Proof.
  unfold set_key, has_key. destruct (lookup k l) eqn:E.
  - apply lookup_assign_key_same.
  - apply lookup_insert_key_same, E.
Qed.

Lemma lookup_set_key_other (k k0 : string) (v : value) (l : list (string * value)) :
  k0 <> k -> lookup k0 (set_key k v l) = lookup k0 l.
Proof.
  intros Hne. unfold set_key. destruct (has_key k l).
  - apply lookup_assign_key_other, Hne.
  - apply lookup_insert_key_other, Hne.
Qed.

Lemma save_twice (st : list (string * value)) (ls : storage) :
  save st (save st ls) = save st ls.
Proof.
  unfold save, setItem.
  destruct (writable ls) eqn:E; cbv beta iota; cbn [writable readable];
    rewrite ?E; reflexivity.
Qed.

Lemma clamp_twice (r : rect) (vw vh : Z) :
  clampX (clampRect r vw vh) vw = clampX r vw
  /\ clampY (clampRect r vw vh) vh = clampY r vh.
Proof.
  unfold clampRect, clampX, clampY.
  cbn [rect_left rect_top rect_width rect_height]. lia.
Qed.

(** X18.  Clamping is idempotent: [clampIntoViewport] run a second time
    changes nothing, neither the panel nor [state] nor the storage,
    whatever the viewport and whether or not the panel is displayed. *)
Theorem clampIntoViewport_idempotent (w : world) :
  clampIntoViewport (clampIntoViewport w) = clampIntoViewport w.
Proof.
  destruct (panel w) as [p|] eqn:Hp.
  2:{ unfold clampIntoViewport. rewrite Hp, Hp. reflexivity. }
  set (r := getBoundingClientRect w p).
  set (c := clampRect r (innerWidth w) (innerHeight w)).
  assert (E1 : clampIntoViewport w
               = saveState
                   (set_state
                      (set_key "h" (VNum (rect_height c))
                         (set_key "w" (VNum (rect_width c))
                            (set_key "y" (VNum (rect_top c))
                               (set_key "x" (VNum (rect_left c)) (state w)))))
                      (set_panel
                         (Some (set_style
                                  (set_position (rect_left c) (rect_top c) (style p)) p))
                         w))).
  { unfold clampIntoViewport. rewrite Hp. reflexivity. }
  set (st1 := set_key "h" (VNum (rect_height c))
                (set_key "w" (VNum (rect_width c))
                   (set_key "y" (VNum (rect_top c))
                      (set_key "x" (VNum (rect_left c)) (state w))))) in *.
  set (p1 := set_style (set_position (rect_left c) (rect_top c) (style p)) p) in *.
  rewrite E1.
  assert (Hbox : getBoundingClientRect
                   (saveState (set_state st1 (set_panel (Some p1) w))) p1
                 = if displayed p then c else mkRect 0 0 0 0).
  { unfold getBoundingClientRect, displayed.
    subst p1. cbn [style set_style set_position display left top width height
                   innerWidth innerHeight saveState set_state set_panel
                   set_localStorage].
    destruct (display (style p)) eqn:Ed; try reflexivity;
      subst c r; unfold clampRect, getBoundingClientRect, displayed;
      rewrite Ed; reflexivity. }
  unfold clampIntoViewport at 1.
  cbn [panel saveState set_state set_panel set_localStorage].
  cbv zeta.
  change (getBoundingClientRect _ p1)
    with (getBoundingClientRect (saveState (set_state st1 (set_panel (Some p1) w))) p1).
  rewrite Hbox.
  cbn [innerWidth innerHeight state localStorage saveState set_state set_panel
       set_localStorage style set_style].
  assert (Hc : (if displayed p then c else mkRect 0 0 0 0)
               = mkRect (rect_left (if displayed p then c else mkRect 0 0 0 0))
                        (rect_top (if displayed p then c else mkRect 0 0 0 0))
                        (rect_width c) (rect_height c)).
  { destruct (displayed p) eqn:Ed; [destruct c; reflexivity|].
    subst c r. unfold clampRect, getBoundingClientRect. rewrite Ed. reflexivity. }
  assert (Hx : clampX (if displayed p then c else mkRect 0 0 0 0) (innerWidth w)
               = rect_left c
               /\ clampY (if displayed p then c else mkRect 0 0 0 0) (innerHeight w)
                  = rect_top c).
  { destruct (displayed p) eqn:Ed.
    - subst c. apply clamp_twice.
    - subst c r. unfold clampRect, getBoundingClientRect. rewrite Ed. split; reflexivity. }
  destruct Hx as (Hx & Hy). rewrite Hx, Hy.
  assert (Hwh : rect_width (if displayed p then c else mkRect 0 0 0 0) = rect_width c
                /\ rect_height (if displayed p then c else mkRect 0 0 0 0)
                   = rect_height c).
  { rewrite Hc. split; reflexivity. }
  destruct Hwh as (Hw' & Hh'). rewrite Hw', Hh'.
  assert (Hst : set_key "h" (VNum (rect_height c))
                  (set_key "w" (VNum (rect_width c))
                     (set_key "y" (VNum (rect_top c))
                        (set_key "x" (VNum (rect_left c)) st1))) = st1).
  { assert (Lx : lookup "x" st1 = Some (VNum (rect_left c))).
    { subst st1. rewrite !lookup_set_key_other by discriminate.
      apply lookup_set_key_same. }
    assert (Ly : lookup "y" st1 = Some (VNum (rect_top c))).
    { subst st1. rewrite !lookup_set_key_other by discriminate.
      apply lookup_set_key_same. }
    assert (Lw : lookup "w" st1 = Some (VNum (rect_width c))).
    { subst st1. rewrite !lookup_set_key_other by discriminate.
      apply lookup_set_key_same. }
    assert (Lh : lookup "h" st1 = Some (VNum (rect_height c))).
    { subst st1. apply lookup_set_key_same. }
    rewrite (set_key_noop "x" _ st1 Lx), (set_key_noop "y" _ st1 Ly),
      (set_key_noop "w" _ st1 Lw), (set_key_noop "h" _ st1 Lh). reflexivity. }
  rewrite Hst.
  unfold saveState, set_localStorage, set_state, set_panel.
  cbn [innerWidth innerHeight localStorage state panel fab inputFocused rafQueue
       userSelectNone logClientHeight logMeasure inflight].
  rewrite save_twice.
  subst p1. unfold set_style, set_position.
  cbn [style display left top rightAuto bottomAuto width height chat inputValue
       sendDisabled drag resize].
  reflexivity.
Qed.

(* ------------------------------------------------------------------ *)
(** * The request body *)

Section Body.

Import JSON.

(** Every character is read back from what [quoteChar] writes for it. *)
Lemma parseChars_quoteChar (c : ascii) (fuel : nat) (tail : string) :
  parseChars (S fuel) (quoteChar c ++ tail)
  = match parseChars fuel tail with
    | Parsed y rest => Parsed (String c y) rest
    | SyntaxError => SyntaxError
    | Unsupported => Unsupported
    end.
Proof.
  destruct c as [[] [] [] [] [] [] [] []];
    match goal with
    | |- context [quoteChar ?c] =>
        let v := eval vm_compute in (quoteChar c) in
        change (quoteChar c) with v
    end;
    cbn [String.append]; cbn; reflexivity.
Qed.

Lemma parseChars_quoted (s : string) (fuel : nat) (tail : string) :
  (String.length s < fuel)%nat ->
  parseChars fuel (quoteChars s ++ String "034" tail) = Parsed s tail.
Proof.
  revert fuel. induction s as [|c s IH]; intros fuel Hfuel.
  - destruct fuel; [cbn in Hfuel; lia | reflexivity].
  - destruct fuel; [cbn in Hfuel; lia|].
    cbn [quoteChars]. rewrite string_app_assoc, parseChars_quoteChar, IH;
      [reflexivity | cbn in Hfuel; lia].
Qed.

Lemma quoteChars_length (s : string) :
  (String.length s <= String.length (quoteChars s))%nat.
Proof.
  induction s as [|c s IH]; [reflexivity|].
  cbn [quoteChars]. rewrite string_length_app. cbn [String.length].
  assert (H : (1 <= String.length (quoteChar c))%nat).
  { destruct c as [[] [] [] [] [] [] [] []]; vm_compute; lia. }
  lia.
Qed.

Lemma serialize_message (text : string) :
  serialize (VObj [("message", VStr text)])
  = String "{" (String "034"
      ("message" ++ String "034"
         (String ":" (String "034" (quoteChars text ++ String "034" "}"))))).
Proof.
  cbn [serialize is_undefined join]. unfold quote.
  change (quoteChars "message") with "message".
  rewrite !string_app_assoc. reflexivity.
Qed.

Lemma parse_message (text : string) :
  parse (stringify (VObj [("message", VStr text)]))
  = Parsed (VObj [("message", VStr text)]) "".
Proof.
  change (stringify (VObj [("message", VStr text)]))
    with (serialize (VObj [("message", VStr text)])).
  unfold parse. rewrite serialize_message.
  set (body := quoteChars text ++ String "034" "}").
  assert (Hlen : exists fuel,
             (2 * String.length
                    (String "{" (String "034"
                       ("message" ++ String "034" (String ":" (String "034" body)))))
              + 2)%nat = S (S (S fuel))
             /\ (String.length text < fuel)%nat /\ (7 < S fuel)%nat).
  { pose proof (quoteChars_length text) as Hq.
    assert (Hb : String.length body = (String.length (quoteChars text) + 2)%nat)
      by (subst body; rewrite string_length_app; reflexivity).
    cbn [String.length String.append]. rewrite Hb.
    eexists (2 * String.length (quoteChars text) + 27)%nat. split; [lia|]. lia. }
  destruct Hlen as (fuel & -> & Hfuel & H7).
  remember (S fuel) as f2 eqn:Hf2.
  cbn [parseValue skipSpace].
  change (isSpace "{") with false. cbv beta iota.
  change (Ascii.eqb "{" "n") with false. change (Ascii.eqb "{" "t") with false.
  change (Ascii.eqb "{" "f") with false. change (Ascii.eqb "{" "034") with false.
  change (Ascii.eqb "{" "[") with false. change (Ascii.eqb "{" "{") with true.
  cbv beta iota.
  change (isSpace "034") with false. cbv beta iota.
  change (Ascii.eqb "034" "}") with false. cbv beta iota.
  cbn [parseMembers skipSpace].
  change (isSpace "034") with false. cbv beta iota.
  change (Ascii.eqb "034" "034") with true. cbv beta iota.
  rewrite (parseChars_plain "message" f2) by (try reflexivity; exact H7).
  cbn [skipSpace]. change (isSpace ":") with false. cbv beta iota.
  change (Ascii.eqb ":" ":") with true. cbv beta iota.
  subst f2. cbn [parseValue skipSpace].
  change (isSpace "034") with false. cbv beta iota.
  change (Ascii.eqb "034" "n") with false. change (Ascii.eqb "034" "t") with false.
  change (Ascii.eqb "034" "f") with false.
  change (Ascii.eqb "034" "034") with true. cbv beta iota.
  subst body. rewrite (parseChars_quoted text fuel "}" Hfuel).
  reflexivity.
Qed.

End Body.

(** X19.  The body of the request reads back as what was sent: for every
    text, parsing [JSON.stringify({message: text})] gives an object with
    the one member [message], holding exactly that text, quotes,
    backslashes, control characters and non-ASCII bytes included; and the
    body [onSend] hands to [fetch] is that serialisation of the trimmed
    input. *)
Theorem request_body_roundtrip (w : world) (p : panelElem) :
  panel w = Some p -> trim (inputValue p) <> "" ->
  exists body,
    snd (onSendStart w) = Some (S (nextId w))
    /\ inflight (fst (onSendStart w)) = (inflight w ++ [(S (nextId w), body)])%list
    /\ JSON.parse body
       = JSON.Parsed (VObj [("message", VStr (trim (inputValue p)))]) "".
Proof.
  intros Hp Ht.
  destruct (onSendStart_log w p Hp Ht) as (_ & _ & L3 & _).
  exists (JSON.stringify (VObj [("message", VStr (trim (inputValue p)))])).
  split; [|split; [exact L3 | apply parse_message]].
  unfold onSendStart, nextId. rewrite Hp.
  destruct (String.eqb_spec (trim (inputValue p)) "") as [E|_]; [contradiction|].
  destruct (showTyping_rows (appendYou (trim (inputValue p)) (chat p)))
    as (S1 & _ & _).
  destruct (showTyping (appendYou (trim (inputValue p)) (chat p))) as [ty t2].
  cbn [fst snd] in *.
  destruct (append_rows "you"
              (replaceNewlines (replaceMarkup (trim (inputValue p)))) (chat p))
    as (_ & A2 & _).
  unfold appendYou in S1. rewrite A2 in S1. subst ty. reflexivity.
Qed.

Lemma request_body_roundtrip_witness :
  exists body,
    inflight (fst (onSendStart typedWorld)) = [(2%nat, body)]
    /\ JSON.parse body
       = JSON.Parsed (VObj [("message", VStr "gợi ý sách trinh thám ngắn")]) "".
Proof.
  panel_of typedWorld p Hp.
  destruct (request_body_roundtrip typedWorld p Hp
              ltac:(vm_compute; discriminate)) as (body & _ & Hin & Hparse).
  exists body. split.
  - rewrite Hin. vm_compute. reflexivity.
  - rewrite Hparse. vm_compute. reflexivity.
Defined.

(* ------------------------------------------------------------------ *)
(** * What a reload finds *)

Lemma lookup_app (k : string) (a b : list (string * value)) :
  lookup k (a ++ b)%list
  = match lookup k a with Some v => Some v | None => lookup k b end.
Proof.
  induction a as [|[k' v'] a IH]; [reflexivity|].
  cbn [app lookup]. destruct (String.eqb k k'); [reflexivity | exact IH].
Qed.

(** [Object.assign] key by key: the last entry of the source under a key
    wins; a key the source does not have keeps the value of the target. *)
Lemma Object_assign_field (fields target : list (string * value)) (k : string) :
  k <> "__proto__" ->
  field k (Object_assign target (VObj fields))
  = match lookup k (rev fields) with
    | Some v => v
    | None => field k target
    end.
Proof.
  intros Hk. unfold Object_assign. cbn [ownEntries].
  revert target. induction fields as [|[k' v'] l IH]; intros target; [reflexivity|].
  cbn [fold_left fst snd rev]. rewrite IH, lookup_app.
  destruct (lookup k (rev l)); [reflexivity|].
  cbn [lookup]. destruct (String.eqb_spec k k') as [<-|Hne].
  - destruct (String.eqb_spec k "__proto__") as [E|_]; [contradiction|].
    apply field_set_key_same.
  - destruct (String.eqb k' "__proto__"); [reflexivity|].
    apply field_set_key_other. exact Hne.
Qed.

(** X20.  What the start-up block makes of a stored object: every key of
    it other than [__proto__] is taken over into [state] with the stored
    value (the last one, should the key be repeated), whether or not
    [state] knows the key and whatever the type of the value; a key the
    stored object lacks keeps its default. *)
Theorem load_merges_stored (ls : storage) (text : string)
        (fields : list (string * value)) :
  readable ls = true -> slot ls = Some text -> text <> "" ->
  JSON.parse text = JSON.Parsed (VObj fields) "" ->
  exists st,
    load ls = Some st
    /\ forall k, k <> "__proto__" ->
                 field k st = match lookup k (rev fields) with
                              | Some v => v
                              | None => field k defaults
                              end.
Proof.
  intros Hr Hs Ht Hp. apply String.eqb_neq in Ht.
  exists (Object_assign defaults (VObj fields)). split.
  - unfold load, getItem. rewrite Hr, Hs, Ht, Hp. reflexivity.
  - intros k Hk. apply Object_assign_field, Hk.
Qed.

Lemma load_merges_stored_witness :
  let text := "{" ++ dq ++ "w" ++ dq ++ ":" ++ dq ++ "wide" ++ dq ++ ","
              ++ dq ++ "theme" ++ dq ++ ":7}" in
  exists st,
    load (mkStorage (Some text) true true) = Some st
    /\ field "w" st = VStr "wide" /\ field "theme" st = VNum 7
    /\ field "h" st = VNum 520.
Proof.
  intros text.
  destruct (load_merges_stored (mkStorage (Some text) true true) text
              [("w", VStr "wide"); ("theme", VNum 7)])
    as (st & Hload & Hfield).
  - reflexivity.
  - reflexivity.
  - discriminate.
  - vm_compute. reflexivity.
  - exists st. split; [exact Hload|].
    split; [apply (Hfield "w"); discriminate|].
    split; [apply (Hfield "theme"); discriminate|].
    apply (Hfield "h"). discriminate.
Defined.

Lemma init_restores (open : bool) (x y : option Z) (wd ht : Z) (w0 : world) :
  panel w0 = None -> fab w0 = None ->
  state w0 = panelState open x y wd ht -> 0 <= wd -> 0 <= ht ->
  exists w' p',
    init w0 = Some w' /\ panel w' = Some p'
    /\ displayed p' = open
    /\ width (style p') = Some (if wd =? 0 then 360 else wd)
    /\ height (style p') = Some (if ht =? 0 then 520 else ht)
    /\ left (style p') = match x, y with Some a, Some _ => Some a | _, _ => None end
    /\ top (style p') = match x, y with Some _, Some b => Some b | _, _ => None end
    /\ state w' = state w0
    /\ localStorage w' = save (state w0) (localStorage w0)
    /\ rows (log (chat p')) = [mkRow O "bb-row bot" (rowMarkup "bot" greeting)]
    /\ inflight w' = inflight w0.
Proof.
  intros Hp Hf Hst Hwd Hht.
  assert (Fw : field "w" (state w0) = VNum wd) by (rewrite Hst; reflexivity).
  assert (Fh : field "h" (state w0) = VNum ht) by (rewrite Hst; reflexivity).
  assert (Fx : field "x" (state w0) = optNum x) by (rewrite Hst; reflexivity).
  assert (Fy : field "y" (state w0) = optNum y) by (rewrite Hst; reflexivity).
  assert (Fo : field "open" (state w0) = VBool open) by (rewrite Hst; reflexivity).
  assert (Lo : lookup "open" (state w0) = Some (VBool open))
    by (rewrite Hst; reflexivity).
  set (wd' := if wd =? 0 then 360 else wd).
  set (ht' := if ht =? 0 then 520 else ht).
  set (s := mkStyle DisplayDefault
                    match x, y with Some a, Some _ => Some a | _, _ => None end
                    match x, y with Some _, Some b => Some b | _, _ => None end
                    match x, y with Some _, Some _ => true | _, _ => false end
                    match x, y with Some _, Some _ => true | _, _ => false end
                    (Some wd') (Some ht')).
  unfold init.
  set (p := mkPanel s
              (appendBot greeting
                 (mkTranscript (mkLog [] 0 (logClientHeight w0) (logMeasure w0) true)
                               true O))
              "" false (mkDrag false 0 0 0 0 false) (mkResize false 0 0 0 0 false)).
  assert (Hfab : makeFab w0 = set_fab (Some DisplayDefault) w0)
    by (unfold makeFab; rewrite Hf; reflexivity).
  rewrite Hfab in *.
  assert (Hmk : makePanel (set_fab (Some DisplayDefault) w0)
                = Some (requestScrollToBottom
                          (set_panel (Some p) (set_fab (Some DisplayDefault) w0)))).
  { unfold makePanel.
    cbn [panel set_fab state logClientHeight logMeasure]. rewrite Hp, Fw, Fh, Fx, Fy.
    unfold or_else. cbn [truthy].
    assert (E1 : px (if negb (wd =? 0) then VNum wd else VNum 360) = Some wd')
      by (subst wd'; destruct (wd =? 0); reflexivity).
    assert (E2 : px (if negb (ht =? 0) then VNum ht else VNum 520) = Some ht')
      by (subst ht'; destruct (ht =? 0); reflexivity).
    rewrite E1, E2.
    assert (P1 : (0 <=? wd') = true)
      by (subst wd'; destruct (wd =? 0); apply Z.leb_le; lia).
    assert (P2 : (0 <=? ht') = true)
      by (subst ht'; destruct (ht =? 0); apply Z.leb_le; lia).
    unfold set_size. cbn [width height display left top rightAuto bottomAuto].
    rewrite P1, P2.
    subst p s. destruct x, y; reflexivity. }
  set (w1 := requestScrollToBottom
               (set_panel (Some p) (set_fab (Some DisplayDefault) w0))) in *.
  assert (Hrows : rows (log (chat p))
                  = [mkRow O "bb-row bot" (rowMarkup "bot" greeting)]).
  { subst p. cbn [chat].
    rewrite (proj1 (append_rows "bot" greeting _)). reflexivity. }
  rewrite Hmk.
  change (state w1) with (state w0). rewrite Fo. cbn [truthy].
  destruct open.
  - unfold openPanel.
    assert (Hmk1 : makePanel w1 = Some w1) by reflexivity.
    rewrite Hmk1. change (panel w1) with (Some p). cbv zeta.
    cbn [state set_panel]. change (state w1) with (state w0).
    rewrite (set_key_noop "open" (VBool true) (state w0) Lo).
    eexists. eexists. split; [reflexivity|].
    unfold requestScrollToBottom at 1. unfold focusInput.
    cbn [panel set_rafQueue set_fab saveState set_localStorage set_state set_panel fab].
    change (fab w1) with (Some DisplayDefault).
    cbn [panel set_fab set_panel set_inputFocused displayed style set_panelDisplay
         set_display display].
    split; [reflexivity|]. split; [reflexivity|]. split; [reflexivity|].
    split; [reflexivity|]. split; [reflexivity|]. split; [reflexivity|].
    split; [reflexivity|]. split; [reflexivity|].
    split; [exact Hrows | reflexivity].
  - unfold closePanel. cbv zeta. change (state w1) with (state w0).
    rewrite (set_key_noop "open" (VBool false) (state w0) Lo).
    cbn [panel saveState set_localStorage set_state].
    change (panel w1) with (Some p).
    cbn [fab set_inputFocused set_panel]. change (fab w1) with (Some DisplayDefault).
    eexists. eexists. split; [reflexivity|].
    cbn [panel set_fab set_panel set_inputFocused displayed style set_panelDisplay
         set_display display].
    split; [reflexivity|]. split; [reflexivity|]. split; [reflexivity|].
    split; [reflexivity|]. split; [reflexivity|]. split; [reflexivity|].
    split; [reflexivity|]. split; [reflexivity|].
    split; [exact Hrows | reflexivity].
Qed.

(** X21.  What a reload brings back.  Take a reachable world whose
    storage can be read and written and whose state is a well-typed
    record of numbers the codec holds exactly.  The script run anew on
    that storage, on any viewport, comes up with the same state and the
    same stored text; the panel is displayed exactly if it was open, has
    the recorded size (a recorded zero gives the default 360 or 520) and,
    when both coordinates are recorded, the recorded position.  The
    conversation is not brought back: the log holds the greeting alone
    and no request is in flight. *)
Theorem reload_restores_panel (w : world) (open : bool) (x y : option Z)
        (wd ht vw vh clientH : Z) (measure : list row -> Z) :
  reachable w ->
  readable (localStorage w) = true -> writable (localStorage w) = true ->
  state w = panelState open x y wd ht ->
  safeOpt x -> safeOpt y -> safeInteger wd -> safeInteger ht ->
  0 <= wd -> 0 <= ht ->
  exists w' p',
    boot vw vh (localStorage w) clientH measure = Some w'
    /\ panel w' = Some p'
    /\ displayed p' = open
    /\ width (style p') = Some (if wd =? 0 then 360 else wd)
    /\ height (style p') = Some (if ht =? 0 then 520 else ht)
    /\ left (style p') = match x, y with Some a, Some _ => Some a | _, _ => None end
    /\ top (style p') = match x, y with Some _, Some b => Some b | _, _ => None end
    /\ state w' = state w
    /\ localStorage w' = localStorage w
    /\ logRows w' = [mkRow O "bb-row bot" (rowMarkup "bot" greeting)]
    /\ inflight w' = [].
Proof.
  intros Hreach Hr Hw Hst Hx Hy Hswd Hsht Hwd Hht.
  destruct (reachable_coherent w Hreach) as (_ & _ & _ & _ & Hslot & _).
  specialize (Hslot Hw). rewrite Hst in Hslot.
  assert (Hload : load (localStorage w) = Some (panelState open x y wd ht)).
  { unfold load, getItem. rewrite Hr, Hslot.
    rewrite stringify_object_nonempty, parse_panelState by assumption.
    reflexivity. }
  unfold boot. rewrite Hload.
  set (w0 := mkWorld vw vh (localStorage w) (panelState open x y wd ht)
                     None None false O false clientH measure []).
  destruct (init_restores open x y wd ht w0 eq_refl eq_refl eq_refl Hwd Hht)
    as (w' & p' & Hinit & Hp' & H1 & H2 & H3 & H4 & H5 & H6 & H7 & H8 & H9).
  exists w', p'. split; [exact Hinit|]. split; [exact Hp'|].
  split; [exact H1|]. split; [exact H2|]. split; [exact H3|].
  split; [exact H4|]. split; [exact H5|].
  split; [rewrite H6, Hst; reflexivity|].
  split.
  - rewrite H7. cbn [state localStorage w0].
    unfold save, setItem. rewrite Hw. clear - Hw Hslot.
    destruct (localStorage w) as [sl rd wr]. cbn [slot readable writable] in *.
    subst sl wr. reflexivity.
  - split; [unfold logRows; rewrite Hp'; exact H8 | exact H9].
Qed.

Lemma reload_restores_panel_witness :
  let w := run typedWorld
             [HeaderDown (mkPointerEvent [] (mkPoint 1000 300));
              DocumentMove (mkPointerEvent [] (mkPoint 400 100));
              DocumentUp; KeyEnter] in
  exists w' p',
    boot 1024 768 (localStorage w) 300 (fun _ => 0) = Some w'
    /\ panel w' = Some p'
    /\ displayed p' = true
    /\ left (style p') = Some 298 /\ top (style p') = Some 58
    /\ logRows w' = [mkRow O "bb-row bot" (rowMarkup "bot" greeting)].
Proof.
  intros w.
  destruct (reload_restores_panel w true (Some 298) (Some 58) 360 520
              1024 768 300 (fun _ => 0)
              (reachable_run _ _ reachable_typedWorld)
              ltac:(vm_compute; reflexivity) ltac:(vm_compute; reflexivity)
              ltac:(vm_compute; reflexivity)
              ltac:(vm_compute; split; discriminate)
              ltac:(vm_compute; split; discriminate)
              ltac:(vm_compute; split; discriminate)
              ltac:(vm_compute; split; discriminate)
              ltac:(vm_compute; discriminate) ltac:(vm_compute; discriminate))
    as (w' & p' & H0 & H1 & H2 & _ & _ & H5 & H6 & _ & _ & H9 & _).
  exists w', p'. repeat split; assumption.
Defined.

(* ------------------------------------------------------------------ *)
(** * The send button *)

Lemma buttonIs_same (b : bool) (w w' : world) :
  panel w' = panel w -> buttonIs b w -> buttonIs b w'.
Proof. intros E (p & Hp & Hb). exists p. rewrite E. split; assumption. Qed.

Lemma buttonIs_update (b : bool) (f : panelElem -> panelElem) (w : world) :
  (forall p, sendDisabled (f p) = sendDisabled p) ->
  buttonIs b w -> buttonIs b (update_panel f w).
Proof.
  intros Hf (p & Hp & Hb). unfold update_panel. rewrite Hp.
  exists (f p). split; [reflexivity|]. rewrite Hf. exact Hb.
Qed.

Lemma buttonIs_focusInput (b : bool) (w : world) :
  buttonIs b w -> buttonIs b (focusInput w).
Proof.
  intros H. unfold focusInput. destruct (panel w) as [p|]; [|exact H].
  destruct (displayed p); [|exact H]. apply (buttonIs_same b w); [reflexivity|exact H].
Qed.

Lemma buttonIs_openPanel (b : bool) (w w' : world) :
  buttonIs b w -> openPanel w = Some w' -> buttonIs b w'.
Proof.
  intros (p & Hp & Hb) H. unfold openPanel, makePanel in H.
  rewrite Hp in H. rewrite Hp in H. injection H as <-. cbv zeta.
  unfold requestScrollToBottom.
  match goal with
  | |- buttonIs b (set_rafQueue ?n (focusInput ?x)) =>
      apply (buttonIs_same b (focusInput x)); [reflexivity|];
      apply buttonIs_focusInput
  end.
  destruct (fab _); (eexists; split; [reflexivity | exact Hb]).
Qed.

Lemma buttonIs_closePanel (b : bool) (w : world) :
  buttonIs b w -> buttonIs b (closePanel w).
Proof.
  intros (p & Hp & Hb). unfold closePanel. cbv zeta.
  cbn [panel saveState set_state set_localStorage]. rewrite Hp.
  destruct (fab _); (eexists; split; [reflexivity | exact Hb]).
Qed.

Lemma buttonIs_setPosition (b : bool) (x y : Z) (w : world) :
  buttonIs b w -> buttonIs b (setPosition x y w).
Proof.
  intros (p & Hp & Hb). unfold setPosition. rewrite Hp.
  eexists. split; [reflexivity | exact Hb].
Qed.

Lemma buttonIs_clampIntoViewport (b : bool) (w : world) :
  buttonIs b w -> buttonIs b (clampIntoViewport w).
Proof.
  intros (p & Hp & Hb). unfold clampIntoViewport. rewrite Hp.
  eexists. split; [reflexivity | exact Hb].
Qed.

Lemma buttonIs_gestures (b : bool) (e : pointerEvent) (w : world) :
  buttonIs b w ->
  buttonIs b (dragStart e w) /\ buttonIs b (dragMove e w) /\ buttonIs b (dragEnd w)
  /\ buttonIs b (resizeStart e w) /\ buttonIs b (resizeMove e w)
  /\ buttonIs b (resizeEnd w).
Proof.
  intros H. pose proof H as (p & Hp & Hb).
  unfold dragStart, dragMove, dragEnd, resizeStart, resizeMove, resizeEnd.
  rewrite Hp. cbv zeta.
  split; [|split; [|split; [|split; [|split]]]].
  - eexists. split; [reflexivity | exact Hb].
  - destruct (dragging (drag p)); [|exact H].
    eexists. split; [reflexivity | exact Hb].
  - destruct (dragging (drag p)); [|exact H].
    match goal with
    | |- buttonIs b (set_userSelectNone _ ?x) =>
        apply (buttonIs_same b x); [reflexivity|]
    end.
    apply buttonIs_update; [reflexivity|].
    apply buttonIs_clampIntoViewport.
    eexists. split; [reflexivity | exact Hb].
  - eexists. split; [reflexivity | exact Hb].
  - destruct (resizing (resize p)); [|exact H].
    destruct (stickBottom (chat p)); (eexists; split; [reflexivity | exact Hb]).
  - destruct (resizing (resize p)); [|exact H].
    apply buttonIs_update; [reflexivity|].
    apply buttonIs_clampIntoViewport.
    eexists. split; [reflexivity | exact Hb].
Qed.

(** Outside a send cycle nothing enables or disables the send button. *)
Lemma step_keeps_button (b : bool) (w : world) (ev : event) :
  sendEvent ev = false -> buttonIs b w -> buttonIs b (step w ev).
Proof.
  intros Hev H. pose proof H as (p & Hp & Hb).
  destruct ev; try discriminate Hev; cbn [step].
  - destruct (openPanel w) eqn:E; cbn [orSame]; [|exact H].
    apply (buttonIs_openPanel b w); assumption.
  - apply buttonIs_closePanel, H.
  - apply buttonIs_setPosition, H.
  - destruct (fab w) as [[]|]; try exact H;
      (destruct (openPanel w) eqn:E; cbn [orSame]; [|exact H];
       apply (buttonIs_openPanel b w); assumption).
  - destruct (panelDisplayed w); [apply buttonIs_closePanel|]; exact H.
  - destruct (panelDisplayed w && inputFocused w); [apply buttonIs_closePanel|]; exact H.
  - destruct (panelDisplayed w && inputFocused w); [|exact H].
    apply buttonIs_update; [reflexivity | exact H].
  - destruct (panelDisplayed w); [|exact H].
    assert (H1 : buttonIs b (dragStart e w)) by (apply buttonIs_gestures, H).
    destruct (touches e); [|exact H1].
    apply (buttonIs_same b (dragStart e w)); [reflexivity | exact H1].
  - destruct (panelDisplayed w); [|exact H]. apply buttonIs_gestures, H.
  - set (w1 := match panel w with
               | Some p => if drag_listening (drag p) then dragMove e w else w
               | None => w
               end).
    assert (H1 : buttonIs b w1).
    { subst w1. rewrite Hp. destruct (drag_listening (drag p));
        [apply buttonIs_gestures|]; exact H. }
    destruct (panel w1) as [p1|]; [|exact H1].
    destruct (resize_listening (resize p1)); [apply buttonIs_gestures|]; exact H1.
  - set (w1 := match panel w with
               | Some p => if drag_listening (drag p) then dragEnd w else w
               | None => w
               end).
    assert (H1 : buttonIs b w1).
    { subst w1. rewrite Hp. destruct (drag_listening (drag p));
        [apply (buttonIs_gestures b (mkPointerEvent [] (mkPoint 0 0)))|]; exact H. }
    destruct (panel w1) as [p1|]; [|exact H1].
    destruct (resize_listening (resize p1));
      [apply (buttonIs_gestures b (mkPointerEvent [] (mkPoint 0 0)))|]; exact H1.
  - destruct (panelDisplayed w); [|exact H].
    apply buttonIs_update; [reflexivity | exact H].
  - match goal with
    | |- buttonIs b (set_rafQueue O ?x) =>
        apply (buttonIs_same b x); [reflexivity|]
    end.
    destruct (0 <? rafQueue w)%nat; [|exact H].
    apply buttonIs_update; [reflexivity | exact H].
  - apply (buttonIs_same b w); [reflexivity | exact H].
  - apply buttonIs_update; [reflexivity | exact H].
  - apply buttonIs_focusInput, H.
Qed.

Lemma onSendSettle_button (typing : nat) (o : fetchOutcome) (w : world) (p : panelElem) :
  panel w = Some p -> buttonIs false (onSendSettle typing o w).
Proof.
  intros Hp. unfold onSendSettle. cbv zeta. cbn [panel set_inflight]. rewrite Hp.
  apply buttonIs_focusInput. eexists. split; reflexivity.
Qed.

Lemma buttonOK_onSendStart (w : world) : buttonOK w -> buttonOK (fst (onSendStart w)).
Proof.
  intros (p & Hp & Hok).
  destruct (String.eqb_spec (trim (inputValue p)) "") as [E|E].
  - unfold onSendStart. rewrite Hp, E. cbn [String.eqb fst].
    exists p; split; assumption.
  - destruct (onSendStart_log w p Hp E) as (_ & _ & L3 & p' & Hp' & _ & _).
    exists p'. split; [exact Hp'|]. intros _. rewrite L3.
    destruct (inflight w); discriminate.
Qed.

Lemma buttonOK_step (w : world) (ev : event) : buttonOK w -> buttonOK (step w ev).
Proof.
  intros H. pose proof H as (p & Hp & Hok).
  destruct (sendEvent ev) eqn:Hev.
  - destruct ev; try discriminate Hev; cbn [step].
    + destruct (panelDisplayed w && inputFocused w); [|exact H].
      apply buttonOK_onSendStart, H.
    + rewrite Hp. destruct (displayed p); [|exact H].
      assert (H1 : buttonOK (set_inputFocused false w))
        by (exists p; split; assumption).
      destruct (sendDisabled p); [exact H1|].
      apply buttonOK_onSendStart, H1.
    + destruct (existsb _ _); [|exact H].
      destruct (onSendSettle_button typing o w p Hp) as (p' & Hp' & Hb').
      exists p'. split; [exact Hp'|]. rewrite Hb'. discriminate.
  - destruct (step_keeps_log w p ev Hp Hev) as (_ & _ & E3).
    destruct (step_keeps_button (sendDisabled p) w ev Hev) as (p' & Hp' & Hb').
    + exists p. split; [exact Hp | reflexivity].
    + exists p'. split; [exact Hp'|]. rewrite Hb', E3. exact Hok.
Qed.

Lemma buttonOK_boot (vw vh : Z) (ls : storage) (clientH : Z)
      (measure : list row -> Z) (w : world) :
  boot vw vh ls clientH measure = Some w -> buttonOK w.
Proof.
  unfold boot. destruct (load ls) as [st|]; [|discriminate].
  unfold init. intros H.
  set (w0 := mkWorld vw vh ls st None None false O false clientH measure []) in *.
  destruct (makePanel (makeFab w0)) as [w1|] eqn:Hm; [|discriminate].
  destruct (makePanel_fresh (makeFab w0) w1 eq_refl Hm)
    as (p & Hp & _ & _ & _ & _ & _ & _ & Hsd & _).
  assert (H1 : buttonIs false w1) by (exists p; split; assumption).
  assert (H2 : buttonIs false w).
  { destruct (truthy _).
    - apply (buttonIs_openPanel false w1); assumption.
    - injection H as <-. apply buttonIs_closePanel, H1. }
  destruct H2 as (p' & Hp' & Hb'). exists p'. split; [exact Hp'|].
  rewrite Hb'. discriminate.
Qed.

(** X22.  The send button is never left disabled for nothing: on every
    reachable world a disabled button means that a request is in flight,
    whose settling enables the button again. *)
Theorem disabled_button_has_pending_request (w : world) (p : panelElem) :
  reachable w -> panel w = Some p -> sendDisabled p = true ->
  pending w <> []
  /\ forall typing o, In typing (pending w) ->
                      buttonIs false (step w (FetchSettled typing o)).
Proof.
  intros Hreach Hp Hb.
  assert (Hok : buttonOK w).
  { clear p Hp Hb. induction Hreach as [vw vh ls ch m w Hboot | w ev _ IH].
    - apply (buttonOK_boot vw vh ls ch m), Hboot.
    - apply buttonOK_step, IH. }
  destruct Hok as (p' & Hp' & Hok). rewrite Hp in Hp'. injection Hp' as <-.
  split.
  - unfold pending. specialize (Hok Hb). destruct (inflight w); [congruence|discriminate].
  - intros typing o Hin. cbn [step].
    rewrite (proj2 (existsb_pending typing w) Hin).
    apply (onSendSettle_button typing o w p Hp).
Qed.

Lemma disabled_button_has_pending_request_witness :
  pending (step typedWorld KeyEnter) <> [].
Proof.
  panel_of (step typedWorld KeyEnter) p Hp.
  apply (proj1 (disabled_button_has_pending_request (step typedWorld KeyEnter) p
                  (reach_step _ _ reachable_typedWorld) Hp
                  ltac:(vm_compute; reflexivity))).
Defined.


(* ------------------------------------------------------------------ *)
(** * Where the focus is *)

Lemma focusOK_same (w w' : world) :
  panel w' = panel w -> inputFocused w' = inputFocused w -> focusOK w -> focusOK w'.
Proof.
  intros E1 E2. unfold focusOK, panelDisplayed. rewrite E1, E2. exact (fun H => H).
Qed.

Lemma focusOK_blurred (w : world) : inputFocused w = false -> focusOK w.
Proof. intros E. unfold focusOK. rewrite E. discriminate. Qed.

Lemma focusOK_shown (w : world) : panelDisplayed w = true -> focusOK w.
Proof. intros E _. exact E. Qed.

Lemma focusOK_update (f : panelElem -> panelElem) (w : world) :
  (forall p, style (f p) = style p) -> focusOK w -> focusOK (update_panel f w).
Proof.
  intros Hf H. unfold focusOK, update_panel, panelDisplayed in *.
  destruct (panel w) as [p|] eqn:Hp; [|rewrite Hp; exact H].
  cbn [panel set_panel inputFocused]. unfold displayed in *. rewrite Hf. exact H.
Qed.

Lemma focusOK_focusInput (w : world) : focusOK w -> focusOK (focusInput w).
Proof.
  intros H. unfold focusInput. destruct (panel w) as [p|] eqn:Hp; [|exact H].
  destruct (displayed p) eqn:Hd; [|exact H].
  apply focusOK_shown. unfold panelDisplayed. cbn [panel set_inputFocused].
  rewrite Hp. exact Hd.
Qed.

Lemma focusOK_closePanel (w : world) : hasPanel w = true -> focusOK (closePanel w).
Proof.
  intros Hw. unfold hasPanel in Hw. destruct (panel w) as [p|] eqn:Hp; [|discriminate].
  apply focusOK_blurred. unfold closePanel. cbv zeta.
  cbn [panel saveState set_state set_localStorage]. rewrite Hp.
  destruct (fab _); reflexivity.
Qed.

Lemma focusOK_setPosition (x y : Z) (w : world) :
  focusOK w -> focusOK (setPosition x y w).
Proof.
  intros H. unfold setPosition. destruct (panel w) as [p|] eqn:Hp; [|exact H].
  unfold focusOK, panelDisplayed in *. rewrite Hp in H. exact H.
Qed.

Lemma focusOK_clampIntoViewport (w : world) :
  focusOK w -> focusOK (clampIntoViewport w).
Proof.
  intros H. unfold clampIntoViewport. destruct (panel w) as [p|] eqn:Hp; [|exact H].
  unfold focusOK, panelDisplayed in *. rewrite Hp in H. exact H.
Qed.

Lemma focusOK_gestures (e : pointerEvent) (w : world) :
  focusOK w ->
  focusOK (dragStart e w) /\ focusOK (dragMove e w) /\ focusOK (dragEnd w)
  /\ focusOK (resizeStart e w) /\ focusOK (resizeMove e w) /\ focusOK (resizeEnd w).
Proof.
  intros H.
  unfold dragStart, dragMove, dragEnd, resizeStart, resizeMove, resizeEnd.
  destruct (panel w) as [p|] eqn:Hp; [|repeat split; exact H].
  assert (Hset : forall q, style q = style p -> focusOK (set_panel (Some q) w)).
  { intros q Hq. unfold focusOK, panelDisplayed, displayed in *.
    cbn [panel set_panel inputFocused]. rewrite Hq. rewrite Hp in H. exact H. }
  assert (Hpos : forall q a b, style q = set_position a b (style p) ->
                               focusOK (set_panel (Some q) w)).
  { intros q a b Hq. unfold focusOK, panelDisplayed, displayed in *.
    cbn [panel set_panel inputFocused]. rewrite Hq. rewrite Hp in H. exact H. }
  assert (Hsize : forall q a b, style q = set_size a b (style p) ->
                                focusOK (set_panel (Some q) w)).
  { intros q a b Hq. unfold focusOK, panelDisplayed, displayed in *.
    cbn [panel set_panel inputFocused]. rewrite Hq. rewrite Hp in H. exact H. }
  cbv zeta.
  split; [|split; [|split; [|split; [|split]]]].
  - apply (focusOK_same (set_panel (Some (set_drag
             (mkDrag true (pt_x (getPoint e)) (pt_y (getPoint e))
                     (rect_left (getBoundingClientRect w p))
                     (rect_top (getBoundingClientRect w p)) true) p)) w));
      [reflexivity | reflexivity | apply Hset; reflexivity].
  - destruct (dragging (drag p)); [|exact H]. eapply Hpos. reflexivity.
  - destruct (dragging (drag p)); [|exact H].
    match goal with
    | |- focusOK (set_userSelectNone _ ?x) =>
        apply (focusOK_same x); [reflexivity | reflexivity |]
    end.
    apply focusOK_update; [reflexivity|].
    apply focusOK_clampIntoViewport, Hset. reflexivity.
  - apply Hset. reflexivity.
  - destruct (resizing (resize p)); [|exact H].
    destruct (stickBottom (chat p)).
    + unfold requestScrollToBottom.
      match goal with
      | |- focusOK (set_rafQueue _ ?x) =>
          apply (focusOK_same x); [reflexivity | reflexivity |]
      end.
      eapply Hsize. reflexivity.
    + eapply Hsize. reflexivity.
  - destruct (resizing (resize p)); [|exact H].
    apply focusOK_update; [reflexivity|].
    apply focusOK_clampIntoViewport, Hset. reflexivity.
Qed.

Lemma focusOK_onSendStart (w : world) : focusOK w -> focusOK (fst (onSendStart w)).
Proof.
  intros H. unfold onSendStart. destruct (panel w) as [p|] eqn:Hp; [|exact H].
  destruct (String.eqb _ _); [exact H|].
  destruct (showTyping _) as [ty t2]. cbn [fst].
  unfold focusOK, panelDisplayed in *. rewrite Hp in H. exact H.
Qed.

Lemma focusOK_onSendSettle (typing : nat) (o : fetchOutcome) (w : world) :
  focusOK w -> focusOK (onSendSettle typing o w).
Proof.
  intros H. unfold onSendSettle. cbv zeta. cbn [panel set_inflight].
  destruct (panel w) as [p|] eqn:Hp.
  - apply focusOK_focusInput.
    unfold focusOK, panelDisplayed in *. rewrite Hp in H. exact H.
  - unfold focusOK, panelDisplayed in *. cbn [panel set_inflight inputFocused].
    exact H.
Qed.

Lemma focusOK_openPanel (w w' : world) : openPanel w = Some w' -> focusOK w'.
Proof. intros H. apply focusOK_shown, (openPanel_displayed w), H. Qed.

Lemma focusOK_step (w : world) (ev : event) :
  hasPanel w = true -> focusOK w -> focusOK (step w ev).
Proof.
  intros Hw H.
  destruct ev; cbn [step].
  - destruct (openPanel w) eqn:E; cbn [orSame]; [|exact H].
    apply (focusOK_openPanel w), E.
  - apply focusOK_closePanel, Hw.
  - apply focusOK_setPosition, H.
  - destruct (fab w) as [[| |]|]; try exact H;
      (destruct (openPanel w) eqn:E; cbn [orSame]; [|exact H];
       apply (focusOK_openPanel w), E).
  - destruct (panelDisplayed w); [apply focusOK_closePanel, Hw | exact H].
  - destruct (panelDisplayed w && inputFocused w);
      [apply focusOK_closePanel, Hw | exact H].
  - destruct (panelDisplayed w && inputFocused w);
      [apply focusOK_onSendStart, H | exact H].
  - destruct (panel w) as [p|] eqn:Hp; [|exact H].
    destruct (displayed p); [|exact H].
    assert (H1 : focusOK (set_inputFocused false w))
      by (apply focusOK_blurred; reflexivity).
    destruct (sendDisabled p); [exact H1 | apply focusOK_onSendStart, H1].
  - destruct (panelDisplayed w && inputFocused w); [|exact H].
    apply focusOK_update; [reflexivity | exact H].
  - destruct (panelDisplayed w); [|exact H].
    assert (H1 : focusOK (dragStart e w)) by (apply focusOK_gestures, H).
    destruct (touches e); [|exact H1].
    apply focusOK_blurred. reflexivity.
  - destruct (panelDisplayed w); [|exact H]. apply focusOK_gestures, H.
  - set (w1 := match panel w with
               | Some p => if drag_listening (drag p) then dragMove e w else w
               | None => w
               end).
    assert (H1 : focusOK w1).
    { subst w1. destruct (panel w) as [p|]; [|exact H].
      destruct (drag_listening (drag p)); [apply focusOK_gestures|]; exact H. }
    destruct (panel w1) as [p1|]; [|exact H1].
    destruct (resize_listening (resize p1)); [apply focusOK_gestures|]; exact H1.
  - set (w1 := match panel w with
               | Some p => if drag_listening (drag p) then dragEnd w else w
               | None => w
               end).
    assert (H1 : focusOK w1).
    { subst w1. destruct (panel w) as [p|]; [|exact H].
      destruct (drag_listening (drag p));
        [apply (focusOK_gestures (mkPointerEvent [] (mkPoint 0 0)))|]; exact H. }
    destruct (panel w1) as [p1|]; [|exact H1].
    destruct (resize_listening (resize p1));
      [apply (focusOK_gestures (mkPointerEvent [] (mkPoint 0 0)))|]; exact H1.
  - destruct (panelDisplayed w); [|exact H].
    apply focusOK_update; [reflexivity | exact H].
  - match goal with
    | |- focusOK (set_rafQueue O ?x) =>
        apply (focusOK_same x); [reflexivity | reflexivity |]
    end.
    destruct (0 <? rafQueue w)%nat; [|exact H].
    apply focusOK_update; [reflexivity | exact H].
  - destruct (existsb _ _); [apply focusOK_onSendSettle|]; exact H.
  - apply (focusOK_same w); [reflexivity | reflexivity | exact H].
  - apply focusOK_update; [reflexivity | exact H].
  - apply focusOK_focusInput, H.
Qed.

Lemma focusOK_boot (vw vh : Z) (ls : storage) (clientH : Z)
      (measure : list row -> Z) (w : world) :
  boot vw vh ls clientH measure = Some w -> focusOK w.
Proof.
  unfold boot. destruct (load ls) as [st|]; [|discriminate].
  unfold init. intros H.
  destruct (makePanel _) as [w1|] eqn:Hm; [|discriminate].
  destruct (truthy _).
  - apply (focusOK_openPanel w1), H.
  - injection H as <-. apply focusOK_closePanel.
    exact (makePanel_hasPanel _ w1 Hm).
Qed.

Lemma reachable_focusOK (w : world) : reachable w -> focusOK w.
Proof.
  induction 1 as [vw vh ls ch m w Hb | w ev Hw IH].
  - apply (focusOK_boot vw vh ls ch m), Hb.
  - apply focusOK_step; [apply reachable_hasPanel, Hw | exact IH].
Qed.

(* ------------------------------------------------------------------ *)
(** * How a send cycle ends *)

(** C1, as the code has it.  A cycle started with non-empty trimmed text
    goes to [Sending] (send button disabled, typing row shown).  When its
    request settles, on whatever world the page has reached in the
    meantime and for every outcome of the network call (a rejected
    [fetch], a response of either status with a body that parses or not),
    the typing row is removed, the send button is enabled and the request
    is retired.  The input has the focus afterwards exactly when the panel
    is on screen at that moment: [input.focus()] on a hidden input does
    nothing.  So the cycle ends [Idle] if and only if the panel is
    displayed when the request settles. *)
Theorem onSend_ends_idle :
  (forall (w : world) (p : panelElem),
      panel w = Some p -> trim (inputValue p) <> "" ->
      let typing := S (next_id (chat p)) in
      exists w1,
        onSendStart w = (w1, Some typing)
        /\ Sending typing w1
        /\ forall o : fetchOutcome, onSend o w = onSendSettle typing o w1)
  /\ (forall (w : world) (typing : nat) (o : fetchOutcome),
         reachable w -> In typing (pending w) ->
         let w' := step w (FetchSettled typing o) in
         exists p',
           panel w' = Some p'
           /\ hasRow typing (chat p') = false
           /\ sendDisabled p' = false
           /\ ~ In typing (pending w')
           /\ panelDisplayed w' = panelDisplayed w
           /\ inputFocused w' = panelDisplayed w
           /\ (Idle typing w' <-> panelDisplayed w = true)).
Proof.
  split.
  - intros w p Hp Htext typing.
    apply String.eqb_neq in Htext.
    unfold onSend, onSendStart. rewrite Hp, Htext.
    destruct (showTyping (appendYou (trim (inputValue p)) (chat p)))
      as [ty t2] eqn:Hty.
    pose proof (showTyping_rows (appendYou (trim (inputValue p)) (chat p))) as Hs.
    rewrite Hty in Hs. cbn [fst snd] in Hs. destruct Hs as (Hid & Hrows & _).
    unfold appendYou in Hid.
    rewrite (proj1 (proj2 (append_rows _ _ _))) in Hid. subst ty.
    eexists. split; [reflexivity|]. split; [|reflexivity].
    eexists. split; [reflexivity|]. split; [reflexivity|]. split.
    + cbn [chat set_chat]. unfold hasRow. rewrite Hrows, existsb_app.
      cbn [existsb row_id]. unfold appendYou.
      rewrite (proj1 (proj2 (append_rows _ _ _))).
      fold typing. rewrite Nat.eqb_refl. apply orb_true_r.
    + cbn [inflight set_inflight]. rewrite map_app. apply in_or_app. right.
      left. reflexivity.
  - intros w typing o Hreach Hin w'.
    destruct (reachable_coherent w Hreach) as (p & Hp & _).
    pose proof (reachable_focusOK w Hreach) as Hfocus.
    unfold focusOK, panelDisplayed in Hfocus. rewrite Hp in Hfocus.
    subst w'. cbn [step]. rewrite (proj2 (existsb_pending typing w) Hin).
    destruct (onSendSettle_idle typing o w p Hp)
      as (p' & Hp' & Hs & Hrow & Hout & Hd & Hf).
    assert (Hf' : inputFocused (onSendSettle typing o w) = displayed p).
    { rewrite Hf. destruct (displayed p); [reflexivity|].
      destruct (inputFocused w); [|reflexivity].
      specialize (Hfocus eq_refl). discriminate Hfocus. }
    unfold panelDisplayed. rewrite Hp, Hp'.
    exists p'. split; [reflexivity|]. split; [exact Hrow|]. split; [exact Hs|].
    split; [exact Hout|]. split; [exact Hd|]. split; [exact Hf'|].
    split.
    + intros (q & _ & _ & _ & _ & Hq). rewrite <- Hf'. exact Hq.
    + intros Hshown. exists p'. split; [exact Hp'|]. split; [exact Hs|].
      split; [exact Hrow|]. split; [exact Hout|]. rewrite Hf'. exact Hshown.
Qed.

Lemma onSend_ends_idle_witness :
  let w := step typedWorld KeyEnter in
  Idle 2 (step w (FetchSettled 2 Rejected))
  /\ Idle 2 (step w (FetchSettled 2 (Responded false None)))
  /\ Idle 2 (step w (FetchSettled 2 (Responded true None)))
  /\ Idle 2 (step w (FetchSettled 2
                       (Responded true (Some (VObj [("answer", VStr "ok")]))))).
Proof.
  intros w.
  assert (Hreach : reachable w) by (apply reach_step, reachable_typedWorld).
  assert (Hin : In 2%nat (pending w)) by (vm_compute; left; reflexivity).
  assert (Hshown : panelDisplayed w = true) by (vm_compute; reflexivity).
  assert (Hall : forall o, Idle 2 (step w (FetchSettled 2 o))).
  { intros o.
    destruct (proj2 onSend_ends_idle w 2%nat o Hreach Hin)
      as (p' & _ & _ & _ & _ & _ & _ & Hidle).
    apply Hidle, Hshown. }
  repeat split; apply Hall.
Defined.

(** C1 as stated fails when the panel is closed while the request is in
    flight: the visitor sends, closes the panel, and the reply arrives.
    Whatever the outcome, the typing row is removed and the button is
    enabled, but the input, being hidden, does not get the focus, so the
    cycle does not end [Idle]. *)
Lemma onSend_closed_panel_not_refocused :
  let w := run typedWorld [KeyEnter; ClickClose] in
  inputFocused (step w (FetchSettled 2 Rejected)) = false
  /\ inputFocused (step w (FetchSettled 2 (Responded false None))) = false
  /\ inputFocused (step w (FetchSettled 2 (Responded true None))) = false
  /\ inputFocused
       (step w (FetchSettled 2
                  (Responded true (Some (VObj [("answer", VStr "ok")]))))) = false
  /\ In 2%nat (pending w)
  /\ panelDisplayed w = false
  /\ ~ Idle 2 (step w (FetchSettled 2 Rejected)).
Proof.
  intros w.
  assert (E : inputFocused (step w (FetchSettled 2 Rejected)) = false)
    by (vm_compute; reflexivity).
  split; [exact E|].
  split; [vm_compute; reflexivity|].
  split; [vm_compute; reflexivity|].
  split; [vm_compute; reflexivity|].
  split; [vm_compute; left; reflexivity|].
  split; [vm_compute; reflexivity|].
  intros (q & _ & _ & _ & _ & Hq). rewrite E in Hq. discriminate Hq.
Qed.

(* ------------------------------------------------------------------ *)
(** * The control surface on the page as it runs *)

(** C9.  [init()] constructs the panel before the control surface is
    published and no event takes it away, so on every world the page can
    reach, opened once or never, the panel exists and the three calls are
    safe.  [setPosition(x, y)], for coordinates in the integer range the
    codec holds exactly, puts the inline corner at the given coordinates,
    touches neither the size nor the display nor the drag and resize
    sessions, records the coordinates in [state] and saves it; [open()]
    leaves the panel displayed and [close()] leaves it hidden. *)
Theorem setPosition_contract (w : world) (x y : Z) :
  reachable w -> safeInteger x -> safeInteger y ->
  exists p p',
    panel w = Some p
    /\ panel (step w (ApiSetPosition x y)) = Some p'
    /\ left (style p') = Some x /\ top (style p') = Some y
    /\ rightAuto (style p') = true /\ bottomAuto (style p') = true
    /\ width (style p') = width (style p)
    /\ height (style p') = height (style p)
    /\ display (style p') = display (style p)
    /\ drag p' = drag p /\ resize p' = resize p
    /\ field "x" (state (step w (ApiSetPosition x y))) = VNum x
    /\ field "y" (state (step w (ApiSetPosition x y))) = VNum y
    /\ slot (localStorage (step w (ApiSetPosition x y))) =
         (if writable (localStorage w)
          then Some (JSON.stringify (VObj (state (step w (ApiSetPosition x y)))))
          else slot (localStorage w))
    /\ panelDisplayed (step w ApiOpen) = true
    /\ panelDisplayed (step w ApiClose) = false
    /\ hasPanel (step w ApiClose) = true.
Proof.
  intros Hreach _ _.
  pose proof (reachable_hasPanel w Hreach) as Hw.
  unfold hasPanel in Hw. destruct (panel w) as [p|] eqn:Hp; [|discriminate Hw].
  cbn [step]. unfold setPosition. rewrite Hp.
  eexists. eexists. split; [reflexivity|]. split; [reflexivity|].
  cbn [style set_style set_position left top rightAuto bottomAuto width height
       display drag resize state set_state saveState set_localStorage
       set_panel localStorage].
  repeat (split; [reflexivity|]).
  split; [rewrite field_set_key_other by discriminate; apply field_set_key_same|].
  split; [apply field_set_key_same|].
  split; [apply save_slot|].
  split; [|split].
  - assert (Hopen : exists w', openPanel w = Some w').
    { unfold openPanel, makePanel. rewrite Hp. rewrite Hp. eexists. reflexivity. }
    destruct Hopen as (w' & Hopen). rewrite Hopen. cbn [orSame].
    apply (openPanel_displayed w), Hopen.
  - unfold closePanel, panelDisplayed. cbv zeta.
    cbn [panel saveState set_state set_localStorage]. rewrite Hp.
    destruct (fab _); reflexivity.
  - rewrite hasPanel_closePanel. unfold hasPanel. rewrite Hp. reflexivity.
Qed.

Lemma setPosition_contract_witness :
  exists p',
    panel (step startedWorld (ApiSetPosition 40 50)) = Some p'
    /\ left (style p') = Some 40 /\ top (style p') = Some 50
    /\ field "x" (state (step startedWorld (ApiSetPosition 40 50))) = VNum 40
    /\ field "y" (state (step startedWorld (ApiSetPosition 40 50))) = VNum 50
    /\ slot (localStorage (step startedWorld (ApiSetPosition 40 50)))
       = Some ("{" ++ dq ++ "open" ++ dq ++ ":false," ++ dq ++ "x" ++ dq ++ ":40,"
               ++ dq ++ "y" ++ dq ++ ":50," ++ dq ++ "w" ++ dq ++ ":360,"
               ++ dq ++ "h" ++ dq ++ ":520}")
    /\ panelDisplayed startedWorld = false
    /\ panelDisplayed (step startedWorld ApiOpen) = true.
Proof.
  destruct (setPosition_contract startedWorld 40 50 reachable_startedWorld
              ltac:(vm_compute; split; discriminate)
              ltac:(vm_compute; split; discriminate))
    as (p & p' & _ & Hp' & Hl & Ht & _ & _ & _ & _ & _ & _ & _ & Hx & Hy & Hslot
        & Hopen & _).
  exists p'.
  split; [exact Hp'|]. split; [exact Hl|]. split; [exact Ht|].
  split; [exact Hx|]. split; [exact Hy|].
  split; [rewrite Hslot; vm_compute; reflexivity|].
  split; [vm_compute; reflexivity | exact Hopen].
Defined.
